(** * E-commerce microservices: a shallow embedding and its verification

  The development follows the Python sources service by service
  (order, product, user, notification).  Conventions of the embedding:

  - A coroutine that may raise and that reads or writes the document
    store, the clock, a peer service or the broker is a computation
    [M W A := W -> result A * W]: it returns a value or raises, and
    threads the service's world [W].  Python keeps the writes made
    before an exception, and so does [bind].
  - What the process cannot decide itself (clock readings, generated
    identifiers, HTTP answers of peer services, the broker's verdict on
    a send) is read from an environment record, indexed by the number
    of such interactions made so far ([tick]).
  - A document collection is a finite map from identifier to document.
    In the notification service every round trip to the store may
    also raise ([store_fault]); the other services are modelled with a
    store that answers.
  - The payload of a consumed event is an arbitrary JSON value
    ([Py.value]); what pydantic does with a number given for a string
    field depends on its version and is read from the environment.
  - Python [float] amounts are modelled as exact rationals [Q], and
    [round(x, 2)] as rounding to the nearest hundredth, ties to even.
    Where binary rounding changes what the order service stores, its
    arithmetic is also given on IEEE 754 binary64 values
    ([Binary64], [FloatOrder]). *)

From Stdlib Require Import ZArith QArith Qround Qminmax String Ascii List Lia
  DecimalString SpecFloat.
From stdpp Require Import base option list gmap strings sorting.

(** ** Python-level prelude *)

Module Py.

(** Exceptions.  [HTTPException] is FastAPI's; [KafkaError] is
    aiokafka's; [Error cls msg] is any other subclass of [Exception]. *)
Inductive exn : Type :=
| HTTPException (status_code : nat) (detail : string)
| KafkaError (msg : string)
| Error (cls : string) (msg : string).

Inductive result (A : Type) : Type :=
| Return (a : A)
| Raise (e : exn).
Arguments Return {A} a.
Arguments Raise {A} e.

Definition M (W A : Type) : Type := W -> result A * W.

Definition ret {W A} (a : A) : M W A := fun w => (Return a, w).

Definition raise {W A} (e : exn) : M W A := fun w => (Raise e, w).

Definition bind {W A B} (m : M W A) (k : A -> M W B) : M W B :=
  fun w =>
    match m w with
    | (Return a, w') => k a w'
    | (Raise e, w') => (Raise e, w')
    end.

(** [try: m except e: h e] *)
Definition try_except {W A} (m : M W A) (h : exn -> M W A) : M W A :=
  fun w =>
    match m w with
    | (Return a, w') => (Return a, w')
    | (Raise e, w') => h e w'
    end.

Definition gets {W A} (f : W -> A) : M W A := fun w => (Return (f w), w).

Definition modify {W} (f : W -> W) : M W unit := fun w => (Return tt, f w).

Definition is_http (e : exn) : bool :=
  match e with HTTPException _ _ => true | _ => false end.

(** [str(e)] as it appears in a log line. *)
Definition exn_str (e : exn) : string :=
  match e with
  | HTTPException _ d => d
  | KafkaError m => m
  | Error _ m => m
  end.

(** HTTP status codes used by the services ([fastapi.status]). *)
Definition HTTP_200_OK : nat := 200.
Definition HTTP_400_BAD_REQUEST : nat := 400.
Definition HTTP_401_UNAUTHORIZED : nat := 401.
Definition HTTP_403_FORBIDDEN : nat := 403.
Definition HTTP_404_NOT_FOUND : nat := 404.
Definition HTTP_409_CONFLICT : nat := 409.
Definition HTTP_500_INTERNAL_SERVER_ERROR : nat := 500.

(** Values carried by [Dict[str, Any]] payloads. *)
#[warnings="-register-all"]
Inductive value : Type :=
| VNone
| VBool (b : bool)
| VInt (z : Z)
| VFloat (q : Q)
| VStr (s : string)
| VList (l : list value)
| VDict (d : list (string * value)).

Definition dict : Type := list (string * value).

(** [d.get(k)] and [d.get(k, default)] *)
Fixpoint dict_get_default (d : dict) (k : string) (default : value) : value :=
  match d with
  | [] => default
  | (k', v) :: d' => if String.eqb k' k then v else dict_get_default d' k default
  end.

Definition dict_get (d : dict) (k : string) : value := dict_get_default d k VNone.

(** [d[k] = v]: replaces in place, or appends a new key. *)
Fixpoint dict_set (d : dict) (k : string) (v : value) : dict :=
  match d with
  | [] => [(k, v)]
  | (k', v') :: d' =>
      if String.eqb k' k then (k, v) :: d' else (k', v') :: dict_set d' k v
  end.

(** [d.update(u)] *)
Definition dict_update (d u : dict) : dict :=
  fold_left (fun acc kv => dict_set acc (fst kv) (snd kv)) u d.

Definition opt_str (o : option string) : value :=
  match o with Some s => VStr s | None => VNone end.

(** Truth value of a [str] and of an [Optional[str]]. *)
Definition str_truthy (s : string) : bool := negb (String.eqb s "").

Definition opt_truthy (o : option string) : bool :=
  match o with Some s => str_truthy s | None => false end.

(** [sep.join(parts)] *)
Definition join (sep : string) (parts : list string) : string :=
  String.concat sep parts.

(** Decimal digits, zero padded to [width] (as [%02d], [%04d], [%06d]
    do for numbers that fit). *)
Definition digit (n : nat) : ascii := ascii_of_nat (48 + n mod 10).

Fixpoint zfill (width n : nat) : string :=
  match width with
  | O => EmptyString
  | S w => zfill w (n / 10) +:+ String (digit n) EmptyString
  end.

Definition upper_ascii (c : ascii) : ascii :=
  let n := nat_of_ascii c in
  if (97 <=? n)%nat && (n <=? 122)%nat then ascii_of_nat (n - 32) else c.

(** [s.upper()] on ASCII text *)
Fixpoint upper (s : string) : string :=
  match s with
  | EmptyString => EmptyString
  | String c s' => String (upper_ascii c) (upper s')
  end.

Definition newline : string := String (ascii_of_nat 10) EmptyString.

(** [str(x)] of an optional identifier *)
Definition str_opt (o : option string) : string := default "None" o.

(** Truth value of an [Optional[datetime]]: [None] is the only false one. *)
Definition is_Some_bool {A} (o : option A) : bool :=
  match o with Some _ => true | None => false end.

(** [s[:n]] *)
Definition prefix (n : nat) (s : string) : string := String.substring 0 n s.

(** [datetime] values. *)
Record datetime : Type := {
  year : nat; month : nat; day : nat;
  hour : nat; minute : nat; second : nat; microsecond : nat
}.

(** [dt.isoformat()]: the fraction is printed only when not zero. *)
Definition isoformat (t : datetime) : string :=
  zfill 4 (year t) +:+ "-" +:+ zfill 2 (month t) +:+ "-" +:+ zfill 2 (day t)
  +:+ "T" +:+ zfill 2 (hour t) +:+ ":" +:+ zfill 2 (minute t) +:+ ":"
  +:+ zfill 2 (second t)
  +:+ (if Nat.eqb (microsecond t) 0 then "" else "." +:+ zfill 6 (microsecond t)).

(** [dt.strftime("%Y%m%d%H%M%S")] *)
Definition strftime_compact (t : datetime) : string :=
  zfill 4 (year t) +:+ zfill 2 (month t) +:+ zfill 2 (day t)
  +:+ zfill 2 (hour t) +:+ zfill 2 (minute t) +:+ zfill 2 (second t).

(** [round(q)] to the nearest integer, ties to the even neighbour. *)
Definition round_half_even (q : Q) : Z :=
  let f := Qfloor q in
  match ((q - inject_Z f) ?= (1 # 2))%Q with
  | Lt => f
  | Gt => (f + 1)%Z
  | Eq => if Z.even f then f else (f + 1)%Z
  end.

(** [round(q, 2)] *)
Definition round2 (q : Q) : Q := round_half_even (q * 100) # 100.

(** [sum(xs)] over amounts, starting from [0] and adding left to right. *)
Definition sumQ (xs : list Q) : Q := fold_left Qplus xs 0%Q.

Definition Qltb (a b : Q) : bool :=
  match (a ?= b)%Q with Lt => true | _ => false end.

(** Log records: level, message text, interpolated values. *)
Inductive level : Type := DEBUG | INFO | WARNING | ERROR.

Record LogRecord : Type := {
  levelname : level;
  msg : string;
  args : list value
}.

(** What an HTTP client call can produce: a response with a status
    code and a decoded JSON body, or an exception of the transport.
    A JSON body is the object the peer's schema describes ([JObject]),
    or a JSON value that is not an object ([JOther]: null, a boolean, a
    number, a string or a list), of which only the truth value matters.
    An object that does not follow the peer's schema is neither. *)
Inductive json (A : Type) : Type :=
| JObject (a : A)
| JOther (truthy : bool).
Arguments JObject {A} a.
Arguments JOther {A} truthy.

Inductive http_result (A : Type) : Type :=
| Response (status_code : nat) (body : json A)
| RequestError (msg : string).
Arguments Response {A} status_code body.
Arguments RequestError {A} msg.

End Py.

Declare Scope py_scope.
Delimit Scope py_scope with py.
Notation "x <- m ;; k" := (Py.bind m (fun x => k))
  (at level 100, m at next level, right associativity) : py_scope.
Notation "m ;;; k" := (Py.bind m (fun _ => k))
  (at level 100, right associativity) : py_scope.

Import Py.
Local Open Scope py_scope.
Local Open Scope string_scope.

(** ** Order service: [order_service/app/models/order.py] *)

Module OrderStatus.
Inductive t : Type :=
| PENDING | CONFIRMED | PROCESSING | SHIPPED | DELIVERED | CANCELLED | REFUNDED.

#[global] Instance eq_dec : EqDecision t.
Proof. solve_decision. Defined.

(** The value of the [str]-mixin enumeration member. *)
Definition value (s : t) : string :=
  match s with
  | PENDING => "pending"
  | CONFIRMED => "confirmed"
  | PROCESSING => "processing"
  | SHIPPED => "shipped"
  | DELIVERED => "delivered"
  | CANCELLED => "cancelled"
  | REFUNDED => "refunded"
  end.

(** [s in statuses] *)
Definition mem (s : t) (statuses : list t) : bool :=
  existsb (fun s' => bool_decide (s = s')) statuses.
End OrderStatus.

Module PaymentStatus.
Inductive t : Type := PENDING | PAID | FAILED | REFUNDED.

#[global] Instance eq_dec : EqDecision t.
Proof. solve_decision. Defined.

Definition value (s : t) : string :=
  match s with
  | PENDING => "pending"
  | PAID => "paid"
  | FAILED => "failed"
  | REFUNDED => "refunded"
  end.
End PaymentStatus.

Module OrderItem.
Record t : Type := {
  id : option string;
  product_id : string;
  product_name : string;
  product_sku : option string;
  unit_price : Q;
  quantity : Z;
  total_price : Q;
  product_snapshot : dict
}.

(** Validator [calculate_total_price(cls, v, values)]: the supplied [v]
    is ignored; a field that failed its own validation is missing from
    [values] and read as [0]. *)
Definition calculate_total_price (v : Q) (values_unit_price : option Q)
    (values_quantity : option Z) : Q :=
  let unit_price := default 0%Q values_unit_price in
  let quantity := default 0%Z values_quantity in
  round2 (unit_price * inject_Z quantity).

(** [OrderItem(product_id=..., ...)]: [quantity] is declared [gt=0]; the
    document has no identifier until it is inserted. *)
Definition new {W} (product_id product_name : string) (product_sku : option string)
    (unit_price : Q) (quantity : Z) (total_price : Q) (product_snapshot : dict)
  : M W t :=
  let values_quantity := if (0 <? quantity)%Z then Some quantity else None in
  let total := calculate_total_price total_price (Some unit_price) values_quantity in
  match values_quantity with
  | Some q =>
      ret {| id := None; product_id := product_id; product_name := product_name;
             product_sku := product_sku; unit_price := unit_price; quantity := q;
             total_price := total; product_snapshot := product_snapshot |}
  | None => raise (Error "ValidationError" "quantity: ensure this value is greater than 0")
  end.
End OrderItem.

Module ShippingAddress.
Record t : Type := {
  id : option string;
  full_name : string;
  address_line_1 : string;
  address_line_2 : option string;
  city : string;
  state : string;
  postal_code : string;
  country : string;
  phone : option string
}.

Definition with_id (i : string) (a : t) : t :=
  {| id := Some i; full_name := full_name a; address_line_1 := address_line_1 a;
     address_line_2 := address_line_2 a; city := city a; state := state a;
     postal_code := postal_code a; country := country a; phone := phone a |}.

(** [address.dict()] *)
Definition to_dict (a : t) : dict :=
  [("id", opt_str (id a)); ("full_name", VStr (full_name a));
   ("address_line_1", VStr (address_line_1 a));
   ("address_line_2", opt_str (address_line_2 a));
   ("city", VStr (city a)); ("state", VStr (state a));
   ("postal_code", VStr (postal_code a)); ("country", VStr (country a));
   ("phone", opt_str (phone a))].
End ShippingAddress.

Module Order.
Record t : Type := {
  id : option string;
  order_number : string;
  user_id : string;
  user_email : string;
  items : list OrderItem.t;
  subtotal : Q;
  tax_amount : Q;
  shipping_cost : Q;
  discount_amount : Q;
  total_amount : Q;
  status : OrderStatus.t;
  payment_status : PaymentStatus.t;
  shipping_address : ShippingAddress.t;
  shipping_method : option string;
  tracking_number : option string;
  payment_method : option string;
  payment_transaction_id : option string;
  created_at : datetime;
  updated_at : datetime;
  confirmed_at : option datetime;
  shipped_at : option datetime;
  delivered_at : option datetime;
  notes : option string;
  metadata : dict
}.

(** Validator [calculate_total_amount(cls, v, values)]: the supplied
    [v] is ignored. *)
Definition calculate_total_amount (v : Q) (subtotal tax_amount shipping_cost
    discount_amount : Q) : Q :=
  let total := (subtotal + tax_amount + shipping_cost - discount_amount)%Q in
  round2 (Qmax total 0).

(** Validator [calculate_subtotal(cls, v, values)] *)
Definition calculate_subtotal (v : Q) (items : list OrderItem.t) : Q :=
  match items with
  | [] => if Qeq_bool v 0 then 0%Q else v
  | _ :: _ => round2 (sumQ (map OrderItem.total_price items))
  end.

Definition is_editable (o : t) : bool :=
  OrderStatus.mem (status o) [OrderStatus.PENDING; OrderStatus.CONFIRMED].

Definition is_cancellable (o : t) : bool :=
  OrderStatus.mem (status o)
    [OrderStatus.PENDING; OrderStatus.CONFIRMED; OrderStatus.PROCESSING].

Definition get_item_count (o : t) : Z :=
  fold_left Z.add (map OrderItem.quantity (items o)) 0%Z.

Definition get_items_by_product (o : t) (product_id : string) : list OrderItem.t :=
  List.filter (fun item => String.eqb (OrderItem.product_id item) product_id) (items o).

(** Attribute assignment [o.f = x], one function per assigned field. *)
Definition set_id (x : option string) (o : t) : t :=
  {| id := x; order_number := order_number o; user_id := user_id o;
     user_email := user_email o; items := items o; subtotal := subtotal o;
     tax_amount := tax_amount o; shipping_cost := shipping_cost o;
     discount_amount := discount_amount o; total_amount := total_amount o;
     status := status o; payment_status := payment_status o;
     shipping_address := shipping_address o;
     shipping_method := shipping_method o;
     tracking_number := tracking_number o;
     payment_method := payment_method o;
     payment_transaction_id := payment_transaction_id o;
     created_at := created_at o; updated_at := updated_at o;
     confirmed_at := confirmed_at o; shipped_at := shipped_at o;
     delivered_at := delivered_at o; notes := notes o;
     metadata := metadata o |}.

Definition set_status (x : OrderStatus.t) (o : t) : t :=
  {| id := id o; order_number := order_number o; user_id := user_id o;
     user_email := user_email o; items := items o; subtotal := subtotal o;
     tax_amount := tax_amount o; shipping_cost := shipping_cost o;
     discount_amount := discount_amount o; total_amount := total_amount o;
     status := x; payment_status := payment_status o;
     shipping_address := shipping_address o;
     shipping_method := shipping_method o;
     tracking_number := tracking_number o;
     payment_method := payment_method o;
     payment_transaction_id := payment_transaction_id o;
     created_at := created_at o; updated_at := updated_at o;
     confirmed_at := confirmed_at o; shipped_at := shipped_at o;
     delivered_at := delivered_at o; notes := notes o;
     metadata := metadata o |}.

Definition set_payment_status (x : PaymentStatus.t) (o : t) : t :=
  {| id := id o; order_number := order_number o; user_id := user_id o;
     user_email := user_email o; items := items o; subtotal := subtotal o;
     tax_amount := tax_amount o; shipping_cost := shipping_cost o;
     discount_amount := discount_amount o; total_amount := total_amount o;
     status := status o; payment_status := x;
     shipping_address := shipping_address o;
     shipping_method := shipping_method o;
     tracking_number := tracking_number o;
     payment_method := payment_method o;
     payment_transaction_id := payment_transaction_id o;
     created_at := created_at o; updated_at := updated_at o;
     confirmed_at := confirmed_at o; shipped_at := shipped_at o;
     delivered_at := delivered_at o; notes := notes o;
     metadata := metadata o |}.

Definition set_payment_method (x : option string) (o : t) : t :=
  {| id := id o; order_number := order_number o; user_id := user_id o;
     user_email := user_email o; items := items o; subtotal := subtotal o;
     tax_amount := tax_amount o; shipping_cost := shipping_cost o;
     discount_amount := discount_amount o; total_amount := total_amount o;
     status := status o; payment_status := payment_status o;
     shipping_address := shipping_address o;
     shipping_method := shipping_method o;
     tracking_number := tracking_number o; payment_method := x;
     payment_transaction_id := payment_transaction_id o;
     created_at := created_at o; updated_at := updated_at o;
     confirmed_at := confirmed_at o; shipped_at := shipped_at o;
     delivered_at := delivered_at o; notes := notes o;
     metadata := metadata o |}.

Definition set_payment_transaction_id (x : option string) (o : t) : t :=
  {| id := id o; order_number := order_number o; user_id := user_id o;
     user_email := user_email o; items := items o; subtotal := subtotal o;
     tax_amount := tax_amount o; shipping_cost := shipping_cost o;
     discount_amount := discount_amount o; total_amount := total_amount o;
     status := status o; payment_status := payment_status o;
     shipping_address := shipping_address o;
     shipping_method := shipping_method o;
     tracking_number := tracking_number o;
     payment_method := payment_method o; payment_transaction_id := x;
     created_at := created_at o; updated_at := updated_at o;
     confirmed_at := confirmed_at o; shipped_at := shipped_at o;
     delivered_at := delivered_at o; notes := notes o;
     metadata := metadata o |}.

Definition set_updated_at (x : datetime) (o : t) : t :=
  {| id := id o; order_number := order_number o; user_id := user_id o;
     user_email := user_email o; items := items o; subtotal := subtotal o;
     tax_amount := tax_amount o; shipping_cost := shipping_cost o;
     discount_amount := discount_amount o; total_amount := total_amount o;
     status := status o; payment_status := payment_status o;
     shipping_address := shipping_address o;
     shipping_method := shipping_method o;
     tracking_number := tracking_number o;
     payment_method := payment_method o;
     payment_transaction_id := payment_transaction_id o;
     created_at := created_at o; updated_at := x;
     confirmed_at := confirmed_at o; shipped_at := shipped_at o;
     delivered_at := delivered_at o; notes := notes o;
     metadata := metadata o |}.

Definition set_confirmed_at (x : option datetime) (o : t) : t :=
  {| id := id o; order_number := order_number o; user_id := user_id o;
     user_email := user_email o; items := items o; subtotal := subtotal o;
     tax_amount := tax_amount o; shipping_cost := shipping_cost o;
     discount_amount := discount_amount o; total_amount := total_amount o;
     status := status o; payment_status := payment_status o;
     shipping_address := shipping_address o;
     shipping_method := shipping_method o;
     tracking_number := tracking_number o;
     payment_method := payment_method o;
     payment_transaction_id := payment_transaction_id o;
     created_at := created_at o; updated_at := updated_at o;
     confirmed_at := x; shipped_at := shipped_at o;
     delivered_at := delivered_at o; notes := notes o;
     metadata := metadata o |}.

Definition set_shipped_at (x : option datetime) (o : t) : t :=
  {| id := id o; order_number := order_number o; user_id := user_id o;
     user_email := user_email o; items := items o; subtotal := subtotal o;
     tax_amount := tax_amount o; shipping_cost := shipping_cost o;
     discount_amount := discount_amount o; total_amount := total_amount o;
     status := status o; payment_status := payment_status o;
     shipping_address := shipping_address o;
     shipping_method := shipping_method o;
     tracking_number := tracking_number o;
     payment_method := payment_method o;
     payment_transaction_id := payment_transaction_id o;
     created_at := created_at o; updated_at := updated_at o;
     confirmed_at := confirmed_at o; shipped_at := x;
     delivered_at := delivered_at o; notes := notes o;
     metadata := metadata o |}.

Definition set_delivered_at (x : option datetime) (o : t) : t :=
  {| id := id o; order_number := order_number o; user_id := user_id o;
     user_email := user_email o; items := items o; subtotal := subtotal o;
     tax_amount := tax_amount o; shipping_cost := shipping_cost o;
     discount_amount := discount_amount o; total_amount := total_amount o;
     status := status o; payment_status := payment_status o;
     shipping_address := shipping_address o;
     shipping_method := shipping_method o;
     tracking_number := tracking_number o;
     payment_method := payment_method o;
     payment_transaction_id := payment_transaction_id o;
     created_at := created_at o; updated_at := updated_at o;
     confirmed_at := confirmed_at o; shipped_at := shipped_at o;
     delivered_at := x; notes := notes o; metadata := metadata o |}.

Definition set_notes (x : option string) (o : t) : t :=
  {| id := id o; order_number := order_number o; user_id := user_id o;
     user_email := user_email o; items := items o; subtotal := subtotal o;
     tax_amount := tax_amount o; shipping_cost := shipping_cost o;
     discount_amount := discount_amount o; total_amount := total_amount o;
     status := status o; payment_status := payment_status o;
     shipping_address := shipping_address o;
     shipping_method := shipping_method o;
     tracking_number := tracking_number o;
     payment_method := payment_method o;
     payment_transaction_id := payment_transaction_id o;
     created_at := created_at o; updated_at := updated_at o;
     confirmed_at := confirmed_at o; shipped_at := shipped_at o;
     delivered_at := delivered_at o; notes := x; metadata := metadata o |}.
End Order.

(** ** Order service: [order_service/app/schemas/order_schemas.py] *)

Module OrderItemCreate.
Record t : Type := { product_id : string; quantity : Z }.

(** [quantity: int = Field(gt=0)] *)
Definition valid (i : t) : Prop := (0 < quantity i)%Z.
End OrderItemCreate.

Module ShippingAddressCreate.
Record t : Type := {
  full_name : string;
  address_line_1 : string;
  address_line_2 : option string;
  city : string;
  state : string;
  postal_code : string;
  country : string;
  phone : option string
}.
End ShippingAddressCreate.

Module OrderCreate.
Record t : Type := {
  items : list OrderItemCreate.t;
  shipping_address : ShippingAddressCreate.t;
  shipping_method : option string;
  payment_method : option string;
  notes : option string
}.

Definition valid (c : t) : Prop := Forall OrderItemCreate.valid (items c).
End OrderCreate.

Module OrderStatusUpdate.
Record t : Type := { status : OrderStatus.t; notes : option string }.
End OrderStatusUpdate.

Module PaymentUpdate.
Record t : Type := {
  payment_status : PaymentStatus.t;
  payment_method : option string;
  payment_transaction_id : option string
}.
End PaymentUpdate.

Module OrderItemResponse.
Record t : Type := {
  id : string;
  product_id : string;
  product_name : string;
  product_sku : option string;
  unit_price : Q;
  quantity : Z;
  total_price : Q;
  product_snapshot : dict
}.
End OrderItemResponse.

Module ShippingAddressResponse.
Record t : Type := {
  id : string;
  full_name : string;
  address_line_1 : string;
  address_line_2 : option string;
  city : string;
  state : string;
  postal_code : string;
  country : string;
  phone : option string
}.
End ShippingAddressResponse.

Module OrderResponse.
Record t : Type := {
  id : string;
  order_number : string;
  user_id : string;
  user_email : string;
  items : list OrderItemResponse.t;
  subtotal : Q;
  tax_amount : Q;
  shipping_cost : Q;
  discount_amount : Q;
  total_amount : Q;
  status : OrderStatus.t;
  payment_status : PaymentStatus.t;
  shipping_address : ShippingAddressResponse.t;
  shipping_method : option string;
  tracking_number : option string;
  payment_method : option string;
  payment_transaction_id : option string;
  created_at : datetime;
  updated_at : datetime;
  confirmed_at : option datetime;
  shipped_at : option datetime;
  delivered_at : option datetime;
  notes : option string;
  metadata : dict;
  item_count : Z;
  is_editable : bool;
  is_cancellable : bool
}.
End OrderResponse.

(** ** Order service: what it talks to, and its state *)

(** The profile object the user service answers with. *)
Module UserJson.
Record t : Type := { id : string; name : string; email : string; is_active : bool }.
End UserJson.

(** The product object the product service answers with. *)
Module ProductJson.
Record t : Type := {
  id : string;
  name : string;
  description : string;
  price : Q;
  category_name : option string;
  sku : option string;
  stock_quantity : Z;
  is_available : bool;
  image_urls : list string
}.
End ProductJson.

Module OrderEnv.
Record t : Type := {
  (** [datetime.utcnow()] *)
  utcnow : nat -> datetime;
  (** [str(uuid.uuid4())] *)
  uuid4 : nat -> string;
  (** the identifier the store gives to an inserted document *)
  object_id : nat -> string;
  (** [GET {USER_SERVICE_URL}/api/v1/users/profile], by bearer token *)
  get_profile : nat -> string -> http_result UserJson.t;
  (** [GET {PRODUCT_SERVICE_URL}/api/v1/products/{product_id}] *)
  get_product : nat -> string -> http_result ProductJson.t;
  (** [PATCH .../products/{product_id}/stock] with [quantity_change] *)
  patch_stock : nat -> string -> Z -> http_result unit;
  (** [AIOKafkaProducer(...).start()]: [None] when it succeeds *)
  producer_start : nat -> option exn;
  (** [producer.stop()] *)
  producer_stop : nat -> option exn;
  (** [producer.send_and_wait(topic, value, key=key)] *)
  send_and_wait : nat -> string -> dict -> value -> option exn
}.

(** The same environment with another broker. *)
Definition with_send_and_wait (f : nat -> string -> dict -> value -> option exn)
    (env : t) : t :=
  {| utcnow := utcnow env; uuid4 := uuid4 env; object_id := object_id env;
     get_profile := get_profile env; get_product := get_product env;
     patch_stock := patch_stock env; producer_start := producer_start env;
     producer_stop := producer_stop env; send_and_wait := f |}.
End OrderEnv.

Module OrderWorld.
Record t : Type := {
  orders : gmap string Order.t;
  shipping_addresses : gmap string ShippingAddress.t;
  (** the process-wide [kafka_producer] object *)
  kafka_enabled : bool;
  producer : bool;
  (** records acknowledged by the broker: topic, value, key *)
  delivered : list (string * dict * value);
  log : list LogRecord;
  tick : nat
}.

Definition set_orders (f : gmap string Order.t -> gmap string Order.t) (w : t) : t :=
  {| orders := f (orders w); shipping_addresses := shipping_addresses w;
     kafka_enabled := kafka_enabled w; producer := producer w;
     delivered := delivered w; log := log w; tick := tick w |}.

Definition set_shipping_addresses
    (f : gmap string ShippingAddress.t -> gmap string ShippingAddress.t) (w : t) : t :=
  {| orders := orders w; shipping_addresses := f (shipping_addresses w);
     kafka_enabled := kafka_enabled w; producer := producer w;
     delivered := delivered w; log := log w; tick := tick w |}.

Definition set_producer (b : bool) (w : t) : t :=
  {| orders := orders w; shipping_addresses := shipping_addresses w;
     kafka_enabled := kafka_enabled w; producer := b;
     delivered := delivered w; log := log w; tick := tick w |}.

Definition add_delivered (r : string * dict * value) (w : t) : t :=
  {| orders := orders w; shipping_addresses := shipping_addresses w;
     kafka_enabled := kafka_enabled w; producer := producer w;
     delivered := delivered w ++ [r]; log := log w; tick := tick w |}.

Definition add_log (r : LogRecord) (w : t) : t :=
  {| orders := orders w; shipping_addresses := shipping_addresses w;
     kafka_enabled := kafka_enabled w; producer := producer w;
     delivered := delivered w; log := log w ++ [r]; tick := tick w |}.

Definition next_tick (w : t) : t :=
  {| orders := orders w; shipping_addresses := shipping_addresses w;
     kafka_enabled := kafka_enabled w; producer := producer w;
     delivered := delivered w; log := log w; tick := S (tick w) |}.
End OrderWorld.

Module OrderIO.
Import OrderWorld.

(** One interaction with the outside: answer number [tick]. *)
Definition ask {A} (f : nat -> A) : M OrderWorld.t A :=
  fun w => (Return (f (tick w)), next_tick w).

Definition logger (l : level) (text : string) (a : list value) : M OrderWorld.t unit :=
  modify (add_log {| levelname := l; msg := text; args := a |}).

(** An HTTP call inside a [try]: a transport failure is an exception. *)
Definition request {A} (f : nat -> http_result A) : M OrderWorld.t (nat * json A) :=
  r <- ask f ;;
  match r with
  | Response code body => ret (code, body)
  | RequestError m => raise (Error "RequestError" m)
  end.
End OrderIO.

(** ** Order service: [order_service/app/utils/external_services.py] *)

Definition json_truthy {A} (j : json A) : bool :=
  match j with JObject _ => true | JOther b => b end.

(** Truth value of an [Optional[Dict]] as returned by a client. *)
Definition answer_truthy {A} (o : option (json A)) : bool :=
  match o with Some j => json_truthy j | None => false end.

Module UserServiceClient.
Import OrderIO.

Definition verify_user_token (env : OrderEnv.t) (token : string)
  : M OrderWorld.t (option (json UserJson.t)) :=
  try_except
    (r <- request (fun n => OrderEnv.get_profile env n token) ;;
     if Nat.eqb (fst r) HTTP_200_OK then ret (Some (snd r))
     else
       (logger ERROR "Failed to verify token: {response.status_code}"
          [VInt (Z.of_nat (fst r))] ;;;
        ret None))
    (fun e =>
       logger ERROR "Error verifying token: {e}" [VStr (exn_str e)] ;;;
       ret None).
End UserServiceClient.

Module Availability.
Record t : Type := {
  available : bool;
  reason : option string;
  available_quantity : Z;
  requested_quantity : option Z;
  product : option ProductJson.t
}.
End Availability.

Module Reservation.
Record t : Type := {
  product_id : string;
  quantity : Z;
  reserved : bool;
  product : option ProductJson.t;
  reason : option string;
  available_quantity : option Z
}.
End Reservation.

Module ReservationResult.
Record t : Type := {
  success : bool;
  total_items : nat;
  reserved_items : nat;
  reservations : list Reservation.t
}.
End ReservationResult.

Module ProductServiceClient.
Import OrderIO.

Definition get_product_by_id (env : OrderEnv.t) (product_id : string)
  : M OrderWorld.t (option (json ProductJson.t)) :=
  try_except
    (r <- request (fun n => OrderEnv.get_product env n product_id) ;;
     if Nat.eqb (fst r) HTTP_200_OK then ret (Some (snd r))
     else
       (logger ERROR "Failed to get product {product_id}: {response.status_code}"
          [VStr product_id; VInt (Z.of_nat (fst r))] ;;;
        ret None))
    (fun e =>
       logger ERROR "Error getting product {product_id}: {e}"
         [VStr product_id; VStr (exn_str e)] ;;;
       ret None).

(** [products[product_id] = product] for every product that is found *)
Fixpoint get_products_by_ids (env : OrderEnv.t) (product_ids : list string)
    (products : gmap string (json ProductJson.t))
  : M OrderWorld.t (gmap string (json ProductJson.t)) :=
  match product_ids with
  | [] => ret products
  | product_id :: rest =>
      product <- get_product_by_id env product_id ;;
      match product with
      | Some j =>
          if json_truthy j then get_products_by_ids env rest (<[product_id := j]> products)
          else get_products_by_ids env rest products
      | None => get_products_by_ids env rest products
      end
  end.

Definition check_product_availability (env : OrderEnv.t) (product_id : string)
    (quantity : Z) : M OrderWorld.t Availability.t :=
  try_except
    (product <- get_product_by_id env product_id ;;
     if negb (answer_truthy product) then
       ret {| Availability.available := false;
              Availability.reason := Some "Product not found";
              Availability.available_quantity := 0;
              Availability.requested_quantity := None;
              Availability.product := None |}
     else
       match product with
       | Some (JObject p) =>
           if negb (ProductJson.is_available p) then
             ret {| Availability.available := false;
                    Availability.reason := Some "Product not available";
                    Availability.available_quantity := 0;
                    Availability.requested_quantity := None;
                    Availability.product := None |}
           else
             let stock_quantity := ProductJson.stock_quantity p in
             if (stock_quantity <? quantity)%Z then
               ret {| Availability.available := false;
                      Availability.reason := Some "Insufficient stock";
                      Availability.available_quantity := stock_quantity;
                      Availability.requested_quantity := Some quantity;
                      Availability.product := None |}
             else
               ret {| Availability.available := true;
                      Availability.reason := None;
                      Availability.available_quantity := stock_quantity;
                      Availability.requested_quantity := None;
                      Availability.product := Some p |}
       | _ =>
           (* a truthy JSON value that is not an object has no [get] *)
           raise (Error "AttributeError" "object has no attribute 'get'")
       end)
    (fun e =>
       logger ERROR "Error checking product availability {product_id}: {e}"
         [VStr product_id; VStr (exn_str e)] ;;;
       ret {| Availability.available := false;
              Availability.reason := Some "Service error";
              Availability.available_quantity := 0;
              Availability.requested_quantity := None;
              Availability.product := None |}).

(** The loop of [reserve_products], with its two accumulators. *)
Fixpoint reserve_loop (env : OrderEnv.t) (items : list (string * Z))
    (reservations : list Reservation.t) (total_reserved : nat)
  : M OrderWorld.t (list Reservation.t * nat) :=
  match items with
  | [] => ret (reservations, total_reserved)
  | (product_id, quantity) :: rest =>
      availability <- check_product_availability env product_id quantity ;;
      if Availability.available availability then
        match Availability.product availability with
        | Some p =>
            reserve_loop env rest
              (reservations ++
                 [{| Reservation.product_id := product_id;
                     Reservation.quantity := quantity;
                     Reservation.reserved := true;
                     Reservation.product := Some p;
                     Reservation.reason := None;
                     Reservation.available_quantity := None |}])
              (total_reserved + 1)
        | None => raise (Error "KeyError" "product")
        end
      else
        match Availability.reason availability with
        | Some r =>
            reserve_loop env rest
              (reservations ++
                 [{| Reservation.product_id := product_id;
                     Reservation.quantity := quantity;
                     Reservation.reserved := false;
                     Reservation.product := None;
                     Reservation.reason := Some r;
                     Reservation.available_quantity :=
                       Some (Availability.available_quantity availability) |}])
              total_reserved
        | None => raise (Error "KeyError" "reason")
        end
  end.

Definition reserve_products (env : OrderEnv.t) (items : list (string * Z))
  : M OrderWorld.t ReservationResult.t :=
  r <- reserve_loop env items [] 0 ;;
  ret {| ReservationResult.success := Nat.eqb (snd r) (length items);
         ReservationResult.total_items := length items;
         ReservationResult.reserved_items := snd r;
         ReservationResult.reservations := fst r |}.

Definition update_product_stock (env : OrderEnv.t) (product_id : string)
    (quantity_change : Z) : M OrderWorld.t bool :=
  try_except
    (logger INFO "Stock update request for product {product_id}: {quantity_change}"
       [VStr product_id; VInt quantity_change] ;;;
     r <- request (fun n => OrderEnv.patch_stock env n product_id quantity_change) ;;
     ret (Nat.eqb (fst r) HTTP_200_OK))
    (fun e =>
       logger ERROR "Error updating product stock {product_id}: {e}"
         [VStr product_id; VStr (exn_str e)] ;;;
       ret false).
End ProductServiceClient.

(** ** Order service: [order_service/app/utils/kafka_producer.py] *)

Module OrderEvents.
Definition ORDER_CREATED : string := "order.created".
Definition ORDER_CONFIRMED : string := "order.confirmed".
Definition ORDER_CANCELLED : string := "order.cancelled".
Definition ORDER_SHIPPED : string := "order.shipped".
Definition ORDER_DELIVERED : string := "order.delivered".
Definition ORDER_PAYMENT_COMPLETED : string := "order.payment_completed".
Definition ORDER_PAYMENT_FAILED : string := "order.payment_failed".
Definition ORDER_REFUNDED : string := "order.refunded".
End OrderEvents.

Module KafkaProducer.
Import OrderIO OrderWorld.

Definition start (env : OrderEnv.t) : M OrderWorld.t unit :=
  enabled <- gets kafka_enabled ;;
  if negb enabled then
    logger INFO "Kafka is disabled, skipping producer initialization" []
  else
    try_except
      (r <- ask (OrderEnv.producer_start env) ;;
       match r with
       | Some e => raise e
       | None =>
           modify (set_producer true) ;;;
           logger INFO "Kafka producer started successfully with servers: {self.bootstrap_servers}" []
       end)
      (fun e =>
         logger ERROR "Failed to start Kafka producer: {e}" [VStr (exn_str e)] ;;;
         modify (set_producer false)).

Definition stop (env : OrderEnv.t) : M OrderWorld.t unit :=
  p <- gets producer ;;
  if p then
    try_except
      (r <- ask (OrderEnv.producer_stop env) ;;
       match r with
       | Some e => raise e
       | None => logger INFO "Kafka producer stopped successfully" []
       end)
      (fun e => logger ERROR "Error stopping Kafka producer: {e}" [VStr (exn_str e)])
  else ret tt.

Definition enrich (topic : string) (event_data : dict) : dict :=
  [("service", VStr "order-service");
   ("timestamp", dict_get event_data "timestamp");
   ("event_type", VStr topic);
   ("data", VDict event_data)].

Definition send_event (env : OrderEnv.t) (topic : string) (event_data : dict)
    (key : value) : M OrderWorld.t unit :=
  enabled <- gets kafka_enabled ;;
  p <- gets producer ;;
  if negb enabled || negb p then
    logger DEBUG "Kafka disabled or producer not available, skipping event: {topic}"
      [VStr topic]
  else
    try_except
      (let enriched_event := enrich topic event_data in
       r <- ask (fun n => OrderEnv.send_and_wait env n topic enriched_event key) ;;
       match r with
       | Some e => raise e
       | None =>
           modify (add_delivered (topic, enriched_event, key)) ;;;
           logger INFO "Event sent to topic '{topic}': {event_type}"
             [VStr topic; dict_get_default event_data "event_type" (VStr "unknown")]
       end)
      (fun e =>
         match e with
         | KafkaError _ =>
             logger ERROR "Kafka error sending event to topic '{topic}': {e}"
               [VStr topic; VStr (exn_str e)]
         | _ =>
             logger ERROR "Unexpected error sending event to topic '{topic}': {e}"
               [VStr topic; VStr (exn_str e)]
         end).

Definition publish_order_created_event (env : OrderEnv.t) (order_data : dict)
  : M OrderWorld.t unit :=
  let event_data :=
    [("event_type", VStr OrderEvents.ORDER_CREATED);
     ("order_id", dict_get order_data "id");
     ("order_number", dict_get order_data "order_number");
     ("user_id", dict_get order_data "user_id");
     ("user_email", dict_get order_data "user_email");
     ("total_amount", dict_get order_data "total_amount");
     ("item_count", dict_get order_data "item_count");
     ("items", dict_get_default order_data "items" (VList []));
     ("timestamp", dict_get order_data "created_at")] in
  send_event env "order-events" event_data (dict_get order_data "id").

Definition publish_order_confirmed_event (env : OrderEnv.t) (order_data : dict)
  : M OrderWorld.t unit :=
  let event_data :=
    [("event_type", VStr OrderEvents.ORDER_CONFIRMED);
     ("order_id", dict_get order_data "id");
     ("order_number", dict_get order_data "order_number");
     ("user_id", dict_get order_data "user_id");
     ("user_email", dict_get order_data "user_email");
     ("total_amount", dict_get order_data "total_amount");
     ("items", dict_get_default order_data "items" (VList []));
     ("timestamp", dict_get order_data "confirmed_at")] in
  send_event env "order-events" event_data (dict_get order_data "id").

Definition publish_order_cancelled_event (env : OrderEnv.t) (order_data : dict)
  : M OrderWorld.t unit :=
  let event_data :=
    [("event_type", VStr OrderEvents.ORDER_CANCELLED);
     ("order_id", dict_get order_data "id");
     ("order_number", dict_get order_data "order_number");
     ("user_id", dict_get order_data "user_id");
     ("user_email", dict_get order_data "user_email");
     ("total_amount", dict_get order_data "total_amount");
     ("reason", dict_get order_data "cancellation_reason");
     ("timestamp", dict_get order_data "updated_at")] in
  send_event env "order-events" event_data (dict_get order_data "id").

Definition publish_order_shipped_event (env : OrderEnv.t) (order_data : dict)
  : M OrderWorld.t unit :=
  let event_data :=
    [("event_type", VStr OrderEvents.ORDER_SHIPPED);
     ("order_id", dict_get order_data "id");
     ("order_number", dict_get order_data "order_number");
     ("user_id", dict_get order_data "user_id");
     ("user_email", dict_get order_data "user_email");
     ("tracking_number", dict_get order_data "tracking_number");
     ("shipping_method", dict_get order_data "shipping_method");
     ("shipping_address", dict_get order_data "shipping_address");
     ("timestamp", dict_get order_data "shipped_at")] in
  send_event env "order-events" event_data (dict_get order_data "id").

Definition publish_order_delivered_event (env : OrderEnv.t) (order_data : dict)
  : M OrderWorld.t unit :=
  let event_data :=
    [("event_type", VStr OrderEvents.ORDER_DELIVERED);
     ("order_id", dict_get order_data "id");
     ("order_number", dict_get order_data "order_number");
     ("user_id", dict_get order_data "user_id");
     ("user_email", dict_get order_data "user_email");
     ("total_amount", dict_get order_data "total_amount");
     ("timestamp", dict_get order_data "delivered_at")] in
  send_event env "order-events" event_data (dict_get order_data "id").

Definition publish_payment_completed_event (env : OrderEnv.t) (order_data : dict)
  : M OrderWorld.t unit :=
  let event_data :=
    [("event_type", VStr OrderEvents.ORDER_PAYMENT_COMPLETED);
     ("order_id", dict_get order_data "id");
     ("order_number", dict_get order_data "order_number");
     ("user_id", dict_get order_data "user_id");
     ("user_email", dict_get order_data "user_email");
     ("total_amount", dict_get order_data "total_amount");
     ("payment_method", dict_get order_data "payment_method");
     ("payment_transaction_id", dict_get order_data "payment_transaction_id");
     ("timestamp", dict_get order_data "updated_at")] in
  send_event env "order-events" event_data (dict_get order_data "id").

Definition publish_payment_failed_event (env : OrderEnv.t) (order_data : dict)
  : M OrderWorld.t unit :=
  let event_data :=
    [("event_type", VStr OrderEvents.ORDER_PAYMENT_FAILED);
     ("order_id", dict_get order_data "id");
     ("order_number", dict_get order_data "order_number");
     ("user_id", dict_get order_data "user_id");
     ("user_email", dict_get order_data "user_email");
     ("total_amount", dict_get order_data "total_amount");
     ("payment_method", dict_get order_data "payment_method");
     ("failure_reason", dict_get order_data "failure_reason");
     ("timestamp", dict_get order_data "updated_at")] in
  send_event env "order-events" event_data (dict_get order_data "id").
End KafkaProducer.

(** ** Document collections *)

(** The documents of a collection.  The identifier of a document read
    from the store is the key it is stored under. *)
Definition documents {D} (set_id : option string -> D -> D) (collection : gmap string D)
  : list D :=
  map (fun kd => set_id (Some (fst kd)) (snd kd)) (map_to_list collection).

(** [Document.get(id)] *)
Definition get_document {D} (set_id : option string -> D -> D) (i : string)
    (collection : gmap string D) : option D :=
  set_id (Some i) <$> collection !! i.

(** [Document.find_one(condition)]: some document that satisfies the
    condition, if there is one. *)
Definition find_one {D} (set_id : option string -> D -> D) (cond : D -> bool)
    (collection : gmap string D) : option D :=
  head (List.filter cond (documents set_id collection)).

(** ** Order service: documents and [order_service/app/repositories/order_repository.py] *)

(** The keyword arguments [order_data] given to the [Order]
    constructor: a field with a default may be left out. *)
Module OrderData.
Record t : Type := {
  order_number : string;
  user_id : string;
  user_email : string;
  items : list OrderItem.t;
  subtotal : Q;
  tax_amount : option Q;
  shipping_cost : option Q;
  discount_amount : option Q;
  total_amount : Q;
  status : option OrderStatus.t;
  payment_status : option PaymentStatus.t;
  shipping_address : ShippingAddress.t;
  shipping_method : option string;
  tracking_number : option string;
  payment_method : option string;
  payment_transaction_id : option string;
  created_at : option datetime;
  updated_at : option datetime;
  confirmed_at : option datetime;
  shipped_at : option datetime;
  delivered_at : option datetime;
  notes : option string;
  metadata : option dict
}.

(** The same keyword arguments with another [total_amount]. *)
Definition set_total_amount (x : Q) (d : t) : t :=
  {| order_number := order_number d; user_id := user_id d; user_email := user_email d;
     items := items d; subtotal := subtotal d; tax_amount := tax_amount d;
     shipping_cost := shipping_cost d; discount_amount := discount_amount d;
     total_amount := x; status := status d; payment_status := payment_status d;
     shipping_address := shipping_address d; shipping_method := shipping_method d;
     tracking_number := tracking_number d; payment_method := payment_method d;
     payment_transaction_id := payment_transaction_id d; created_at := created_at d;
     updated_at := updated_at d; confirmed_at := confirmed_at d;
     shipped_at := shipped_at d; delivered_at := delivered_at d; notes := notes d;
     metadata := metadata d |}.
End OrderData.

Module OrderDocument.
Import OrderIO OrderWorld.

(** A field with [default_factory=datetime.utcnow] *)
Definition or_utcnow (env : OrderEnv.t) (supplied : option datetime)
  : M OrderWorld.t datetime :=
  match supplied with
  | Some t => ret t
  | None => ask (OrderEnv.utcnow env)
  end.

(** The [Order] constructor: fields are validated in declaration order, so
    [calculate_subtotal] has run when [calculate_total_amount] reads
    [values]. *)
Definition new (env : OrderEnv.t) (d : OrderData.t) : M OrderWorld.t Order.t :=
  let subtotal := Order.calculate_subtotal (OrderData.subtotal d) (OrderData.items d) in
  let tax_amount := default 0%Q (OrderData.tax_amount d) in
  let shipping_cost := default 0%Q (OrderData.shipping_cost d) in
  let discount_amount := default 0%Q (OrderData.discount_amount d) in
  let total_amount :=
    Order.calculate_total_amount (OrderData.total_amount d)
      subtotal tax_amount shipping_cost discount_amount in
  created_at <- or_utcnow env (OrderData.created_at d) ;;
  updated_at <- or_utcnow env (OrderData.updated_at d) ;;
  ret {| Order.id := None;
         Order.order_number := OrderData.order_number d;
         Order.user_id := OrderData.user_id d;
         Order.user_email := OrderData.user_email d;
         Order.items := OrderData.items d;
         Order.subtotal := subtotal;
         Order.tax_amount := tax_amount;
         Order.shipping_cost := shipping_cost;
         Order.discount_amount := discount_amount;
         Order.total_amount := total_amount;
         Order.status := default OrderStatus.PENDING (OrderData.status d);
         Order.payment_status :=
           default PaymentStatus.PENDING (OrderData.payment_status d);
         Order.shipping_address := OrderData.shipping_address d;
         Order.shipping_method := OrderData.shipping_method d;
         Order.tracking_number := OrderData.tracking_number d;
         Order.payment_method := OrderData.payment_method d;
         Order.payment_transaction_id := OrderData.payment_transaction_id d;
         Order.created_at := created_at;
         Order.updated_at := updated_at;
         Order.confirmed_at := OrderData.confirmed_at d;
         Order.shipped_at := OrderData.shipped_at d;
         Order.delivered_at := OrderData.delivered_at d;
         Order.notes := OrderData.notes d;
         Order.metadata := default [] (OrderData.metadata d) |}.

(** [await order.insert()] *)
Definition insert (env : OrderEnv.t) (o : Order.t) : M OrderWorld.t Order.t :=
  i <- ask (OrderEnv.object_id env) ;;
  let o' := Order.set_id (Some i) o in
  modify (set_orders (fun m => <[i := o']> m)) ;;;
  ret o'.

(** [await Order.get(order_id)] *)
Definition get (order_id : string) : M OrderWorld.t (option Order.t) :=
  gets (fun w => get_document Order.set_id order_id (orders w)).

(** [await order.save()] *)
Definition save (env : OrderEnv.t) (o : Order.t) : M OrderWorld.t Order.t :=
  match Order.id o with
  | Some i => modify (set_orders (fun m => <[i := o]> m)) ;;; ret o
  | None => insert env o
  end.

(** A [ShippingAddress] built from the request's address, then [insert()] *)
Definition insert_address (env : OrderEnv.t) (a : ShippingAddressCreate.t)
  : M OrderWorld.t ShippingAddress.t :=
  i <- ask (OrderEnv.object_id env) ;;
  let a' :=
    {| ShippingAddress.id := Some i;
       ShippingAddress.full_name := ShippingAddressCreate.full_name a;
       ShippingAddress.address_line_1 := ShippingAddressCreate.address_line_1 a;
       ShippingAddress.address_line_2 := ShippingAddressCreate.address_line_2 a;
       ShippingAddress.city := ShippingAddressCreate.city a;
       ShippingAddress.state := ShippingAddressCreate.state a;
       ShippingAddress.postal_code := ShippingAddressCreate.postal_code a;
       ShippingAddress.country := ShippingAddressCreate.country a;
       ShippingAddress.phone := ShippingAddressCreate.phone a |} in
  modify (set_shipping_addresses (fun m => <[i := a']> m)) ;;;
  ret a'.
End OrderDocument.

Module OrderRepository.
Import OrderIO OrderWorld.

Definition create_order (env : OrderEnv.t) (order_data : OrderData.t)
  : M OrderWorld.t Order.t :=
  order <- OrderDocument.new env order_data ;;
  OrderDocument.insert env order.

Definition get_order_by_id (order_id : string) : M OrderWorld.t (option Order.t) :=
  try_except (OrderDocument.get order_id) (fun _ => ret None).

(** The [if/elif] chain that stamps a milestone on first entry. *)
Definition stamp_milestone (env : OrderEnv.t) (status : OrderStatus.t) (order : Order.t)
  : M OrderWorld.t Order.t :=
  if bool_decide (status = OrderStatus.CONFIRMED)
     && negb (is_Some_bool (Order.confirmed_at order)) then
    t <- ask (OrderEnv.utcnow env) ;;
    ret (Order.set_confirmed_at (Some t) order)
  else if bool_decide (status = OrderStatus.SHIPPED)
     && negb (is_Some_bool (Order.shipped_at order)) then
    t <- ask (OrderEnv.utcnow env) ;;
    ret (Order.set_shipped_at (Some t) order)
  else if bool_decide (status = OrderStatus.DELIVERED)
     && negb (is_Some_bool (Order.delivered_at order)) then
    t <- ask (OrderEnv.utcnow env) ;;
    ret (Order.set_delivered_at (Some t) order)
  else ret order.

(** [if notes: ...] appending a line stamped with the current time. *)
Definition add_notes (env : OrderEnv.t) (notes : option string) (order : Order.t)
  : M OrderWorld.t Order.t :=
  match notes with
  | Some n =>
      if str_truthy n then
        if opt_truthy (Order.notes order) then
          t <- ask (OrderEnv.utcnow env) ;;
          ret (Order.set_notes
                 (Some (default "" (Order.notes order)
                        +:+ newline +:+ isoformat t +:+ ": " +:+ n)) order)
        else
          t <- ask (OrderEnv.utcnow env) ;;
          ret (Order.set_notes (Some (isoformat t +:+ ": " +:+ n)) order)
      else ret order
  | None => ret order
  end.

Definition update_order_status (env : OrderEnv.t) (order_id : string)
    (status : OrderStatus.t) (notes : option string)
  : M OrderWorld.t (option Order.t) :=
  try_except
    (found <- OrderDocument.get order_id ;;
     match found with
     | None => ret None
     | Some order =>
         let order := Order.set_status status order in
         now <- ask (OrderEnv.utcnow env) ;;
         let order := Order.set_updated_at now order in
         order <- stamp_milestone env status order ;;
         order <- add_notes env notes order ;;
         order <- OrderDocument.save env order ;;
         ret (Some order)
     end)
    (fun _ => ret None).

Definition update_payment_status (env : OrderEnv.t) (order_id : string)
    (payment_status : PaymentStatus.t) (payment_transaction_id : option string)
  : M OrderWorld.t (option Order.t) :=
  try_except
    (found <- OrderDocument.get order_id ;;
     match found with
     | None => ret None
     | Some order =>
         let order := Order.set_payment_status payment_status order in
         now <- ask (OrderEnv.utcnow env) ;;
         let order := Order.set_updated_at now order in
         let order :=
           if opt_truthy payment_transaction_id
           then Order.set_payment_transaction_id payment_transaction_id order
           else order in
         order <- OrderDocument.save env order ;;
         ret (Some order)
     end)
    (fun _ => ret None).

Definition delete_order (env : OrderEnv.t) (order_id : string) : M OrderWorld.t bool :=
  try_except
    (found <- OrderDocument.get order_id ;;
     match found with
     | Some order =>
         if Order.is_cancellable order then
           let order := Order.set_status OrderStatus.CANCELLED order in
           now <- ask (OrderEnv.utcnow env) ;;
           let order := Order.set_updated_at now order in
           OrderDocument.save env order ;;;
           ret true
         else ret false
     | None => ret false
     end)
    (fun _ => ret false).
End OrderRepository.

(** ** Order service: [order_service/app/services/order_service.py] *)

Module OrderService.
Import OrderIO OrderWorld.

Definition _generate_order_number (env : OrderEnv.t) : M OrderWorld.t string :=
  now <- ask (OrderEnv.utcnow env) ;;
  let timestamp := strftime_compact now in
  u <- ask (OrderEnv.uuid4 env) ;;
  let random_suffix := upper (prefix 8 u) in
  ret ("ORD-" +:+ timestamp +:+ "-" +:+ random_suffix).

Definition item_response (item : OrderItem.t) : OrderItemResponse.t :=
  {| OrderItemResponse.id := str_opt (OrderItem.id item);
     OrderItemResponse.product_id := OrderItem.product_id item;
     OrderItemResponse.product_name := OrderItem.product_name item;
     OrderItemResponse.product_sku := OrderItem.product_sku item;
     OrderItemResponse.unit_price := OrderItem.unit_price item;
     OrderItemResponse.quantity := OrderItem.quantity item;
     OrderItemResponse.total_price := OrderItem.total_price item;
     OrderItemResponse.product_snapshot := OrderItem.product_snapshot item |}.

Definition _convert_to_response (order : Order.t) : M OrderWorld.t OrderResponse.t :=
  let items_response := map item_response (Order.items order) in
  let a := Order.shipping_address order in
  let shipping_address_response :=
    {| ShippingAddressResponse.id := str_opt (ShippingAddress.id a);
       ShippingAddressResponse.full_name := ShippingAddress.full_name a;
       ShippingAddressResponse.address_line_1 := ShippingAddress.address_line_1 a;
       ShippingAddressResponse.address_line_2 := ShippingAddress.address_line_2 a;
       ShippingAddressResponse.city := ShippingAddress.city a;
       ShippingAddressResponse.state := ShippingAddress.state a;
       ShippingAddressResponse.postal_code := ShippingAddress.postal_code a;
       ShippingAddressResponse.country := ShippingAddress.country a;
       ShippingAddressResponse.phone := ShippingAddress.phone a |} in
  ret {| OrderResponse.id := str_opt (Order.id order);
         OrderResponse.order_number := Order.order_number order;
         OrderResponse.user_id := Order.user_id order;
         OrderResponse.user_email := Order.user_email order;
         OrderResponse.items := items_response;
         OrderResponse.subtotal := Order.subtotal order;
         OrderResponse.tax_amount := Order.tax_amount order;
         OrderResponse.shipping_cost := Order.shipping_cost order;
         OrderResponse.discount_amount := Order.discount_amount order;
         OrderResponse.total_amount := Order.total_amount order;
         OrderResponse.status := Order.status order;
         OrderResponse.payment_status := Order.payment_status order;
         OrderResponse.shipping_address := shipping_address_response;
         OrderResponse.shipping_method := Order.shipping_method order;
         OrderResponse.tracking_number := Order.tracking_number order;
         OrderResponse.payment_method := Order.payment_method order;
         OrderResponse.payment_transaction_id := Order.payment_transaction_id order;
         OrderResponse.created_at := Order.created_at order;
         OrderResponse.updated_at := Order.updated_at order;
         OrderResponse.confirmed_at := Order.confirmed_at order;
         OrderResponse.shipped_at := Order.shipped_at order;
         OrderResponse.delivered_at := Order.delivered_at order;
         OrderResponse.notes := Order.notes order;
         OrderResponse.metadata := Order.metadata order;
         OrderResponse.item_count := Order.get_item_count order;
         OrderResponse.is_editable := Order.is_editable order;
         OrderResponse.is_cancellable := Order.is_cancellable order |}.

(** The text of one failed line in the [BadRequest] detail. *)
Definition error_detail (item : Reservation.t) : string :=
  "Product " +:+ Reservation.product_id item +:+ ": "
  +:+ default "Unknown error" (Reservation.reason item).

Definition product_snapshot (product : ProductJson.t) : dict :=
  [("name", VStr (ProductJson.name product));
   ("description", VStr (ProductJson.description product));
   ("price", VFloat (ProductJson.price product));
   ("category_name", opt_str (ProductJson.category_name product));
   ("image_urls", VList (map VStr (ProductJson.image_urls product)))].

(** The loop over [zip(order_data.items, reservations)] that builds the
    order lines and accumulates [subtotal]. *)
Fixpoint build_items (pairs : list (OrderItemCreate.t * Reservation.t))
    (order_items : list OrderItem.t) (subtotal : Q)
  : M OrderWorld.t (list OrderItem.t * Q) :=
  match pairs with
  | [] => ret (order_items, subtotal)
  | (item_data, reservation) :: rest =>
      if Reservation.reserved reservation then
        match Reservation.product reservation with
        | Some product =>
            order_item <-
              OrderItem.new
                (OrderItemCreate.product_id item_data)
                (ProductJson.name product)
                (ProductJson.sku product)
                (ProductJson.price product)
                (OrderItemCreate.quantity item_data)
                (ProductJson.price product * inject_Z (OrderItemCreate.quantity item_data))
                (product_snapshot product) ;;
            build_items rest (order_items ++ [order_item])
              (subtotal + OrderItem.total_price order_item)%Q
        | None => raise (Error "KeyError" "product")
        end
      else build_items rest order_items subtotal
  end.

Definition event_item (item : OrderItem.t) : value :=
  VDict [("product_id", VStr (OrderItem.product_id item));
         ("product_name", VStr (OrderItem.product_name item));
         ("quantity", VInt (OrderItem.quantity item));
         ("unit_price", VFloat (OrderItem.unit_price item))].

(** The dictionary [order_dict] handed to the repository. *)
Definition order_dict (order_number user_id user_email : string)
    (order_items : list OrderItem.t) (subtotal tax_amount shipping_cost total_amount : Q)
    (shipping_address : ShippingAddress.t) (order_data : OrderCreate.t) : OrderData.t :=
  {| OrderData.order_number := order_number;
     OrderData.user_id := user_id;
     OrderData.user_email := user_email;
     OrderData.items := order_items;
     OrderData.subtotal := subtotal;
     OrderData.tax_amount := Some tax_amount;
     OrderData.shipping_cost := Some shipping_cost;
     OrderData.discount_amount := Some 0%Q;
     OrderData.total_amount := total_amount;
     OrderData.status := Some OrderStatus.PENDING;
     OrderData.payment_status := Some PaymentStatus.PENDING;
     OrderData.shipping_address := shipping_address;
     OrderData.shipping_method := OrderCreate.shipping_method order_data;
     OrderData.tracking_number := None;
     OrderData.payment_method := OrderCreate.payment_method order_data;
     OrderData.payment_transaction_id := None;
     OrderData.created_at := None;
     OrderData.updated_at := None;
     OrderData.confirmed_at := None;
     OrderData.shipped_at := None;
     OrderData.delivered_at := None;
     OrderData.notes := OrderCreate.notes order_data;
     OrderData.metadata := Some [] |}.

(** The dictionary [order_event_data] of a created order. *)
Definition order_created_data (order : Order.t) : dict :=
  [("id", VStr (str_opt (Order.id order)));
   ("order_number", VStr (Order.order_number order));
   ("user_id", VStr (Order.user_id order));
   ("user_email", VStr (Order.user_email order));
   ("total_amount", VFloat (Order.total_amount order));
   ("item_count", VInt (Order.get_item_count order));
   ("items", VList (map event_item (Order.items order)));
   ("created_at", VStr (isoformat (Order.created_at order)))].

(** The requested lines as [reserve_products] receives them. *)
Definition requested_lines (order_data : OrderCreate.t) : list (string * Z) :=
  map (fun item => (OrderItemCreate.product_id item, OrderItemCreate.quantity item))
    (OrderCreate.items order_data).

Definition create_order (env : OrderEnv.t) (order_data : OrderCreate.t)
    (user_token : string) : M OrderWorld.t OrderResponse.t :=
  try_except
    (user_info <- UserServiceClient.verify_user_token env user_token ;;
     if negb (answer_truthy user_info) then
       raise (HTTPException HTTP_401_UNAUTHORIZED "Invalid or expired token")
     else
       match user_info with
       | Some (JObject u) =>
           let user_id := UserJson.id u in
           let user_email := UserJson.email u in
           reservation_result <-
             ProductServiceClient.reserve_products env (requested_lines order_data) ;;
           if negb (ReservationResult.success reservation_result) then
             let failed_items :=
               List.filter (fun res => negb (Reservation.reserved res))
                 (ReservationResult.reservations reservation_result) in
             let error_details := map error_detail failed_items in
             raise (HTTPException HTTP_400_BAD_REQUEST
                      ("Product reservation failed: " +:+ join "; " error_details))
           else
             built <-
               build_items
                 (combine (OrderCreate.items order_data)
                    (ReservationResult.reservations reservation_result))
                 [] 0%Q ;;
             let order_items := fst built in
             let subtotal := snd built in
             shipping_address <-
               OrderDocument.insert_address env (OrderCreate.shipping_address order_data) ;;
             let tax_rate := (8 # 100)%Q in
             let tax_amount := round2 (subtotal * tax_rate) in
             let shipping_cost := if Qltb subtotal 100 then 10%Q else 0%Q in
             let total_amount := (subtotal + tax_amount + shipping_cost)%Q in
             order_number <- _generate_order_number env ;;
             order <-
               OrderRepository.create_order env
                 (order_dict order_number user_id user_email order_items subtotal
                    tax_amount shipping_cost total_amount shipping_address order_data) ;;
             KafkaProducer.publish_order_created_event env (order_created_data order) ;;;
             _convert_to_response order
       | _ => raise (Error "TypeError" "user_info is not subscriptable by str")
       end)
    (fun e =>
       if is_http e then raise e
       else
         logger ERROR "Error creating order: {e}" [VStr (exn_str e)] ;;;
         raise (HTTPException HTTP_500_INTERNAL_SERVER_ERROR "Failed to create order")).

Definition get_order_by_id (env : OrderEnv.t) (order_id : string) (user_token : string)
  : M OrderWorld.t OrderResponse.t :=
  user_info <- UserServiceClient.verify_user_token env user_token ;;
  if negb (answer_truthy user_info) then
    raise (HTTPException HTTP_401_UNAUTHORIZED "Invalid or expired token")
  else
    found <- OrderRepository.get_order_by_id order_id ;;
    match found with
    | None => raise (HTTPException HTTP_404_NOT_FOUND "Order not found")
    | Some order =>
        match user_info with
        | Some (JObject u) =>
            if negb (String.eqb (Order.user_id order) (UserJson.id u)) then
              raise (HTTPException HTTP_403_FORBIDDEN "Access denied")
            else _convert_to_response order
        | _ => raise (Error "TypeError" "user_info is not subscriptable by str")
        end
    end.

Definition base_event_data (order : Order.t) : dict :=
  [("id", VStr (str_opt (Order.id order)));
   ("order_number", VStr (Order.order_number order));
   ("user_id", VStr (Order.user_id order));
   ("user_email", VStr (Order.user_email order));
   ("total_amount", VFloat (Order.total_amount order));
   ("updated_at", VStr (isoformat (Order.updated_at order)))].

Definition iso_or_none (t : option datetime) : value :=
  match t with Some d => VStr (isoformat d) | None => VNone end.

Definition update_order_status (env : OrderEnv.t) (order_id : string)
    (status_update : OrderStatusUpdate.t) : M OrderWorld.t OrderResponse.t :=
  found <-
    OrderRepository.update_order_status env order_id
      (OrderStatusUpdate.status status_update)
      (OrderStatusUpdate.notes status_update) ;;
  match found with
  | None => raise (HTTPException HTTP_404_NOT_FOUND "Order not found")
  | Some order =>
      let order_event_data := base_event_data order in
      let status := OrderStatusUpdate.status status_update in
      (if bool_decide (status = OrderStatus.CONFIRMED) then
         KafkaProducer.publish_order_confirmed_event env
           (dict_set order_event_data "confirmed_at"
              (iso_or_none (Order.confirmed_at order)))
       else if bool_decide (status = OrderStatus.CANCELLED) then
         KafkaProducer.publish_order_cancelled_event env
           (dict_set order_event_data "cancellation_reason"
              (opt_str (OrderStatusUpdate.notes status_update)))
       else if bool_decide (status = OrderStatus.SHIPPED) then
         KafkaProducer.publish_order_shipped_event env
           (dict_update order_event_data
              [("shipped_at", iso_or_none (Order.shipped_at order));
               ("tracking_number", opt_str (Order.tracking_number order));
               ("shipping_method", opt_str (Order.shipping_method order));
               ("shipping_address",
                 VDict (ShippingAddress.to_dict (Order.shipping_address order)))])
       else if bool_decide (status = OrderStatus.DELIVERED) then
         KafkaProducer.publish_order_delivered_event env
           (dict_set order_event_data "delivered_at"
              (iso_or_none (Order.delivered_at order)))
       else ret tt) ;;;
      _convert_to_response order
  end.

Definition update_payment_status (env : OrderEnv.t) (order_id : string)
    (payment_update : PaymentUpdate.t) : M OrderWorld.t OrderResponse.t :=
  found <-
    OrderRepository.update_payment_status env order_id
      (PaymentUpdate.payment_status payment_update)
      (PaymentUpdate.payment_transaction_id payment_update) ;;
  match found with
  | None => raise (HTTPException HTTP_404_NOT_FOUND "Order not found")
  | Some order =>
      order <-
        (if opt_truthy (PaymentUpdate.payment_method payment_update) then
           OrderDocument.save env
             (Order.set_payment_method (PaymentUpdate.payment_method payment_update) order)
         else ret order) ;;
      let payment_event_data :=
        [("id", VStr (str_opt (Order.id order)));
         ("order_number", VStr (Order.order_number order));
         ("user_id", VStr (Order.user_id order));
         ("user_email", VStr (Order.user_email order));
         ("total_amount", VFloat (Order.total_amount order));
         ("payment_method", opt_str (Order.payment_method order));
         ("payment_transaction_id", opt_str (Order.payment_transaction_id order));
         ("updated_at", VStr (isoformat (Order.updated_at order)))] in
      let payment_status := PaymentUpdate.payment_status payment_update in
      (if bool_decide (payment_status = PaymentStatus.PAID) then
         KafkaProducer.publish_payment_completed_event env payment_event_data
       else if bool_decide (payment_status = PaymentStatus.FAILED) then
         KafkaProducer.publish_payment_failed_event env
           (dict_set payment_event_data "failure_reason"
              (VStr "Payment processing failed"))
       else ret tt) ;;;
      _convert_to_response order
  end.

Definition cancel_order (env : OrderEnv.t) (order_id : string) (user_token : string)
  : M OrderWorld.t OrderResponse.t :=
  user_info <- UserServiceClient.verify_user_token env user_token ;;
  if negb (answer_truthy user_info) then
    raise (HTTPException HTTP_401_UNAUTHORIZED "Invalid or expired token")
  else
    found <- OrderRepository.get_order_by_id order_id ;;
    match found with
    | None => raise (HTTPException HTTP_404_NOT_FOUND "Order not found")
    | Some order =>
        match user_info with
        | Some (JObject u) =>
            if negb (String.eqb (Order.user_id order) (UserJson.id u)) then
              raise (HTTPException HTTP_403_FORBIDDEN "Access denied")
            else if negb (Order.is_cancellable order) then
              raise (HTTPException HTTP_400_BAD_REQUEST
                       ("Order cannot be cancelled in "
                        +:+ OrderStatus.value (Order.status order) +:+ " status"))
            else
              updated <-
                OrderRepository.update_order_status env order_id
                  OrderStatus.CANCELLED (Some "Cancelled by customer") ;;
              match updated with
              | Some cancelled_order =>
                  let order_event_data :=
                    [("id", VStr (str_opt (Order.id cancelled_order)));
                     ("order_number", VStr (Order.order_number cancelled_order));
                     ("user_id", VStr (Order.user_id cancelled_order));
                     ("user_email", VStr (Order.user_email cancelled_order));
                     ("total_amount", VFloat (Order.total_amount cancelled_order));
                     ("cancellation_reason", VStr "Cancelled by customer");
                     ("updated_at",
                       VStr (isoformat (Order.updated_at cancelled_order)))] in
                  KafkaProducer.publish_order_cancelled_event env order_event_data ;;;
                  _convert_to_response cancelled_order
              | None =>
                  raise (Error "AttributeError" "'NoneType' object has no attribute 'id'")
              end
        | _ => raise (Error "TypeError" "user_info is not subscriptable by str")
        end
    end.
End OrderService.

(** ** Order service: the amounts in binary floating point

    The order service computes its amounts in Python [float]s, that is
    in IEEE 754 binary64.  The embedding above takes amounts as exact
    rationals.  This section gives the arithmetic of [create_order] and
    of the validators of [OrderItem] and [Order] as it runs on binary64
    values: there the running sum of [create_order] and the rounded
    subtotal that the [Order] validator stores can differ. *)

Module Binary64.
Definition t : Type := spec_float.

Definition prec : Z := 53.
Definition emax : Z := 1024.

(** [float(z)] for an [int] below [2 ** 53] in magnitude *)
Definition of_Z (z : Z) : t := binary_normalize prec emax z 0 false.

(** The float a decimal literal with two places denotes: the binary64
    value nearest to [cents / 100]. *)
Definition decimal (cents : Z) : t := SFdiv prec emax (of_Z cents) (of_Z 100).

Definition zero : t := S754_zero false.

Definition add (x y : t) : t := SFadd prec emax x y.
Definition sub (x y : t) : t := SFsub prec emax x y.
Definition mul (x y : t) : t := SFmul prec emax x y.
Definition ltb (x y : t) : bool := SFltb x y.

(** The rational a finite float is. *)
Definition to_Q (x : t) : Q :=
  match x with
  | S754_finite s m e =>
      let n := if s then Z.neg m else Z.pos m in
      match e with
      | Z0 => inject_Z n
      | Z.pos p => inject_Z (n * Z.pow_pos 2 p)
      | Z.neg p => n # Pos.pow 2 p
      end
  | _ => 0%Q
  end.

(** [round(x, 2)]: the float nearest to the decimal with two places
    that is nearest to [x], ties between decimals going to the even
    one.  Beyond [2 ** 53] hundredths a float is its own rounding; a
    result of zero keeps the sign of [x]. *)
Definition round2 (x : t) : t :=
  match x with
  | S754_finite s _ _ =>
      let cents := round_half_even (to_Q x * 100) in
      if (cents =? 0)%Z then S754_zero s
      else if (Z.abs cents <? 2 ^ 53)%Z then decimal cents
      else x
  | _ => x
  end.

(** [sum(xs)]: from [0], adding left to right *)
Definition sum (xs : list t) : t := fold_left add xs zero.

(** [max(x, 0)]: [0] when [0 > x] *)
Definition max0 (x : t) : t := if ltb x zero then zero else x.

(** [x or 0] *)
Definition or0 (x : t) : t :=
  match x with S754_zero _ => zero | _ => x end.
End Binary64.

Module FloatOrder.
Import Binary64.

(** Validator [OrderItem.calculate_total_price] *)
Definition calculate_total_price (v : t) (unit_price : t) (quantity : Z) : t :=
  round2 (mul unit_price (of_Z quantity)).

(** Validator [Order.calculate_total_amount] *)
Definition calculate_total_amount (v : t) (subtotal tax_amount shipping_cost
    discount_amount : t) : t :=
  let total := sub (add (add subtotal tax_amount) shipping_cost) discount_amount in
  round2 (max0 total).

(** Validator [Order.calculate_subtotal], on the line totals of [items] *)
Definition calculate_subtotal (v : t) (item_totals : list t) : t :=
  match item_totals with
  | [] => or0 v
  | _ :: _ => round2 (sum item_totals)
  end.

(** The amounts of a stored order. *)
Record amounts : Type := {
  subtotal : t;
  tax_amount : t;
  shipping_cost : t;
  discount_amount : t;
  total_amount : t
}.

(** The line totals of [create_order], for the unit price and the
    quantity of every reserved line: [OrderItem(..., total_price=
    product["price"] * item_data.quantity)]. *)
Definition line_totals (lines : list (t * Z)) : list t :=
  map (fun line => calculate_total_price (mul (fst line) (of_Z (snd line)))
                     (fst line) (snd line)) lines.

(** The local variable [subtotal] of [create_order] after its loop:
    [subtotal = 0.0], then [subtotal += order_item.total_price]. *)
Definition running_subtotal (lines : list (t * Z)) : t :=
  fold_left add (line_totals lines) zero.

(** The amounts [create_order] computes and hands to the [Order]
    constructor, whose validators produce what is stored. *)
Definition create_order_amounts (lines : list (t * Z)) : amounts :=
  let subtotal := running_subtotal lines in
  let tax_rate := decimal 8 in
  let tax_amount := round2 (mul subtotal tax_rate) in
  let shipping_cost := if ltb subtotal (of_Z 100) then of_Z 10 else zero in
  let total_amount := add (add subtotal tax_amount) shipping_cost in
  let discount_amount := zero in
  let stored_subtotal := calculate_subtotal subtotal (line_totals lines) in
  {| subtotal := stored_subtotal;
     tax_amount := tax_amount;
     shipping_cost := shipping_cost;
     discount_amount := discount_amount;
     total_amount :=
       calculate_total_amount total_amount stored_subtotal tax_amount shipping_cost
         discount_amount |}.
End FloatOrder.

(** ** Product service: [product_service/app/models/product.py] and schemas *)

(** [min_length <= len(s) <= max_length] *)
Definition len_between (lo hi : nat) (s : string) : bool :=
  (lo <=? String.length s)%nat && (String.length s <=? hi)%nat.

Definition opt_all {A} (p : A -> bool) (o : option A) : bool :=
  match o with Some a => p a | None => true end.

Definition Qpositive (q : Q) : bool := Qltb 0 q.

Module Category.
Record t : Type := {
  id : option string;
  name : string;
  description : option string;
  is_active : bool;
  created_at : datetime;
  updated_at : datetime
}.

Definition set_id (x : option string) (c : t) : t :=
  {| id := x; name := name c; description := description c;
     is_active := is_active c; created_at := created_at c;
     updated_at := updated_at c |}.

Definition set_name (x : string) (c : t) : t :=
  {| id := id c; name := x; description := description c;
     is_active := is_active c; created_at := created_at c;
     updated_at := updated_at c |}.

Definition set_description (x : option string) (c : t) : t :=
  {| id := id c; name := name c; description := x;
     is_active := is_active c; created_at := created_at c;
     updated_at := updated_at c |}.

Definition set_is_active (x : bool) (c : t) : t :=
  {| id := id c; name := name c; description := description c;
     is_active := x; created_at := created_at c; updated_at := updated_at c |}.

Definition set_updated_at (x : datetime) (c : t) : t :=
  {| id := id c; name := name c; description := description c;
     is_active := is_active c; created_at := created_at c; updated_at := x |}.
End Category.

Module CategoryCreate.
Record t : Type := { name : string; description : option string }.

Definition validb (c : t) : bool :=
  len_between 2 100 (name c) && opt_all (len_between 0 500) (description c).
End CategoryCreate.

Module CategoryUpdate.
Record t : Type := {
  name : option string;
  description : option string;
  is_active : option bool
}.

Definition validb (c : t) : bool :=
  opt_all (len_between 2 100) (name c) && opt_all (len_between 0 500) (description c).
End CategoryUpdate.

Module CategoryResponse.
Record t : Type := {
  id : string;
  name : string;
  description : option string;
  is_active : bool;
  created_at : datetime;
  updated_at : datetime
}.
End CategoryResponse.

Module Product.
Record t : Type := {
  id : option string;
  name : string;
  description : string;
  price : Q;
  category_id : option string;
  category_name : option string;
  sku : option string;
  stock_quantity : Z;
  is_available : bool;
  is_active : bool;
  image_urls : list string;
  tags : list string;
  weight : option Q;
  dimensions : option dict;
  created_at : datetime;
  updated_at : datetime
}.

(** The field constraints declared on the model. *)
Definition validb (p : t) : bool :=
  len_between 2 200 (name p) && len_between 10 2000 (description p)
  && Qpositive (price p) && opt_all (len_between 0 50) (sku p)
  && (0 <=? stock_quantity p)%Z && opt_all Qpositive (weight p).

(** Attribute assignment [p.f = x], one function per assigned field. *)
Definition set_id (x : option string) (p : t) : t :=
  {| id := x; name := name p; description := description p; price := price p;
     category_id := category_id p; category_name := category_name p;
     sku := sku p; stock_quantity := stock_quantity p;
     is_available := is_available p; is_active := is_active p;
     image_urls := image_urls p; tags := tags p; weight := weight p;
     dimensions := dimensions p; created_at := created_at p;
     updated_at := updated_at p |}.

Definition set_name (x : string) (p : t) : t :=
  {| id := id p; name := x; description := description p; price := price p;
     category_id := category_id p; category_name := category_name p;
     sku := sku p; stock_quantity := stock_quantity p;
     is_available := is_available p; is_active := is_active p;
     image_urls := image_urls p; tags := tags p; weight := weight p;
     dimensions := dimensions p; created_at := created_at p;
     updated_at := updated_at p |}.

Definition set_description (x : string) (p : t) : t :=
  {| id := id p; name := name p; description := x; price := price p;
     category_id := category_id p; category_name := category_name p;
     sku := sku p; stock_quantity := stock_quantity p;
     is_available := is_available p; is_active := is_active p;
     image_urls := image_urls p; tags := tags p; weight := weight p;
     dimensions := dimensions p; created_at := created_at p;
     updated_at := updated_at p |}.

Definition set_price (x : Q) (p : t) : t :=
  {| id := id p; name := name p; description := description p; price := x;
     category_id := category_id p; category_name := category_name p;
     sku := sku p; stock_quantity := stock_quantity p;
     is_available := is_available p; is_active := is_active p;
     image_urls := image_urls p; tags := tags p; weight := weight p;
     dimensions := dimensions p; created_at := created_at p;
     updated_at := updated_at p |}.

Definition set_category_id (x : option string) (p : t) : t :=
  {| id := id p; name := name p; description := description p;
     price := price p; category_id := x; category_name := category_name p;
     sku := sku p; stock_quantity := stock_quantity p;
     is_available := is_available p; is_active := is_active p;
     image_urls := image_urls p; tags := tags p; weight := weight p;
     dimensions := dimensions p; created_at := created_at p;
     updated_at := updated_at p |}.

Definition set_category_name (x : option string) (p : t) : t :=
  {| id := id p; name := name p; description := description p;
     price := price p; category_id := category_id p; category_name := x;
     sku := sku p; stock_quantity := stock_quantity p;
     is_available := is_available p; is_active := is_active p;
     image_urls := image_urls p; tags := tags p; weight := weight p;
     dimensions := dimensions p; created_at := created_at p;
     updated_at := updated_at p |}.

Definition set_sku (x : option string) (p : t) : t :=
  {| id := id p; name := name p; description := description p;
     price := price p; category_id := category_id p;
     category_name := category_name p; sku := x;
     stock_quantity := stock_quantity p; is_available := is_available p;
     is_active := is_active p; image_urls := image_urls p; tags := tags p;
     weight := weight p; dimensions := dimensions p;
     created_at := created_at p; updated_at := updated_at p |}.

Definition set_stock_quantity (x : Z) (p : t) : t :=
  {| id := id p; name := name p; description := description p;
     price := price p; category_id := category_id p;
     category_name := category_name p; sku := sku p; stock_quantity := x;
     is_available := is_available p; is_active := is_active p;
     image_urls := image_urls p; tags := tags p; weight := weight p;
     dimensions := dimensions p; created_at := created_at p;
     updated_at := updated_at p |}.

Definition set_is_available (x : bool) (p : t) : t :=
  {| id := id p; name := name p; description := description p;
     price := price p; category_id := category_id p;
     category_name := category_name p; sku := sku p;
     stock_quantity := stock_quantity p; is_available := x;
     is_active := is_active p; image_urls := image_urls p; tags := tags p;
     weight := weight p; dimensions := dimensions p;
     created_at := created_at p; updated_at := updated_at p |}.

Definition set_is_active (x : bool) (p : t) : t :=
  {| id := id p; name := name p; description := description p;
     price := price p; category_id := category_id p;
     category_name := category_name p; sku := sku p;
     stock_quantity := stock_quantity p; is_available := is_available p;
     is_active := x; image_urls := image_urls p; tags := tags p;
     weight := weight p; dimensions := dimensions p;
     created_at := created_at p; updated_at := updated_at p |}.

Definition set_image_urls (x : list string) (p : t) : t :=
  {| id := id p; name := name p; description := description p;
     price := price p; category_id := category_id p;
     category_name := category_name p; sku := sku p;
     stock_quantity := stock_quantity p; is_available := is_available p;
     is_active := is_active p; image_urls := x; tags := tags p;
     weight := weight p; dimensions := dimensions p;
     created_at := created_at p; updated_at := updated_at p |}.

Definition set_tags (x : list string) (p : t) : t :=
  {| id := id p; name := name p; description := description p;
     price := price p; category_id := category_id p;
     category_name := category_name p; sku := sku p;
     stock_quantity := stock_quantity p; is_available := is_available p;
     is_active := is_active p; image_urls := image_urls p; tags := x;
     weight := weight p; dimensions := dimensions p;
     created_at := created_at p; updated_at := updated_at p |}.

Definition set_weight (x : option Q) (p : t) : t :=
  {| id := id p; name := name p; description := description p;
     price := price p; category_id := category_id p;
     category_name := category_name p; sku := sku p;
     stock_quantity := stock_quantity p; is_available := is_available p;
     is_active := is_active p; image_urls := image_urls p; tags := tags p;
     weight := x; dimensions := dimensions p; created_at := created_at p;
     updated_at := updated_at p |}.

Definition set_dimensions (x : option dict) (p : t) : t :=
  {| id := id p; name := name p; description := description p;
     price := price p; category_id := category_id p;
     category_name := category_name p; sku := sku p;
     stock_quantity := stock_quantity p; is_available := is_available p;
     is_active := is_active p; image_urls := image_urls p; tags := tags p;
     weight := weight p; dimensions := x; created_at := created_at p;
     updated_at := updated_at p |}.

Definition set_updated_at (x : datetime) (p : t) : t :=
  {| id := id p; name := name p; description := description p;
     price := price p; category_id := category_id p;
     category_name := category_name p; sku := sku p;
     stock_quantity := stock_quantity p; is_available := is_available p;
     is_active := is_active p; image_urls := image_urls p; tags := tags p;
     weight := weight p; dimensions := dimensions p;
     created_at := created_at p; updated_at := x |}.
End Product.

Module ProductCreate.
Record t : Type := {
  name : string;
  description : string;
  price : Q;
  category_id : option string;
  sku : option string;
  stock_quantity : Z;
  is_available : bool;
  image_urls : list string;
  tags : list string;
  weight : option Q;
  dimensions : option dict
}.

Definition validb (p : t) : bool :=
  len_between 2 200 (name p) && len_between 10 2000 (description p)
  && Qpositive (price p) && opt_all (len_between 0 50) (sku p)
  && (0 <=? stock_quantity p)%Z && opt_all Qpositive (weight p).
End ProductCreate.

Module ProductUpdate.
Record t : Type := {
  name : option string;
  description : option string;
  price : option Q;
  category_id : option string;
  sku : option string;
  stock_quantity : option Z;
  is_available : option bool;
  is_active : option bool;
  image_urls : option (list string);
  tags : option (list string);
  weight : option Q;
  dimensions : option dict
}.

Definition validb (p : t) : bool :=
  opt_all (len_between 2 200) (name p) && opt_all (len_between 10 2000) (description p)
  && opt_all Qpositive (price p) && opt_all (len_between 0 50) (sku p)
  && opt_all (fun z => (0 <=? z)%Z) (stock_quantity p) && opt_all Qpositive (weight p).
End ProductUpdate.

Module ProductResponse.
Record t : Type := {
  id : string;
  name : string;
  description : string;
  price : Q;
  category_id : option string;
  category_name : option string;
  sku : option string;
  stock_quantity : Z;
  is_available : bool;
  is_active : bool;
  image_urls : list string;
  tags : list string;
  weight : option Q;
  dimensions : option dict;
  created_at : datetime;
  updated_at : datetime
}.
End ProductResponse.

(** ** Product service: its environment and state *)

Module ProductEnv.
Record t : Type := {
  utcnow : nat -> datetime;
  object_id : nat -> string
}.
End ProductEnv.

Module ProductWorld.
Record t : Type := {
  products : gmap string Product.t;
  categories : gmap string Category.t;
  tick : nat
}.

Definition set_products (f : gmap string Product.t -> gmap string Product.t) (w : t) : t :=
  {| products := f (products w); categories := categories w; tick := tick w |}.

Definition set_categories (f : gmap string Category.t -> gmap string Category.t) (w : t)
  : t :=
  {| products := products w; categories := f (categories w); tick := tick w |}.

Definition next_tick (w : t) : t :=
  {| products := products w; categories := categories w; tick := S (tick w) |}.

Definition ask {A} (f : nat -> A) : M t A :=
  fun w => (Return (f (tick w)), next_tick w).
End ProductWorld.


(** Setting the fields an update dictionary carries: a field left out of
    the dictionary ([None] here) is not touched. *)
Definition set_if {A T} (set : A -> T -> T) (o : option A) (x : T) : T :=
  match o with Some a => set a x | None => x end.

(** ** Product service: [product_service/app/repositories/product_repository.py] *)

Module CategoryRepository.
Import ProductWorld.

(** The [Category] constructor on [CategoryCreate.dict()], then
    [insert()]. *)
Definition create_category (env : ProductEnv.t) (category_data : CategoryCreate.t)
  : M ProductWorld.t Category.t :=
  if CategoryCreate.validb category_data then
    created <- ask (ProductEnv.utcnow env) ;;
    updated <- ask (ProductEnv.utcnow env) ;;
    i <- ask (ProductEnv.object_id env) ;;
    let category :=
      {| Category.id := Some i;
         Category.name := CategoryCreate.name category_data;
         Category.description := CategoryCreate.description category_data;
         Category.is_active := true;
         Category.created_at := created;
         Category.updated_at := updated |} in
    modify (set_categories (fun m => <[i := category]> m)) ;;;
    ret category
  else raise (Error "ValidationError" "Category").

Definition get_category_by_id (category_id : string)
  : M ProductWorld.t (option Category.t) :=
  try_except (gets (fun w => get_document Category.set_id category_id (categories w))) (fun _ => ret None).

Definition get_category_by_name (name : string) : M ProductWorld.t (option Category.t) :=
  gets (fun w =>
          find_one Category.set_id (fun c => String.eqb (Category.name c) name)
            (categories w)).

Definition save (category : Category.t) : M ProductWorld.t unit :=
  match Category.id category with
  | Some i => modify (set_categories (fun m => <[i := category]> m))
  | None => ret tt
  end.

Definition update_category (env : ProductEnv.t) (category_id : string)
    (update_data : CategoryUpdate.t) : M ProductWorld.t (option Category.t) :=
  try_except
    (found <- gets (fun w => get_document Category.set_id category_id (categories w)) ;;
     match found with
     | Some category =>
         let category := set_if Category.set_name (CategoryUpdate.name update_data) category in
         let category :=
           set_if (fun d => Category.set_description (Some d))
             (CategoryUpdate.description update_data) category in
         let category :=
           set_if Category.set_is_active (CategoryUpdate.is_active update_data) category in
         now <- ask (ProductEnv.utcnow env) ;;
         let category := Category.set_updated_at now category in
         save category ;;;
         ret (Some category)
     | None => ret None
     end)
    (fun _ => ret None).

Definition delete_category (env : ProductEnv.t) (category_id : string)
  : M ProductWorld.t bool :=
  try_except
    (found <- gets (fun w => get_document Category.set_id category_id (categories w)) ;;
     match found with
     | Some category =>
         let category := Category.set_is_active false category in
         now <- ask (ProductEnv.utcnow env) ;;
         let category := Category.set_updated_at now category in
         save category ;;;
         ret true
     | None => ret false
     end)
    (fun _ => ret false).
End CategoryRepository.

(** The dictionary [update_product] receives: the fields of
    [ProductUpdate] that are not [None], and [category_name] when the
    service resolved a category. *)
Module ProductPatch.
Record t : Type := {
  fields : ProductUpdate.t;
  category_name : option string
}.
End ProductPatch.

Module ProductRepository.
Import ProductWorld.

(** The [Product] constructor on [ProductCreate.dict()] extended with
    [category_name], then [insert()]. *)
Definition create_product (env : ProductEnv.t) (product_data : ProductCreate.t)
    (category_name : option string) : M ProductWorld.t Product.t :=
  created <- ask (ProductEnv.utcnow env) ;;
  updated <- ask (ProductEnv.utcnow env) ;;
  let product :=
    {| Product.id := None;
       Product.name := ProductCreate.name product_data;
       Product.description := ProductCreate.description product_data;
       Product.price := ProductCreate.price product_data;
       Product.category_id := ProductCreate.category_id product_data;
       Product.category_name := category_name;
       Product.sku := ProductCreate.sku product_data;
       Product.stock_quantity := ProductCreate.stock_quantity product_data;
       Product.is_available := ProductCreate.is_available product_data;
       Product.is_active := true;
       Product.image_urls := ProductCreate.image_urls product_data;
       Product.tags := ProductCreate.tags product_data;
       Product.weight := ProductCreate.weight product_data;
       Product.dimensions := ProductCreate.dimensions product_data;
       Product.created_at := created;
       Product.updated_at := updated |} in
  if Product.validb product then
    i <- ask (ProductEnv.object_id env) ;;
    let product := Product.set_id (Some i) product in
    modify (set_products (fun m => <[i := product]> m)) ;;;
    ret product
  else raise (Error "ValidationError" "Product").

Definition get_product_by_id (product_id : string) : M ProductWorld.t (option Product.t) :=
  try_except (gets (fun w => get_document Product.set_id product_id (products w))) (fun _ => ret None).

Definition get_product_by_sku (sku : string) : M ProductWorld.t (option Product.t) :=
  gets (fun w =>
          find_one Product.set_id (fun p => bool_decide (Product.sku p = Some sku))
            (products w)).

Definition save (product : Product.t) : M ProductWorld.t unit :=
  match Product.id product with
  | Some i => modify (set_products (fun m => <[i := product]> m))
  | None => ret tt
  end.

(** The [setattr] loop of [update_product]. *)
Definition apply_patch (update_data : ProductPatch.t) (product : Product.t) : Product.t :=
  let u := ProductPatch.fields update_data in
  let product := set_if Product.set_name (ProductUpdate.name u) product in
  let product := set_if Product.set_description (ProductUpdate.description u) product in
  let product := set_if Product.set_price (ProductUpdate.price u) product in
  let product :=
    set_if (fun c => Product.set_category_id (Some c)) (ProductUpdate.category_id u) product in
  let product := set_if (fun s => Product.set_sku (Some s)) (ProductUpdate.sku u) product in
  let product :=
    set_if Product.set_stock_quantity (ProductUpdate.stock_quantity u) product in
  let product := set_if Product.set_is_available (ProductUpdate.is_available u) product in
  let product := set_if Product.set_is_active (ProductUpdate.is_active u) product in
  let product := set_if Product.set_image_urls (ProductUpdate.image_urls u) product in
  let product := set_if Product.set_tags (ProductUpdate.tags u) product in
  let product := set_if (fun x => Product.set_weight (Some x)) (ProductUpdate.weight u) product in
  let product :=
    set_if (fun d => Product.set_dimensions (Some d)) (ProductUpdate.dimensions u) product in
  set_if (fun n => Product.set_category_name (Some n))
    (ProductPatch.category_name update_data) product.

Definition update_product (env : ProductEnv.t) (product_id : string)
    (update_data : ProductPatch.t) : M ProductWorld.t (option Product.t) :=
  try_except
    (found <- gets (fun w => get_document Product.set_id product_id (products w)) ;;
     match found with
     | Some product =>
         let product := apply_patch update_data product in
         now <- ask (ProductEnv.utcnow env) ;;
         let product := Product.set_updated_at now product in
         save product ;;;
         ret (Some product)
     | None => ret None
     end)
    (fun _ => ret None).

Definition delete_product (env : ProductEnv.t) (product_id : string)
  : M ProductWorld.t bool :=
  try_except
    (found <- gets (fun w => get_document Product.set_id product_id (products w)) ;;
     match found with
     | Some product =>
         let product := Product.set_is_active false product in
         now <- ask (ProductEnv.utcnow env) ;;
         let product := Product.set_updated_at now product in
         save product ;;;
         ret true
     | None => ret false
     end)
    (fun _ => ret false).

Definition update_stock (env : ProductEnv.t) (product_id : string) (quantity_change : Z)
  : M ProductWorld.t (option Product.t) :=
  try_except
    (found <- gets (fun w => get_document Product.set_id product_id (products w)) ;;
     match found with
     | Some product =>
         let new_quantity := (Product.stock_quantity product + quantity_change)%Z in
         if (new_quantity <? 0)%Z then ret None
         else
           let product := Product.set_stock_quantity new_quantity product in
           let product := Product.set_is_available (0 <? new_quantity)%Z product in
           now <- ask (ProductEnv.utcnow env) ;;
           let product := Product.set_updated_at now product in
           save product ;;;
           ret (Some product)
     | None => ret None
     end)
    (fun _ => ret None).
End ProductRepository.

(** ** Product service: [product_service/app/services/product_service.py] *)

Module CategoryService.

Definition to_response (category : Category.t) : CategoryResponse.t :=
  {| CategoryResponse.id := str_opt (Category.id category);
     CategoryResponse.name := Category.name category;
     CategoryResponse.description := Category.description category;
     CategoryResponse.is_active := Category.is_active category;
     CategoryResponse.created_at := Category.created_at category;
     CategoryResponse.updated_at := Category.updated_at category |}.

Definition create_category (env : ProductEnv.t) (category_data : CategoryCreate.t)
  : M ProductWorld.t CategoryResponse.t :=
  existing_category <-
    CategoryRepository.get_category_by_name (CategoryCreate.name category_data) ;;
  match existing_category with
  | Some _ =>
      raise (HTTPException HTTP_400_BAD_REQUEST "Category with this name already exists")
  | None =>
      category <- CategoryRepository.create_category env category_data ;;
      ret (to_response category)
  end.

Definition get_category_by_id (category_id : string)
  : M ProductWorld.t CategoryResponse.t :=
  found <- CategoryRepository.get_category_by_id category_id ;;
  match found with
  | None => raise (HTTPException HTTP_404_NOT_FOUND "Category not found")
  | Some category => ret (to_response category)
  end.

Definition update_category (env : ProductEnv.t) (category_id : string)
    (update_data : CategoryUpdate.t) : M ProductWorld.t CategoryResponse.t :=
  found <- CategoryRepository.get_category_by_id category_id ;;
  match found with
  | None => raise (HTTPException HTTP_404_NOT_FOUND "Category not found")
  | Some existing_category =>
      (if opt_truthy (CategoryUpdate.name update_data)
          && negb (bool_decide (CategoryUpdate.name update_data
                                = Some (Category.name existing_category))) then
         name_conflict <-
           CategoryRepository.get_category_by_name
             (default "" (CategoryUpdate.name update_data)) ;;
         match name_conflict with
         | Some _ =>
             raise (HTTPException HTTP_400_BAD_REQUEST
                      "Category with this name already exists")
         | None => ret tt
         end
       else ret tt) ;;;
      updated <- CategoryRepository.update_category env category_id update_data ;;
      match updated with
      | None =>
          raise (HTTPException HTTP_500_INTERNAL_SERVER_ERROR "Failed to update category")
      | Some updated_category => ret (to_response updated_category)
      end
  end.

Definition delete_category (env : ProductEnv.t) (category_id : string)
  : M ProductWorld.t string :=
  found <- CategoryRepository.get_category_by_id category_id ;;
  match found with
  | None => raise (HTTPException HTTP_404_NOT_FOUND "Category not found")
  | Some _ =>
      success <- CategoryRepository.delete_category env category_id ;;
      if success then ret "Category deleted successfully"
      else raise (HTTPException HTTP_500_INTERNAL_SERVER_ERROR "Failed to delete category")
  end.
End CategoryService.

Module ProductService.

Definition to_response (product : Product.t) : ProductResponse.t :=
  {| ProductResponse.id := str_opt (Product.id product);
     ProductResponse.name := Product.name product;
     ProductResponse.description := Product.description product;
     ProductResponse.price := Product.price product;
     ProductResponse.category_id := Product.category_id product;
     ProductResponse.category_name := Product.category_name product;
     ProductResponse.sku := Product.sku product;
     ProductResponse.stock_quantity := Product.stock_quantity product;
     ProductResponse.is_available := Product.is_available product;
     ProductResponse.is_active := Product.is_active product;
     ProductResponse.image_urls := Product.image_urls product;
     ProductResponse.tags := Product.tags product;
     ProductResponse.weight := Product.weight product;
     ProductResponse.dimensions := Product.dimensions product;
     ProductResponse.created_at := Product.created_at product;
     ProductResponse.updated_at := Product.updated_at product |}.

(** [if product_data.category_id: ...] resolving the category's name *)
Definition resolve_category (category_id : option string)
  : M ProductWorld.t (option string) :=
  match category_id with
  | Some c =>
      if str_truthy c then
        found <- CategoryRepository.get_category_by_id c ;;
        match found with
        | None => raise (HTTPException HTTP_400_BAD_REQUEST "Category not found")
        | Some category => ret (Some (Category.name category))
        end
      else ret None
  | None => ret None
  end.

Definition create_product (env : ProductEnv.t) (product_data : ProductCreate.t)
  : M ProductWorld.t ProductResponse.t :=
  (match ProductCreate.sku product_data with
   | Some sku =>
       if str_truthy sku then
         existing_product <- ProductRepository.get_product_by_sku sku ;;
         match existing_product with
         | Some _ =>
             raise (HTTPException HTTP_400_BAD_REQUEST
                      "Product with this SKU already exists")
         | None => ret tt
         end
       else ret tt
   | None => ret tt
   end) ;;;
  category_name <- resolve_category (ProductCreate.category_id product_data) ;;
  product <- ProductRepository.create_product env product_data category_name ;;
  ret (to_response product).

Definition get_product_by_id (product_id : string) : M ProductWorld.t ProductResponse.t :=
  found <- ProductRepository.get_product_by_id product_id ;;
  match found with
  | Some product =>
      if negb (Product.is_active product) then
        raise (HTTPException HTTP_404_NOT_FOUND "Product not found")
      else ret (to_response product)
  | None => raise (HTTPException HTTP_404_NOT_FOUND "Product not found")
  end.

Definition update_product (env : ProductEnv.t) (product_id : string)
    (update_data : ProductUpdate.t) : M ProductWorld.t ProductResponse.t :=
  found <- ProductRepository.get_product_by_id product_id ;;
  match found with
  | None => raise (HTTPException HTTP_404_NOT_FOUND "Product not found")
  | Some existing_product =>
      (if opt_truthy (ProductUpdate.sku update_data)
          && negb (bool_decide (ProductUpdate.sku update_data
                                = Product.sku existing_product)) then
         sku_conflict <-
           ProductRepository.get_product_by_sku
             (default "" (ProductUpdate.sku update_data)) ;;
         match sku_conflict with
         | Some _ =>
             raise (HTTPException HTTP_400_BAD_REQUEST
                      "Product with this SKU already exists")
         | None => ret tt
         end
       else ret tt) ;;;
      category_name <- resolve_category (ProductUpdate.category_id update_data) ;;
      let update_dict :=
        {| ProductPatch.fields := update_data;
           ProductPatch.category_name := category_name |} in
      updated <- ProductRepository.update_product env product_id update_dict ;;
      match updated with
      | None =>
          raise (HTTPException HTTP_500_INTERNAL_SERVER_ERROR "Failed to update product")
      | Some updated_product => ret (to_response updated_product)
      end
  end.

Definition delete_product (env : ProductEnv.t) (product_id : string)
  : M ProductWorld.t string :=
  found <- ProductRepository.get_product_by_id product_id ;;
  match found with
  | None => raise (HTTPException HTTP_404_NOT_FOUND "Product not found")
  | Some _ =>
      success <- ProductRepository.delete_product env product_id ;;
      if success then ret "Product deleted successfully"
      else raise (HTTPException HTTP_500_INTERNAL_SERVER_ERROR "Failed to delete product")
  end.

Definition update_stock (env : ProductEnv.t) (product_id : string) (quantity_change : Z)
  : M ProductWorld.t ProductResponse.t :=
  found <- ProductRepository.update_stock env product_id quantity_change ;;
  match found with
  | None =>
      raise (HTTPException HTTP_400_BAD_REQUEST "Product not found or insufficient stock")
  | Some product => ret (to_response product)
  end.
End ProductService.

(** ** User service: [user_service/app/models/user.py], schemas, repository *)

Module User.
Record t : Type := {
  id : option string;
  name : string;
  email : string;
  password_hash : string;
  is_active : bool;
  created_at : datetime;
  updated_at : datetime
}.

Definition set_id (x : option string) (u : t) : t :=
  {| id := x; name := name u; email := email u; password_hash := password_hash u;
     is_active := is_active u; created_at := created_at u; updated_at := updated_at u |}.

Definition set_name (x : string) (u : t) : t :=
  {| id := id u; name := x; email := email u; password_hash := password_hash u;
     is_active := is_active u; created_at := created_at u; updated_at := updated_at u |}.

Definition set_email (x : string) (u : t) : t :=
  {| id := id u; name := name u; email := x; password_hash := password_hash u;
     is_active := is_active u; created_at := created_at u; updated_at := updated_at u |}.

Definition set_password_hash (x : string) (u : t) : t :=
  {| id := id u; name := name u; email := email u; password_hash := x;
     is_active := is_active u; created_at := created_at u; updated_at := updated_at u |}.

Definition set_is_active (x : bool) (u : t) : t :=
  {| id := id u; name := name u; email := email u; password_hash := password_hash u;
     is_active := x; created_at := created_at u; updated_at := updated_at u |}.

Definition set_updated_at (x : datetime) (u : t) : t :=
  {| id := id u; name := name u; email := email u; password_hash := password_hash u;
     is_active := is_active u; created_at := created_at u; updated_at := x |}.
End User.

Module UserCreate.
Record t : Type := { name : string; email : string; password : string }.
End UserCreate.

Module UserUpdate.
Record t : Type := { name : option string; email : option string }.
End UserUpdate.

Module UserPasswordUpdate.
Record t : Type := { current_password : string; new_password : string }.
End UserPasswordUpdate.

Module UserResponse.
Record t : Type := {
  id : string;
  name : string;
  email : string;
  is_active : bool;
  created_at : datetime;
  updated_at : datetime
}.
End UserResponse.

(** The user service's environment.  [app/utils/auth.py] is not part of
    the sources at hand: [AuthUtils.hash_password],
    [AuthUtils.verify_password] and [AuthUtils.create_access_token] are
    taken as given, and so is pydantic's [EmailStr] check. *)
Module UserEnv.
Record t : Type := {
  utcnow : nat -> datetime;
  object_id : nat -> string;
  hash_password : nat -> string -> string;
  verify_password : string -> string -> bool;
  create_access_token : nat -> string -> string -> string;
  is_email : string -> bool
}.
End UserEnv.

Module UserWorld.
Record t : Type := {
  users : gmap string User.t;
  tick : nat
}.

Definition set_users (f : gmap string User.t -> gmap string User.t) (w : t) : t :=
  {| users := f (users w); tick := tick w |}.

Definition next_tick (w : t) : t := {| users := users w; tick := S (tick w) |}.

Definition ask {A} (f : nat -> A) : M t A :=
  fun w => (Return (f (tick w)), next_tick w).
End UserWorld.

(** The dictionary [update_user] receives. *)
Module UserPatch.
Record t : Type := {
  name : option string;
  email : option string;
  password_hash : option string
}.
End UserPatch.

Module UserRepository.
Import UserWorld.

(** The [User] constructor on [user_data], then [insert()]. *)
Definition create_user (env : UserEnv.t) (name email password_hash : string)
  : M UserWorld.t User.t :=
  if len_between 2 100 name && UserEnv.is_email env email then
    created <- ask (UserEnv.utcnow env) ;;
    updated <- ask (UserEnv.utcnow env) ;;
    i <- ask (UserEnv.object_id env) ;;
    let user :=
      {| User.id := Some i; User.name := name; User.email := email;
         User.password_hash := password_hash; User.is_active := true;
         User.created_at := created; User.updated_at := updated |} in
    modify (set_users (fun m => <[i := user]> m)) ;;;
    ret user
  else raise (Error "ValidationError" "User").

Definition get_user_by_id (user_id : string) : M UserWorld.t (option User.t) :=
  try_except (gets (fun w => get_document User.set_id user_id (users w)))
    (fun _ => ret None).

Definition get_user_by_email (email : string) : M UserWorld.t (option User.t) :=
  gets (fun w => find_one User.set_id (fun u => String.eqb (User.email u) email) (users w)).

Definition save (user : User.t) : M UserWorld.t unit :=
  match User.id user with
  | Some i => modify (set_users (fun m => <[i := user]> m))
  | None => ret tt
  end.

Definition update_user (env : UserEnv.t) (user_id : string) (update_data : UserPatch.t)
  : M UserWorld.t (option User.t) :=
  try_except
    (found <- gets (fun w => get_document User.set_id user_id (users w)) ;;
     match found with
     | Some user =>
         let user := set_if User.set_name (UserPatch.name update_data) user in
         let user := set_if User.set_email (UserPatch.email update_data) user in
         let user :=
           set_if User.set_password_hash (UserPatch.password_hash update_data) user in
         now <- ask (UserEnv.utcnow env) ;;
         let user := User.set_updated_at now user in
         save user ;;;
         ret (Some user)
     | None => ret None
     end)
    (fun _ => ret None).

Definition delete_user (env : UserEnv.t) (user_id : string) : M UserWorld.t bool :=
  try_except
    (found <- gets (fun w => get_document User.set_id user_id (users w)) ;;
     match found with
     | Some user =>
         let user := User.set_is_active false user in
         now <- ask (UserEnv.utcnow env) ;;
         let user := User.set_updated_at now user in
         save user ;;;
         ret true
     | None => ret false
     end)
    (fun _ => ret false).

Definition user_exists (email : string) : M UserWorld.t bool :=
  user <-
    gets (fun w => find_one User.set_id (fun u => String.eqb (User.email u) email) (users w)) ;;
  ret (is_Some_bool user).
End UserRepository.

(** ** User service: [user_service/app/services/user_service.py] *)

Module UserService.
Import UserWorld.

Definition to_response (user : User.t) : UserResponse.t :=
  {| UserResponse.id := str_opt (User.id user);
     UserResponse.name := User.name user;
     UserResponse.email := User.email user;
     UserResponse.is_active := User.is_active user;
     UserResponse.created_at := User.created_at user;
     UserResponse.updated_at := User.updated_at user |}.

Definition register_user (env : UserEnv.t) (user_data : UserCreate.t)
  : M UserWorld.t UserResponse.t :=
  taken <- UserRepository.user_exists (UserCreate.email user_data) ;;
  if taken then
    raise (HTTPException HTTP_400_BAD_REQUEST "User with this email already exists")
  else
    password_hash <-
      ask (fun n => UserEnv.hash_password env n (UserCreate.password user_data)) ;;
    user <-
      UserRepository.create_user env (UserCreate.name user_data)
        (UserCreate.email user_data) password_hash ;;
    ret (to_response user).

Definition authenticate_user (env : UserEnv.t) (email password : string)
  : M UserWorld.t (option User.t) :=
  found <- UserRepository.get_user_by_email email ;;
  match found with
  | None => ret None
  | Some user =>
      if negb (User.is_active user) then ret None
      else if negb (UserEnv.verify_password env password (User.password_hash user))
      then ret None
      else ret (Some user)
  end.

Definition login_user (env : UserEnv.t) (email password : string)
  : M UserWorld.t (string * string * UserResponse.t) :=
  found <- authenticate_user env email password ;;
  match found with
  | None => raise (HTTPException HTTP_401_UNAUTHORIZED "Incorrect email or password")
  | Some user =>
      access_token <-
        ask (fun n =>
               UserEnv.create_access_token env n (str_opt (User.id user)) (User.email user)) ;;
      ret (access_token, "bearer", to_response user)
  end.

Definition get_user_profile (user_id : string) : M UserWorld.t UserResponse.t :=
  found <- UserRepository.get_user_by_id user_id ;;
  match found with
  | None => raise (HTTPException HTTP_404_NOT_FOUND "User not found")
  | Some user =>
      if negb (User.is_active user) then
        raise (HTTPException HTTP_404_NOT_FOUND "User not found")
      else ret (to_response user)
  end.

Definition update_user_profile (env : UserEnv.t) (user_id : string)
    (update_data : UserUpdate.t) : M UserWorld.t UserResponse.t :=
  found <- UserRepository.get_user_by_id user_id ;;
  match found with
  | None => raise (HTTPException HTTP_404_NOT_FOUND "User not found")
  | Some user =>
      if negb (User.is_active user) then
        raise (HTTPException HTTP_404_NOT_FOUND "User not found")
      else
        (if opt_truthy (UserUpdate.email update_data)
            && negb (bool_decide (UserUpdate.email update_data = Some (User.email user)))
         then
           taken <- UserRepository.user_exists (default "" (UserUpdate.email update_data)) ;;
           if taken then raise (HTTPException HTTP_400_BAD_REQUEST "Email already exists")
           else ret tt
         else ret tt) ;;;
        let update_dict :=
          {| UserPatch.name := UserUpdate.name update_data;
             UserPatch.email := UserUpdate.email update_data;
             UserPatch.password_hash := None |} in
        updated <- UserRepository.update_user env user_id update_dict ;;
        match updated with
        | None =>
            raise (HTTPException HTTP_500_INTERNAL_SERVER_ERROR "Failed to update user")
        | Some updated_user => ret (to_response updated_user)
        end
  end.

Definition update_user_password (env : UserEnv.t) (user_id : string)
    (password_data : UserPasswordUpdate.t) : M UserWorld.t string :=
  found <- UserRepository.get_user_by_id user_id ;;
  match found with
  | None => raise (HTTPException HTTP_404_NOT_FOUND "User not found")
  | Some user =>
      if negb (User.is_active user) then
        raise (HTTPException HTTP_404_NOT_FOUND "User not found")
      else if negb (UserEnv.verify_password env
                      (UserPasswordUpdate.current_password password_data)
                      (User.password_hash user)) then
        raise (HTTPException HTTP_400_BAD_REQUEST "Current password is incorrect")
      else
        new_password_hash <-
          ask (fun n =>
                 UserEnv.hash_password env n
                   (UserPasswordUpdate.new_password password_data)) ;;
        updated <-
          UserRepository.update_user env user_id
            {| UserPatch.name := None; UserPatch.email := None;
               UserPatch.password_hash := Some new_password_hash |} ;;
        match updated with
        | None =>
            raise (HTTPException HTTP_500_INTERNAL_SERVER_ERROR "Failed to update password")
        | Some _ => ret "Password updated successfully"
        end
  end.
End UserService.

(** ** Notification service: [notification_service/app/models/notification.py] *)

Module NotificationType.
Inductive t : Type := EMAIL | SMS | PUSH | IN_APP.

#[global] Instance eq_dec : EqDecision t.
Proof. solve_decision. Defined.

Definition value (x : t) : string :=
  match x with
  | EMAIL => "email"
  | SMS => "sms"
  | PUSH => "push"
  | IN_APP => "in_app"
  end.

Definition members : list t := [EMAIL; SMS; PUSH; IN_APP].

(** [NotificationType(s)] *)
Definition of_value (s : string) : option t :=
  List.find (fun x => String.eqb (value x) s) members.
End NotificationType.

Module NotificationStatus.
Inductive t : Type := PENDING | SENT | FAILED | DELIVERED.

#[global] Instance eq_dec : EqDecision t.
Proof. solve_decision. Defined.

Definition value (s : t) : string :=
  match s with
  | PENDING => "pending"
  | SENT => "sent"
  | FAILED => "failed"
  | DELIVERED => "delivered"
  end.
End NotificationStatus.

Module Notification.
Record t : Type := {
  id : option string;
  type : NotificationType.t;
  recipient : string;
  subject : option string;
  message : string;
  status : NotificationStatus.t;
  sent_at : option datetime;
  delivered_at : option datetime;
  event_type : string;
  event_data : dict;
  source_service : string;
  template_id : option string;
  priority : Z;
  retry_count : Z;
  max_retries : Z;
  created_at : datetime;
  updated_at : datetime
}.

Definition set_id (x : option string) (n : t) : t :=
  {| id := x; type := type n; recipient := recipient n; subject := subject n;
     message := message n; status := status n; sent_at := sent_at n;
     delivered_at := delivered_at n; event_type := event_type n;
     event_data := event_data n; source_service := source_service n;
     template_id := template_id n; priority := priority n;
     retry_count := retry_count n; max_retries := max_retries n;
     created_at := created_at n; updated_at := updated_at n |}.

Definition set_status (x : NotificationStatus.t) (n : t) : t :=
  {| id := id n; type := type n; recipient := recipient n; subject := subject n;
     message := message n; status := x; sent_at := sent_at n;
     delivered_at := delivered_at n; event_type := event_type n;
     event_data := event_data n; source_service := source_service n;
     template_id := template_id n; priority := priority n;
     retry_count := retry_count n; max_retries := max_retries n;
     created_at := created_at n; updated_at := updated_at n |}.

Definition set_sent_at (x : option datetime) (n : t) : t :=
  {| id := id n; type := type n; recipient := recipient n; subject := subject n;
     message := message n; status := status n; sent_at := x;
     delivered_at := delivered_at n; event_type := event_type n;
     event_data := event_data n; source_service := source_service n;
     template_id := template_id n; priority := priority n;
     retry_count := retry_count n; max_retries := max_retries n;
     created_at := created_at n; updated_at := updated_at n |}.

Definition set_delivered_at (x : option datetime) (n : t) : t :=
  {| id := id n; type := type n; recipient := recipient n; subject := subject n;
     message := message n; status := status n; sent_at := sent_at n;
     delivered_at := x; event_type := event_type n;
     event_data := event_data n; source_service := source_service n;
     template_id := template_id n; priority := priority n;
     retry_count := retry_count n; max_retries := max_retries n;
     created_at := created_at n; updated_at := updated_at n |}.

Definition set_retry_count (x : Z) (n : t) : t :=
  {| id := id n; type := type n; recipient := recipient n; subject := subject n;
     message := message n; status := status n; sent_at := sent_at n;
     delivered_at := delivered_at n; event_type := event_type n;
     event_data := event_data n; source_service := source_service n;
     template_id := template_id n; priority := priority n;
     retry_count := x; max_retries := max_retries n;
     created_at := created_at n; updated_at := updated_at n |}.

Definition set_updated_at (x : datetime) (n : t) : t :=
  {| id := id n; type := type n; recipient := recipient n; subject := subject n;
     message := message n; status := status n; sent_at := sent_at n;
     delivered_at := delivered_at n; event_type := event_type n;
     event_data := event_data n; source_service := source_service n;
     template_id := template_id n; priority := priority n;
     retry_count := retry_count n; max_retries := max_retries n;
     created_at := created_at n; updated_at := x |}.
End Notification.

(** ** Notification service: event payloads, environment and state *)

(** What the handlers do with the decoded JSON of an event. *)
Module PyValue.

(** Truth value, as [if v:] takes it. *)
Definition truthy (v : value) : bool :=
  match v with
  | VNone => false
  | VBool b => b
  | VInt z => negb (z =? 0)%Z
  | VFloat q => negb (Qeq_bool q 0)
  | VStr s => str_truthy s
  | VList l => negb (Nat.eqb (length l) 0)
  | VDict d => negb (Nat.eqb (length d) 0)
  end.

(** [v == s] for a string literal [s] *)
Definition eq_str (v : value) (s : string) : bool :=
  match v with VStr s' => String.eqb s' s | _ => false end.

Definition is_None (v : value) : bool :=
  match v with VNone => true | _ => false end.

(** [v < n] for an integer literal [n]; [None] stands for the
    [TypeError] of an operand that is not a number. *)
Definition lt_int (v : value) (n : Z) : option bool :=
  match v with
  | VBool b => Some (Z.b2z b <? n)%Z
  | VInt z => Some (z <? n)%Z
  | VFloat q => Some (Qltb q (inject_Z n))
  | _ => None
  end.

(** [str(v)] inside an f-string; the text of a float, a list or a dict
    is left to [repr]. *)
Definition str (repr : value -> string) (v : value) : string :=
  match v with
  | VNone => "None"
  | VBool true => "True"
  | VBool false => "False"
  | VInt z => NilZero.string_of_int (Z.to_int z)
  | VStr s => s
  | _ => repr v
  end.

(** [v in strings] *)
Definition in_strings (v : value) (strings : list string) : bool :=
  existsb (eq_str v) strings.
End PyValue.

(** Order on [datetime] values. *)
Definition datetime_key (t : datetime) : list nat :=
  [year t; month t; day t; hour t; minute t; second t; microsecond t].

Fixpoint lex_leb (a b : list nat) : bool :=
  match a, b with
  | [], _ => true
  | _ :: _, [] => false
  | x :: a', y :: b' => Nat.ltb x y || (Nat.eqb x y && lex_leb a' b')
  end.

Definition datetime_leb (a b : datetime) : bool :=
  lex_leb (datetime_key a) (datetime_key b).

(** The dictionary given to [create_notification], as its callers
    build it: [type], [recipient] and [source_service] hold whatever
    the event carried ([VNone] for a key that is left out), the other
    keys hold values of the declared type, and a key with a default may
    be left out. *)
Module NotificationData.
Record t : Type := {
  type : value;
  recipient : value;
  subject : option string;
  message : string;
  status : option NotificationStatus.t;
  sent_at : option datetime;
  delivered_at : option datetime;
  event_type : string;
  event_data : option dict;
  source_service : value;
  template_id : option string;
  priority : option Z;
  retry_count : option Z;
  max_retries : option Z;
  created_at : option datetime;
  updated_at : option datetime
}.
End NotificationData.

Module NotificationEnv.
Record t : Type := {
  (** [datetime.utcnow()] *)
  utcnow : nat -> datetime;
  (** the identifier the store gives to an inserted document *)
  object_id : nat -> string;
  (** one round trip to the document store: [None] when it succeeds,
      the exception it raises otherwise *)
  store_fault : nat -> option exn;
  (** pydantic's verdict on a number given for a [str] field: its text
      (version 1) or a rejection (version 2) *)
  number_as_str : value -> option string;
  (** [repr] of a float, a list or a dict *)
  repr : value -> string
}.
End NotificationEnv.

Module NotificationWorld.
Record t : Type := {
  notifications : gmap string Notification.t;
  log : list LogRecord;
  tick : nat
}.

Definition set_notifications
    (f : gmap string Notification.t -> gmap string Notification.t) (w : t) : t :=
  {| notifications := f (notifications w); log := log w; tick := tick w |}.

Definition add_log (r : LogRecord) (w : t) : t :=
  {| notifications := notifications w; log := log w ++ [r]; tick := tick w |}.

Definition next_tick (w : t) : t :=
  {| notifications := notifications w; log := log w; tick := S (tick w) |}.
End NotificationWorld.

Module NotificationIO.
Import NotificationWorld.

Definition ask {A} (f : nat -> A) : M NotificationWorld.t A :=
  fun w => (Return (f (tick w)), next_tick w).

Definition logger (l : level) (text : string) (a : list value)
  : M NotificationWorld.t unit :=
  modify (add_log {| levelname := l; msg := text; args := a |}).

(** An awaited operation of the document store: it raises when the
    round trip fails, and has no effect then. *)
Definition store {A} (env : NotificationEnv.t) (op : M NotificationWorld.t A)
  : M NotificationWorld.t A :=
  fault <- ask (NotificationEnv.store_fault env) ;;
  match fault with
  | Some e => raise e
  | None => op
  end.
End NotificationIO.

Module NotificationDocument.
Import NotificationIO NotificationWorld.

(** A field with [default_factory=datetime.utcnow] *)
Definition or_utcnow (env : NotificationEnv.t) (supplied : option datetime)
  : M NotificationWorld.t datetime :=
  match supplied with
  | Some t => ret t
  | None => ask (NotificationEnv.utcnow env)
  end.

(** Validation of a [str] field. *)
Definition str_field (env : NotificationEnv.t) (v : value) : option string :=
  match v with
  | VStr s => Some s
  | VBool _ | VInt _ | VFloat _ => NotificationEnv.number_as_str env v
  | _ => None
  end.

(** Validation of [type: NotificationType]. *)
Definition type_field (v : value) : option NotificationType.t :=
  match v with
  | VStr s => NotificationType.of_value s
  | _ => None
  end.

(** The [Notification] constructor on the keyword arguments. *)
Definition new (env : NotificationEnv.t) (d : NotificationData.t)
  : M NotificationWorld.t Notification.t :=
  created_at <- or_utcnow env (NotificationData.created_at d) ;;
  updated_at <- or_utcnow env (NotificationData.updated_at d) ;;
  match type_field (NotificationData.type d),
        str_field env (NotificationData.recipient d),
        str_field env (NotificationData.source_service d) with
  | Some type, Some recipient, Some source_service =>
      ret {| Notification.id := None;
             Notification.type := type;
             Notification.recipient := recipient;
             Notification.subject := NotificationData.subject d;
             Notification.message := NotificationData.message d;
             Notification.status :=
               default NotificationStatus.PENDING (NotificationData.status d);
             Notification.sent_at := NotificationData.sent_at d;
             Notification.delivered_at := NotificationData.delivered_at d;
             Notification.event_type := NotificationData.event_type d;
             Notification.event_data := default [] (NotificationData.event_data d);
             Notification.source_service := source_service;
             Notification.template_id := NotificationData.template_id d;
             Notification.priority := default 1%Z (NotificationData.priority d);
             Notification.retry_count := default 0%Z (NotificationData.retry_count d);
             Notification.max_retries := default 3%Z (NotificationData.max_retries d);
             Notification.created_at := created_at;
             Notification.updated_at := updated_at |}
  | _, _, _ => raise (Error "ValidationError" "Notification")
  end.

(** [await notification.insert()] *)
Definition insert (env : NotificationEnv.t) (n : Notification.t)
  : M NotificationWorld.t Notification.t :=
  store env
    (i <- ask (NotificationEnv.object_id env) ;;
     let n' := Notification.set_id (Some i) n in
     modify (set_notifications (fun m => <[i := n']> m)) ;;;
     ret n').

(** [await Notification.get(notification_id)] *)
Definition get (env : NotificationEnv.t) (notification_id : string)
  : M NotificationWorld.t (option Notification.t) :=
  store env
    (gets (fun w => get_document Notification.set_id notification_id (notifications w))).

(** [await notification.save()] *)
Definition save (env : NotificationEnv.t) (n : Notification.t)
  : M NotificationWorld.t Notification.t :=
  match Notification.id n with
  | Some i => store env (modify (set_notifications (fun m => <[i := n]> m)) ;;; ret n)
  | None => insert env n
  end.

(** [await notification.delete()] *)
Definition delete (env : NotificationEnv.t) (n : Notification.t)
  : M NotificationWorld.t unit :=
  store env
    (match Notification.id n with
     | Some i => modify (set_notifications (fun m => base.delete i m))
     | None => ret tt
     end).
End NotificationDocument.

(** ** Notification service: [notification_service/app/repositories/notification_repository.py] *)

(** The dictionary [update_notification] receives. *)
Module NotificationPatch.
Record t : Type := {
  status : option NotificationStatus.t;
  updated_at : option datetime;
  sent_at : option datetime;
  delivered_at : option datetime;
  retry_count : option Z
}.
End NotificationPatch.

Module NotificationRepository.
Import NotificationIO NotificationWorld.

Definition create_notification (env : NotificationEnv.t)
    (notification_data : NotificationData.t) : M NotificationWorld.t Notification.t :=
  notification <- NotificationDocument.new env notification_data ;;
  NotificationDocument.insert env notification.

Definition get_notification_by_id (env : NotificationEnv.t) (notification_id : string)
  : M NotificationWorld.t (option Notification.t) :=
  try_except (NotificationDocument.get env notification_id) (fun _ => ret None).

(** The query built from [recipient] and [status]. *)
Definition matches (recipient : option string) (status : option NotificationStatus.t)
    (n : Notification.t) : bool :=
  (if opt_truthy recipient
   then String.eqb (Notification.recipient n) (default "" recipient)
   else true)
  && match status with
     | Some s => bool_decide (Notification.status n = s)
     | None => true
     end.

(** [.sort(-Notification.created_at)]: the newest first.  The store
    leaves the order of equal keys open; here it is the order of a
    stable sort of the collection. *)
Definition newest_first (a b : Notification.t) : Prop :=
  datetime_leb (Notification.created_at b) (Notification.created_at a) = true.

#[global] Instance newest_first_dec : RelDecision newest_first.
Proof. intros a b. unfold newest_first. apply _. Defined.

(** [.sort(Notification.created_at)] *)
Definition oldest_first (a b : Notification.t) : Prop :=
  datetime_leb (Notification.created_at a) (Notification.created_at b) = true.

#[global] Instance oldest_first_dec : RelDecision oldest_first.
Proof. intros a b. unfold oldest_first. apply _. Defined.

(** [.limit(n)]: no limit when [n] is 0.  [limit] and [offset] are
    taken non-negative. *)
Definition limited {A} (n : nat) (l : list A) : list A :=
  if Nat.eqb n 0 then l else take n l.

Definition get_notifications (env : NotificationEnv.t) (recipient : option string)
    (status : option NotificationStatus.t) (limit offset : nat)
  : M NotificationWorld.t (list Notification.t) :=
  store env
    (gets (fun w =>
       limited limit
         (drop offset
            (merge_sort newest_first
               (List.filter (matches recipient status)
                  (documents Notification.set_id (notifications w))))))).

(** [setattr(notification, key, value)] for every key of [update_data] *)
Definition apply_patch (u : NotificationPatch.t) (n : Notification.t) : Notification.t :=
  let n := set_if Notification.set_status (NotificationPatch.status u) n in
  let n := set_if Notification.set_updated_at (NotificationPatch.updated_at u) n in
  let n := set_if (fun t => Notification.set_sent_at (Some t)) (NotificationPatch.sent_at u) n in
  let n :=
    set_if (fun t => Notification.set_delivered_at (Some t))
      (NotificationPatch.delivered_at u) n in
  set_if Notification.set_retry_count (NotificationPatch.retry_count u) n.

Definition update_notification (env : NotificationEnv.t) (notification_id : string)
    (update_data : NotificationPatch.t) : M NotificationWorld.t (option Notification.t) :=
  try_except
    (found <- NotificationDocument.get env notification_id ;;
     match found with
     | None => ret None
     | Some notification =>
         let notification := apply_patch update_data notification in
         NotificationDocument.save env notification ;;;
         ret (Some notification)
     end)
    (fun _ => ret None).

Definition delete_notification (env : NotificationEnv.t) (notification_id : string)
  : M NotificationWorld.t bool :=
  try_except
    (found <- NotificationDocument.get env notification_id ;;
     match found with
     | Some notification => NotificationDocument.delete env notification ;;; ret true
     | None => ret false
     end)
    (fun _ => ret false).

Definition get_failed_notifications (env : NotificationEnv.t) (max_retries : Z)
    (limit : nat) : M NotificationWorld.t (list Notification.t) :=
  store env
    (gets (fun w =>
       limited limit
         (merge_sort oldest_first
            (List.filter
               (fun n => bool_decide (Notification.status n = NotificationStatus.FAILED)
                         && (Notification.retry_count n <? max_retries)%Z)
               (documents Notification.set_id (notifications w)))))).

Definition count_notifications (env : NotificationEnv.t) (recipient : option string)
    (status : option NotificationStatus.t) : M NotificationWorld.t nat :=
  store env
    (gets (fun w =>
       length (List.filter (matches recipient status)
                 (documents Notification.set_id (notifications w))))).
End NotificationRepository.

(** ** Notification service: [notification_service/app/services/notification_service.py] *)

Module NotificationService.
Import NotificationIO NotificationWorld.

Definition update_notification_status (env : NotificationEnv.t) (notification_id : string)
    (status : NotificationStatus.t) (delivered_at : option datetime)
  : M NotificationWorld.t (option Notification.t) :=
  updated_at <- ask (NotificationEnv.utcnow env) ;;
  sent_at <-
    (if bool_decide (status = NotificationStatus.SENT)
     then (t <- ask (NotificationEnv.utcnow env) ;; ret (Some t))
     else ret None) ;;
  let update_data :=
    {| NotificationPatch.status := Some status;
       NotificationPatch.updated_at := Some updated_at;
       NotificationPatch.sent_at := sent_at;
       NotificationPatch.delivered_at :=
         if bool_decide (status = NotificationStatus.DELIVERED) then delivered_at
         else None;
       NotificationPatch.retry_count := None |} in
  NotificationRepository.update_notification env notification_id update_data.

Definition _send_email_notification (env : NotificationEnv.t) (notification : Notification.t)
  : M NotificationWorld.t unit :=
  logger INFO "Sending email to {notification.recipient}"
    [VStr (Notification.recipient notification)] ;;;
  logger INFO "Subject: {notification.subject}" [opt_str (Notification.subject notification)] ;;;
  logger INFO "Message: {notification.message}" [VStr (Notification.message notification)] ;;;
  update_notification_status env (str_opt (Notification.id notification))
    NotificationStatus.SENT None ;;;
  delivered_at <- ask (NotificationEnv.utcnow env) ;;
  update_notification_status env (str_opt (Notification.id notification))
    NotificationStatus.DELIVERED (Some delivered_at) ;;;
  logger INFO "Email notification {notification.id} sent successfully"
    [opt_str (Notification.id notification)].

Definition _send_sms_notification (env : NotificationEnv.t) (notification : Notification.t)
  : M NotificationWorld.t unit :=
  logger INFO "Sending SMS to {notification.recipient}"
    [VStr (Notification.recipient notification)] ;;;
  logger INFO "Message: {notification.message}" [VStr (Notification.message notification)] ;;;
  update_notification_status env (str_opt (Notification.id notification))
    NotificationStatus.SENT None ;;;
  logger INFO "SMS notification {notification.id} sent successfully"
    [opt_str (Notification.id notification)].

Definition _send_push_notification (env : NotificationEnv.t) (notification : Notification.t)
  : M NotificationWorld.t unit :=
  logger INFO "Sending push notification to {notification.recipient}"
    [VStr (Notification.recipient notification)] ;;;
  logger INFO "Message: {notification.message}" [VStr (Notification.message notification)] ;;;
  update_notification_status env (str_opt (Notification.id notification))
    NotificationStatus.SENT None ;;;
  logger INFO "Push notification {notification.id} sent successfully"
    [opt_str (Notification.id notification)].

Definition _send_in_app_notification (env : NotificationEnv.t)
    (notification : Notification.t) : M NotificationWorld.t unit :=
  logger INFO "Creating in-app notification for {notification.recipient}"
    [VStr (Notification.recipient notification)] ;;;
  logger INFO "Message: {notification.message}" [VStr (Notification.message notification)] ;;;
  update_notification_status env (str_opt (Notification.id notification))
    NotificationStatus.SENT None ;;;
  logger INFO "In-app notification {notification.id} created successfully"
    [opt_str (Notification.id notification)].

(** The final [else] of the dispatch has no counterpart: the four
    members are all there is of [NotificationType]. *)
Definition _send_notification (env : NotificationEnv.t) (notification : Notification.t)
  : M NotificationWorld.t unit :=
  try_except
    (match Notification.type notification with
     | NotificationType.EMAIL => _send_email_notification env notification
     | NotificationType.SMS => _send_sms_notification env notification
     | NotificationType.PUSH => _send_push_notification env notification
     | NotificationType.IN_APP => _send_in_app_notification env notification
     end)
    (fun e =>
       update_notification_status env (str_opt (Notification.id notification))
         NotificationStatus.FAILED None ;;;
       updated_at <- ask (NotificationEnv.utcnow env) ;;
       NotificationRepository.update_notification env
         (str_opt (Notification.id notification))
         {| NotificationPatch.status := None;
            NotificationPatch.updated_at := Some updated_at;
            NotificationPatch.sent_at := None;
            NotificationPatch.delivered_at := None;
            NotificationPatch.retry_count :=
              Some (Notification.retry_count notification + 1)%Z |} ;;;
       logger ERROR "Failed to send notification {notification.id}: {e}"
         [opt_str (Notification.id notification); VStr (exn_str e)] ;;;
       raise e).

Definition create_notification (env : NotificationEnv.t)
    (notification_data : NotificationData.t) : M NotificationWorld.t Notification.t :=
  try_except
    (let notification_type := NotificationData.type notification_data in
     (if negb (PyValue.in_strings notification_type
                 (map NotificationType.value NotificationType.members))
      then raise (Error "ValueError"
                    ("Invalid notification type: "
                     +:+ PyValue.str (NotificationEnv.repr env) notification_type))
      else ret tt) ;;;
     notification <- NotificationRepository.create_notification env notification_data ;;
     _send_notification env notification ;;;
     ret notification)
    (fun e =>
       logger ERROR "Error creating notification: {e}" [VStr (exn_str e)] ;;;
       raise e).

Definition get_notifications (env : NotificationEnv.t) (recipient : option string)
    (status : option NotificationStatus.t) (limit offset : nat)
  : M NotificationWorld.t (list Notification.t) :=
  NotificationRepository.get_notifications env recipient status limit offset.

Definition get_notification_by_id (env : NotificationEnv.t) (notification_id : string)
  : M NotificationWorld.t (option Notification.t) :=
  NotificationRepository.get_notification_by_id env notification_id.

(** The loop of [retry_failed_notifications]; [retry_count] counts the
    notifications sent again. *)
Fixpoint retry_loop (env : NotificationEnv.t) (max_retries : Z)
    (failed_notifications : list Notification.t) (retry_count : nat)
  : M NotificationWorld.t nat :=
  match failed_notifications with
  | [] => ret retry_count
  | notification :: rest =>
      retry_count <-
        (if (Notification.retry_count notification <? max_retries)%Z then
           try_except
             (_send_notification env notification ;;; ret (retry_count + 1)%nat)
             (fun e =>
                logger ERROR "Failed to retry notification {notification.id}: {e}"
                  [opt_str (Notification.id notification); VStr (exn_str e)] ;;;
                ret retry_count)
         else ret retry_count) ;;
      retry_loop env max_retries rest retry_count
  end.

Definition retry_failed_notifications (env : NotificationEnv.t) (max_retries : Z)
  : M NotificationWorld.t nat :=
  failed_notifications <-
    NotificationRepository.get_notifications env None (Some NotificationStatus.FAILED)
      100 0 ;;
  retry_loop env max_retries failed_notifications 0.
End NotificationService.

(** ** Notification service: [notification_service/app/utils/kafka_consumer.py] *)

(** A record read from a topic, key and value decoded. *)
Module KafkaMessage.
Record t : Type := { topic : string; key : option string; value : Py.value }.
End KafkaMessage.

Module KafkaConsumer.
Import NotificationIO NotificationWorld.

(** [v.get(k, default)]: only a dict has the method. *)
Definition get (v : value) (k : string) (default : value) : M NotificationWorld.t value :=
  match v with
  | VDict d => ret (dict_get_default d k default)
  | _ => raise (Error "AttributeError" "object has no attribute 'get'")
  end.

(** [event_data] once its first [.get] has succeeded *)
Definition as_dict (v : value) : dict :=
  match v with VDict d => d | _ => [] end.

Definition _handle_user_registered (env : NotificationEnv.t) (event_data service : value)
  : M NotificationWorld.t unit :=
  user_email <- get event_data "email" VNone ;;
  user_name <- get event_data "name" VNone ;;
  if PyValue.truthy user_email then
    let notification_data :=
      {| NotificationData.type := VStr "email";
         NotificationData.recipient := user_email;
         NotificationData.subject := Some "Welcome to E-commerce Platform!";
         NotificationData.message :=
           "Hello " +:+ PyValue.str (NotificationEnv.repr env) user_name
           +:+ ", welcome to our platform! We're excited to have you on board.";
         NotificationData.status := None;
         NotificationData.sent_at := None;
         NotificationData.delivered_at := None;
         NotificationData.event_type := "user.registered";
         NotificationData.event_data := Some (as_dict event_data);
         NotificationData.source_service := service;
         NotificationData.template_id := None;
         NotificationData.priority := Some 3%Z;
         NotificationData.retry_count := None;
         NotificationData.max_retries := None;
         NotificationData.created_at := None;
         NotificationData.updated_at := None |} in
    NotificationService.create_notification env notification_data ;;;
    logger INFO "Created welcome notification for user: {user_email}" [user_email]
  else ret tt.

Definition _handle_user_login (event_data service : value) : M NotificationWorld.t unit :=
  user_email <- get event_data "email" VNone ;;
  logger INFO "User login event processed for: {user_email}" [user_email].

Definition _handle_user_updated (event_data service : value) : M NotificationWorld.t unit :=
  user_email <- get event_data "email" VNone ;;
  logger INFO "User profile update event processed for: {user_email}" [user_email].

Definition _handle_product_created (event_data service : value)
  : M NotificationWorld.t unit :=
  product_name <- get event_data "name" VNone ;;
  logger INFO "Product created event processed for: {product_name}" [product_name].

Definition _handle_product_stock_updated (env : NotificationEnv.t)
    (event_data service : value) : M NotificationWorld.t unit :=
  product_id <- get event_data "product_id" VNone ;;
  stock_quantity <- get event_data "stock_quantity" VNone ;;
  low <-
    (if PyValue.is_None stock_quantity then ret false
     else match PyValue.lt_int stock_quantity 10 with
          | Some b => ret b
          | None => raise (Error "TypeError" "'<' not supported")
          end) ;;
  if low : bool then
    let notification_data :=
      {| NotificationData.type := VStr "email";
         NotificationData.recipient := VStr "admin@ecommerce.com";
         NotificationData.subject := Some "Low Stock Alert";
         NotificationData.message :=
           "Product " +:+ PyValue.str (NotificationEnv.repr env) product_id
           +:+ " has low stock: "
           +:+ PyValue.str (NotificationEnv.repr env) stock_quantity
           +:+ " units remaining.";
         NotificationData.status := None;
         NotificationData.sent_at := None;
         NotificationData.delivered_at := None;
         NotificationData.event_type := "product.stock_updated";
         NotificationData.event_data := Some (as_dict event_data);
         NotificationData.source_service := service;
         NotificationData.template_id := None;
         NotificationData.priority := Some 4%Z;
         NotificationData.retry_count := None;
         NotificationData.max_retries := None;
         NotificationData.created_at := None;
         NotificationData.updated_at := None |} in
    NotificationService.create_notification env notification_data ;;;
    logger INFO "Created low stock alert for product: {product_id}" [product_id]
  else ret tt.

Definition _handle_user_event (env : NotificationEnv.t) (event_type event_data service : value)
  : M NotificationWorld.t unit :=
  try_except
    (if PyValue.eq_str event_type "user.registered" then
       _handle_user_registered env event_data service
     else if PyValue.eq_str event_type "user.login" then
       _handle_user_login event_data service
     else if PyValue.eq_str event_type "user.updated" then
       _handle_user_updated event_data service
     else logger INFO "Unhandled user event type: {event_type}" [event_type])
    (fun e =>
       logger ERROR "Error handling user event '{event_type}': {e}"
         [event_type; VStr (exn_str e)]).

Definition _handle_product_event (env : NotificationEnv.t)
    (event_type event_data service : value) : M NotificationWorld.t unit :=
  try_except
    (if PyValue.eq_str event_type "product.created" then
       _handle_product_created event_data service
     else if PyValue.eq_str event_type "product.stock_updated" then
       _handle_product_stock_updated env event_data service
     else logger INFO "Unhandled product event type: {event_type}" [event_type])
    (fun e =>
       logger ERROR "Error handling product event '{event_type}': {e}"
         [event_type; VStr (exn_str e)]).

Definition _process_message (env : NotificationEnv.t) (message : KafkaMessage.t)
  : M NotificationWorld.t unit :=
  try_except
    (let topic := KafkaMessage.topic message in
     let key := KafkaMessage.key message in
     let value := KafkaMessage.value message in
     logger INFO "Processing message from topic '{topic}' with key '{key}'"
       [VStr topic; opt_str key] ;;;
     service <- get value "service" (VStr "unknown") ;;
     event_type <- get value "event_type" (VStr "unknown") ;;
     event_data <- get value "data" (VDict []) ;;
     if String.eqb topic "user-events" then
       _handle_user_event env event_type event_data service
     else if String.eqb topic "product-events" then
       _handle_product_event env event_type event_data service
     else logger WARNING "Unknown topic: {topic}" [VStr topic])
    (fun e => logger ERROR "Error processing message: {e}" [VStr (exn_str e)]).
End KafkaConsumer.

(** ** Concrete environments and states, used to exercise the statements *)

Module Fixture.
Definition now : datetime :=
  {| year := 2024; month := 1; day := 15; hour := 9; minute := 30; second := 0;
     microsecond := 0 |}.

Definition alice : UserJson.t :=
  {| UserJson.id := "u1"; UserJson.name := "Alice";
     UserJson.email := "alice@example.com"; UserJson.is_active := true |}.

Definition bob : UserJson.t :=
  {| UserJson.id := "u2"; UserJson.name := "Bob";
     UserJson.email := "bob@example.com"; UserJson.is_active := true |}.

Definition widget : ProductJson.t :=
  {| ProductJson.id := "A"; ProductJson.name := "Widget";
     ProductJson.description := "A plain widget"; ProductJson.price := 30%Q;
     ProductJson.category_name := None; ProductJson.sku := Some "W-1";
     ProductJson.stock_quantity := 5%Z; ProductJson.is_available := true;
     ProductJson.image_urls := [] |}.

(** A broker that refuses every record, a user service that knows two
    tokens, a product service that serves one product.  The clients
    read the body of an answer only when its status is 200 and, for
    [patch_stock], not at all. *)
Definition env : OrderEnv.t :=
  {| OrderEnv.utcnow := fun _ => now;
     OrderEnv.uuid4 := fun _ => "3f2b8c1a-0000-4000-8000-000000000000";
     OrderEnv.object_id := fun n => "oid" +:+ zfill 4 n;
     OrderEnv.get_profile := fun _ token =>
       if String.eqb token "alice-token" then Response 200 (JObject alice)
       else if String.eqb token "bob-token" then Response 200 (JObject bob)
       else Response 401 (JOther true);
     OrderEnv.get_product := fun _ pid =>
       if String.eqb pid "A" then Response 200 (JObject widget)
       else Response 404 (JOther true);
     OrderEnv.patch_stock := fun _ _ _ => Response 200 (JOther true);
     OrderEnv.producer_start := fun _ => None;
     OrderEnv.producer_stop := fun _ => None;
     OrderEnv.send_and_wait := fun _ _ _ _ => Some (KafkaError "broker unavailable") |}.

Definition world : OrderWorld.t :=
  {| OrderWorld.orders := ∅; OrderWorld.shipping_addresses := ∅;
     OrderWorld.kafka_enabled := true; OrderWorld.producer := true;
     OrderWorld.delivered := []; OrderWorld.log := []; OrderWorld.tick := 0 |}.

Definition address : ShippingAddressCreate.t :=
  {| ShippingAddressCreate.full_name := "Alice A";
     ShippingAddressCreate.address_line_1 := "1 Main Street";
     ShippingAddressCreate.address_line_2 := None;
     ShippingAddressCreate.city := "Cairo";
     ShippingAddressCreate.state := "C";
     ShippingAddressCreate.postal_code := "11511";
     ShippingAddressCreate.country := "EG";
     ShippingAddressCreate.phone := None |}.

(** Two units of the product priced 30. *)
Definition order_data : OrderCreate.t :=
  {| OrderCreate.items :=
       [{| OrderItemCreate.product_id := "A"; OrderItemCreate.quantity := 2%Z |}];
     OrderCreate.shipping_address := address;
     OrderCreate.shipping_method := None;
     OrderCreate.payment_method := None;
     OrderCreate.notes := None |}.

(** A request with an unknown product and a line that exceeds the stock. *)
Definition bad_order_data : OrderCreate.t :=
  {| OrderCreate.items :=
       [{| OrderItemCreate.product_id := "A"; OrderItemCreate.quantity := 2%Z |};
        {| OrderItemCreate.product_id := "B"; OrderItemCreate.quantity := 1%Z |};
        {| OrderItemCreate.product_id := "A"; OrderItemCreate.quantity := 9%Z |}];
     OrderCreate.shipping_address := address;
     OrderCreate.shipping_method := None;
     OrderCreate.payment_method := None;
     OrderCreate.notes := None |}.

(** The state after Alice placed [order_data]; the order is ["oid0007"]. *)
Definition world_with_order : OrderWorld.t :=
  snd (OrderService.create_order env order_data "alice-token" world).

Definition product_env : ProductEnv.t :=
  {| ProductEnv.utcnow := fun _ => now;
     ProductEnv.object_id := fun n => "pid" +:+ zfill 4 n |}.

Definition stored_widget : Product.t :=
  {| Product.id := Some "p1"; Product.name := "Widget";
     Product.description := "A plain widget"; Product.price := 30%Q;
     Product.category_id := None; Product.category_name := None;
     Product.sku := Some "W-1"; Product.stock_quantity := 3%Z;
     Product.is_available := true; Product.is_active := true;
     Product.image_urls := []; Product.tags := []; Product.weight := None;
     Product.dimensions := None; Product.created_at := now;
     Product.updated_at := now |}.

Definition stored_category : Category.t :=
  {| Category.id := Some "c1"; Category.name := "Tools";
     Category.description := None; Category.is_active := true;
     Category.created_at := now; Category.updated_at := now |}.

Definition product_world : ProductWorld.t :=
  {| ProductWorld.products := {["p1" := stored_widget]};
     ProductWorld.categories := {["c1" := stored_category]};
     ProductWorld.tick := 0 |}.

Definition another_widget : ProductCreate.t :=
  {| ProductCreate.name := "Widget II";
     ProductCreate.description := "Another plain widget";
     ProductCreate.price := 35%Q; ProductCreate.category_id := None;
     ProductCreate.sku := Some "W-1"; ProductCreate.stock_quantity := 1%Z;
     ProductCreate.is_available := true; ProductCreate.image_urls := [];
     ProductCreate.tags := []; ProductCreate.weight := None;
     ProductCreate.dimensions := None |}.

Definition user_env : UserEnv.t :=
  {| UserEnv.utcnow := fun _ => now;
     UserEnv.object_id := fun n => "uid" +:+ zfill 4 n;
     UserEnv.hash_password := fun _ password => "hash:" +:+ password;
     UserEnv.verify_password := fun password h => String.eqb ("hash:" +:+ password) h;
     UserEnv.create_access_token := fun _ sub _ => "token-for-" +:+ sub;
     UserEnv.is_email := fun _ => true |}.

Definition stored_alice : User.t :=
  {| User.id := Some "u1"; User.name := "Alice"; User.email := "alice@example.com";
     User.password_hash := "hash:correct horse"; User.is_active := true;
     User.created_at := now; User.updated_at := now |}.

Definition user_world : UserWorld.t :=
  {| UserWorld.users := {["u1" := stored_alice]}; UserWorld.tick := 0 |}.

(** A second registration with Alice's address. *)
Definition second_alice : UserCreate.t :=
  {| UserCreate.name := "Alice Again"; UserCreate.email := "alice@example.com";
     UserCreate.password := "battery staple" |}.
End Fixture.

Module NotificationFixture.
(** A store that always answers, a clock that advances by a second at
    every reading, pydantic version 2. *)
Definition env : NotificationEnv.t :=
  {| NotificationEnv.utcnow := fun n =>
       {| year := 2024; month := 1; day := 15; hour := 9; minute := 30; second := n;
          microsecond := 0 |};
     NotificationEnv.object_id := fun n => "nid" +:+ zfill 4 n;
     NotificationEnv.store_fault := fun _ => None;
     NotificationEnv.number_as_str := fun _ => None;
     NotificationEnv.repr := fun _ => "..." |}.

Definition world : NotificationWorld.t :=
  {| NotificationWorld.notifications := ∅; NotificationWorld.log := [];
     NotificationWorld.tick := 0 |}.

Definition user_registered : KafkaMessage.t :=
  {| KafkaMessage.topic := "user-events";
     KafkaMessage.key := Some "u1";
     KafkaMessage.value :=
       VDict [("service", VStr "user-service");
              ("event_type", VStr "user.registered");
              ("data", VDict [("user_id", VStr "u1");
                              ("email", VStr "alice@example.com");
                              ("name", VStr "Alice")])] |}.

Definition user_login : KafkaMessage.t :=
  {| KafkaMessage.topic := "user-events";
     KafkaMessage.key := Some "u1";
     KafkaMessage.value :=
       VDict [("service", VStr "user-service");
              ("event_type", VStr "user.login");
              ("data", VDict [("email", VStr "alice@example.com")])] |}.

Definition stock_updated (stock_quantity : Z) : KafkaMessage.t :=
  {| KafkaMessage.topic := "product-events";
     KafkaMessage.key := Some "p1";
     KafkaMessage.value :=
       VDict [("service", VStr "product-service");
              ("event_type", VStr "product.stock_updated");
              ("data", VDict [("product_id", VStr "p1");
                              ("stock_quantity", VInt stock_quantity)])] |}.

Definition text_message (type : value) : NotificationData.t :=
  {| NotificationData.type := type;
     NotificationData.recipient := VStr "+20100000000";
     NotificationData.subject := None;
     NotificationData.message := "Your order has shipped";
     NotificationData.status := None;
     NotificationData.sent_at := None;
     NotificationData.delivered_at := None;
     NotificationData.event_type := "order.shipped";
     NotificationData.event_data := None;
     NotificationData.source_service := VStr "order-service";
     NotificationData.template_id := None;
     NotificationData.priority := None;
     NotificationData.retry_count := None;
     NotificationData.max_retries := None;
     NotificationData.created_at := None;
     NotificationData.updated_at := None |}.

(** A failed text message that was tried [retry_count] times. *)
Definition failed_sms (retry_count : Z) : Notification.t :=
  {| Notification.id := None;
     Notification.type := NotificationType.SMS;
     Notification.recipient := "+20100000000";
     Notification.subject := None;
     Notification.message := "Your order has shipped";
     Notification.status := NotificationStatus.FAILED;
     Notification.sent_at := None;
     Notification.delivered_at := None;
     Notification.event_type := "order.shipped";
     Notification.event_data := [];
     Notification.source_service := "order-service";
     Notification.template_id := None;
     Notification.priority := 1%Z;
     Notification.retry_count := retry_count;
     Notification.max_retries := 3%Z;
     Notification.created_at := Fixture.now;
     Notification.updated_at := Fixture.now |}.

Definition world_with_failures : NotificationWorld.t :=
  {| NotificationWorld.notifications :=
       {["n1" := failed_sms 1; "n2" := failed_sms 3]};
     NotificationWorld.log := [];
     NotificationWorld.tick := 0 |}.
End NotificationFixture.

Module MoreFixture.
(** A product for the stored category, out of stock but flagged available. *)
Definition hammer : ProductCreate.t :=
  {| ProductCreate.name := "Hammer";
     ProductCreate.description := "A plain claw hammer";
     ProductCreate.price := 12%Q; ProductCreate.category_id := Some "c1";
     ProductCreate.sku := None; ProductCreate.stock_quantity := 0%Z;
     ProductCreate.is_available := true; ProductCreate.image_urls := [];
     ProductCreate.tags := []; ProductCreate.weight := None;
     ProductCreate.dimensions := None |}.

Definition stored_bob : User.t :=
  {| User.id := Some "u2"; User.name := "Bob"; User.email := "bob@example.com";
     User.password_hash := "hash:tr0ub4dor"; User.is_active := true;
     User.created_at := Fixture.now; User.updated_at := Fixture.now |}.

Definition two_users : UserWorld.t :=
  {| UserWorld.users := {["u1" := Fixture.stored_alice; "u2" := stored_bob]};
     UserWorld.tick := 0 |}.
End MoreFixture.

Module FloatFixture.
(** One unit each of products priced 16.75, 52.01 and 31.24. *)
Definition three_lines : list (Binary64.t * Z) :=
  [(Binary64.decimal 1675, 1%Z); (Binary64.decimal 5201, 1%Z);
   (Binary64.decimal 3124, 1%Z)].
End FloatFixture.

(** * Specification vocabulary *)

Definition frame (w w1 : OrderWorld.t) : Prop :=
  OrderWorld.orders w1 = OrderWorld.orders w
  /\ OrderWorld.shipping_addresses w1 = OrderWorld.shipping_addresses w
  /\ OrderWorld.kafka_enabled w1 = OrderWorld.kafka_enabled w
  /\ OrderWorld.producer w1 = OrderWorld.producer w
  /\ OrderWorld.delivered w1 = OrderWorld.delivered w.

(** What one availability check can answer. *)
Definition failure_reasons : list string :=
  ["Product not found"; "Product not available"; "Insufficient stock"; "Service error"].

Definition served (env : OrderEnv.t) (p : ProductJson.t) : Prop :=
  exists n pid, OrderEnv.get_product env n pid = Response HTTP_200_OK (JObject p).

Definition reservation_of (env : OrderEnv.t) (line : string * Z) (r : Reservation.t) : Prop :=
  Reservation.product_id r = fst line
  /\ Reservation.quantity r = snd line
  /\ (if Reservation.reserved r
      then exists p, Reservation.product r = Some p /\ served env p
      else exists why, Reservation.reason r = Some why /\ In why failure_reasons).

Definition count_reserved (rs : list Reservation.t) : nat :=
  length (List.filter Reservation.reserved rs).

Definition line_for (pr : OrderItemCreate.t * Reservation.t) (it : OrderItem.t) : Prop :=
  OrderItem.product_id it = OrderItemCreate.product_id (fst pr)
  /\ OrderItem.quantity it = OrderItemCreate.quantity (fst pr)
  /\ (0 < OrderItem.quantity it)%Z
  /\ OrderItem.total_price it
     = round2 (OrderItem.unit_price it * inject_Z (OrderItem.quantity it))
  /\ exists p, Reservation.product (snd pr) = Some p
       /\ OrderItem.unit_price it = ProductJson.price p
       /\ OrderItem.product_name it = ProductJson.name p.

Definition is_cents (q : Q) : Prop := exists z : Z, (q == z # 100)%Q.

(** The request line an order line was built from. *)
Definition line_of (req : OrderItemCreate.t) (it : OrderItem.t) : Prop :=
  OrderItem.product_id it = OrderItemCreate.product_id req
  /\ OrderItem.quantity it = OrderItemCreate.quantity req.

(** What a status update leaves alone. *)
Definition same_content (o o' : Order.t) : Prop :=
  Order.order_number o' = Order.order_number o
  /\ Order.user_id o' = Order.user_id o
  /\ Order.user_email o' = Order.user_email o
  /\ Order.items o' = Order.items o
  /\ Order.subtotal o' = Order.subtotal o
  /\ Order.tax_amount o' = Order.tax_amount o
  /\ Order.shipping_cost o' = Order.shipping_cost o
  /\ Order.discount_amount o' = Order.discount_amount o
  /\ Order.total_amount o' = Order.total_amount o
  /\ Order.payment_status o' = Order.payment_status o
  /\ Order.shipping_address o' = Order.shipping_address o
  /\ Order.created_at o' = Order.created_at o.

(** The milestone timestamp that belongs to a status. *)
Definition milestone (s : OrderStatus.t) (o : Order.t) : option datetime :=
  match s with
  | OrderStatus.CONFIRMED => Order.confirmed_at o
  | OrderStatus.SHIPPED => Order.shipped_at o
  | OrderStatus.DELIVERED => Order.delivered_at o
  | _ => None
  end.

(** The change of the world made by one store write: only the orders
    and the count of interactions differ. *)
Definition wrote_order (i : string) (o : Order.t) (w w' : OrderWorld.t) : Prop :=
  OrderWorld.orders w' = <[i := o]> (OrderWorld.orders w)
  /\ OrderWorld.shipping_addresses w' = OrderWorld.shipping_addresses w
  /\ OrderWorld.kafka_enabled w' = OrderWorld.kafka_enabled w
  /\ OrderWorld.producer w' = OrderWorld.producer w
  /\ OrderWorld.delivered w' = OrderWorld.delivered w
  /\ OrderWorld.log w' = OrderWorld.log w.

(** The notes after a status update with [notes], stamped at [t]. *)
Definition noted (old : option string) (notes : option string) (t : datetime)
  : option string :=
  if opt_truthy notes then
    if opt_truthy old
    then Some (default "" old +:+ newline +:+ isoformat t +:+ ": " +:+ default "" notes)
    else Some (isoformat t +:+ ": " +:+ default "" notes)
  else old.

(** The product service serves [pid] as available with at least [qty]
    in stock, whenever it is asked. *)
Definition in_stock (env : OrderEnv.t) (pid : string) (qty : Z) : Prop :=
  forall n, exists p,
    OrderEnv.get_product env n pid = Response HTTP_200_OK (JObject p)
    /\ ProductJson.is_available p = true
    /\ (qty <= ProductJson.stock_quantity p)%Z.

(** No stored product has a negative stock. *)
Definition stock_ok (w : ProductWorld.t) : Prop :=
  forall k p, ProductWorld.products w !! k = Some p -> (0 <= Product.stock_quantity p)%Z.

(** What [update_stock] leaves alone in a product. *)
Definition same_product_data (p p' : Product.t) : Prop :=
  Product.name p' = Product.name p
  /\ Product.description p' = Product.description p
  /\ Product.price p' = Product.price p
  /\ Product.category_id p' = Product.category_id p
  /\ Product.category_name p' = Product.category_name p
  /\ Product.sku p' = Product.sku p
  /\ Product.is_active p' = Product.is_active p
  /\ Product.created_at p' = Product.created_at p.

(** No two stored users share an email address. *)
Definition unique_emails (w : UserWorld.t) : Prop :=
  forall k1 k2 u1 u2,
    UserWorld.users w !! k1 = Some u1 -> UserWorld.users w !! k2 = Some u2 ->
    User.email u1 = User.email u2 -> k1 = k2.

(** The document store answers every request. *)
Definition store_ok (env : NotificationEnv.t) : Prop :=
  forall n, NotificationEnv.store_fault env n = None.

(** The status in which sending leaves a notification of the given type. *)
Definition sent_status (type : NotificationType.t) : NotificationStatus.t :=
  match type with
  | NotificationType.EMAIL => NotificationStatus.DELIVERED
  | _ => NotificationStatus.SENT
  end.

(** What sending leaves alone in a notification. *)
Definition same_notification (n n' : Notification.t) : Prop :=
  Notification.type n' = Notification.type n
  /\ Notification.recipient n' = Notification.recipient n
  /\ Notification.subject n' = Notification.subject n
  /\ Notification.message n' = Notification.message n
  /\ Notification.event_type n' = Notification.event_type n
  /\ Notification.event_data n' = Notification.event_data n
  /\ Notification.source_service n' = Notification.source_service n
  /\ Notification.template_id n' = Notification.template_id n
  /\ Notification.priority n' = Notification.priority n
  /\ Notification.retry_count n' = Notification.retry_count n
  /\ Notification.max_retries n' = Notification.max_retries n
  /\ Notification.created_at n' = Notification.created_at n.

(** From [w] to [w'] no failure was recorded: the same notifications
    are stored, none has a changed retry count, none became failed. *)
Definition no_failure_recorded (w w' : NotificationWorld.t) : Prop :=
  forall k,
    match NotificationWorld.notifications w !! k,
          NotificationWorld.notifications w' !! k with
    | Some n, Some n' =>
        Notification.retry_count n' = Notification.retry_count n
        /\ (Notification.status n' = NotificationStatus.FAILED ->
            Notification.status n = NotificationStatus.FAILED)
    | None, None => True
    | _, _ => False
    end.

(** A message of [topic] that carries an event of [event_type]. *)
Definition carries (message : KafkaMessage.t) (topic event_type : string) : Prop :=
  KafkaMessage.topic message = topic
  /\ exists v, KafkaMessage.value message = VDict v
               /\ dict_get_default v "event_type" (VStr "unknown") = VStr event_type.

(** Some notification of [l] stored under [k] is below the bound
    [max_retries] of a retry sweep. *)
Definition retried (max_retries : Z) (k : string) (l : list Notification.t) : bool :=
  existsb (fun n => bool_decide (Notification.id n = Some k)
                    && (Notification.retry_count n <? max_retries)%Z) l.

(** * Verification *)

Local Open Scope Q_scope.

Lemma round_half_even_comp (q q' : Q) : q == q' -> round_half_even q = round_half_even q'.
Proof.
  intros H. unfold round_half_even.
  rewrite (Qfloor_comp _ _ H).
  assert (E : (q - inject_Z (Qfloor q') ?= 1 # 2) = (q' - inject_Z (Qfloor q') ?= 1 # 2)).
  { apply Qcompare_comp; [now rewrite H | reflexivity]. }
  now rewrite E.
Qed.

Lemma round_half_even_Z (z : Z) : round_half_even (inject_Z z) = z.
Proof.
  unfold round_half_even. rewrite Qfloor_Z.
  assert (E : (inject_Z z - inject_Z z ?= 1 # 2) = Lt).
  { rewrite <- Qlt_alt. assert (inject_Z z - inject_Z z == 0) as -> by ring. reflexivity. }
  now rewrite E.
Qed.

Lemma round2_comp (q q' : Q) : q == q' -> round2 q = round2 q'.
Proof.
  intros H. unfold round2. f_equal. apply round_half_even_comp. now rewrite H.
Qed.

Lemma round2_cents (z : Z) : round2 (z # 100) = z # 100.
Proof.
  unfold round2. f_equal.
  rewrite (round_half_even_comp _ (inject_Z z)); [apply round_half_even_Z|].
  unfold Qeq, inject_Z. simpl. lia.
Qed.

Lemma round_half_even_nonneg (q : Q) : 0 <= q -> (0 <= round_half_even q)%Z.
Proof.
  intros H. unfold round_half_even.
  assert (0 <= Qfloor q)%Z.
  { change 0%Z with (Qfloor 0). now apply Qfloor_resp_le. }
  destruct (_ ?= _); [destruct (Z.even _)|..]; lia.
Qed.

Lemma round2_nonneg (q : Q) : 0 <= q -> 0 <= round2 q.
Proof.
  intros H. unfold round2, Qle. simpl.
  assert (0 <= round_half_even (q * 100))%Z.
  { apply round_half_even_nonneg. apply Qmult_le_0_compat; [assumption|discriminate]. }
  lia.
Qed.

Local Close Scope Q_scope.

Lemma frame_refl w : frame w w.
Proof. repeat split. Qed.

Lemma frame_trans w1 w2 w3 : frame w1 w2 -> frame w2 w3 -> frame w1 w3.
Proof. unfold frame. intuition congruence. Qed.

Lemma bind_Return {W A B} (m : M W A) (k : A -> M W B) w a w1 :
  m w = (Return a, w1) -> bind m k w = k a w1.
Proof. unfold bind. now intros ->. Qed.

Lemma bind_Raise {W A B} (m : M W A) (k : A -> M W B) w e w1 :
  m w = (Raise e, w1) -> bind m k w = (Raise e, w1).
Proof. unfold bind. now intros ->. Qed.

Ltac unfold_m :=
  cbv beta iota zeta delta [bind ret raise try_except gets modify
    OrderIO.request OrderIO.ask OrderIO.logger] in *.

Lemma verify_user_token_total env token w :
  exists r w1, UserServiceClient.verify_user_token env token w = (Return r, w1)
    /\ frame w w1
    /\ (forall j, r = Some j ->
          OrderEnv.get_profile env (OrderWorld.tick w) token = Response HTTP_200_OK j).
Proof.
  unfold UserServiceClient.verify_user_token. unfold_m.
  destruct (OrderEnv.get_profile env (OrderWorld.tick w) token) as [code body|m] eqn:E; simpl.
  - destruct (Nat.eqb code HTTP_200_OK) eqn:Ec; simpl.
    + apply Nat.eqb_eq in Ec. subst. eexists _, _. split; [reflexivity|].
      split; [repeat split|]. intros j [= <-]. reflexivity.
    + eexists _, _. split; [reflexivity|]. split; [repeat split|]. discriminate.
  - eexists _, _. split; [reflexivity|]. split; [repeat split|]. discriminate.
Qed.

Lemma get_product_by_id_total env pid w :
  exists r w1, ProductServiceClient.get_product_by_id env pid w = (Return r, w1)
    /\ frame w w1
    /\ (forall j, r = Some j ->
          OrderEnv.get_product env (OrderWorld.tick w) pid = Response HTTP_200_OK j).
Proof.
  unfold ProductServiceClient.get_product_by_id. unfold_m.
  destruct (OrderEnv.get_product env (OrderWorld.tick w) pid) as [code body|m] eqn:E; simpl.
  - destruct (Nat.eqb code HTTP_200_OK) eqn:Ec; simpl.
    + apply Nat.eqb_eq in Ec. subst. eexists _, _. split; [reflexivity|].
      split; [repeat split|]. intros j [= <-]. reflexivity.
    + eexists _, _. split; [reflexivity|]. split; [repeat split|]. discriminate.
  - eexists _, _. split; [reflexivity|]. split; [repeat split|]. discriminate.
Qed.

Lemma check_product_availability_total env pid qty w :
  exists a w1, ProductServiceClient.check_product_availability env pid qty w = (Return a, w1)
    /\ frame w w1
    /\ (if Availability.available a
        then exists p, Availability.product a = Some p /\ served env p
        else exists r, Availability.reason a = Some r /\ In r failure_reasons).
Proof.
  unfold ProductServiceClient.check_product_availability.
  destruct (get_product_by_id_total env pid w) as (r & w1 & E & F & Hr).
  unfold try_except at 1. rewrite (bind_Return _ _ _ _ _ E).
  destruct r as [[p|[|]]|]; simpl.
  - specialize (Hr _ eq_refl).
    destruct (ProductJson.is_available p); simpl.
    + destruct (ProductJson.stock_quantity p <? qty)%Z; unfold ret; simpl;
        eexists _, _; (split; [reflexivity|]); (split; [exact F|]); simpl.
      * eexists; split; [reflexivity|]. simpl; tauto.
      * eexists; split; [reflexivity|]. now exists (OrderWorld.tick w), pid.
    + unfold ret. eexists _, _; (split; [reflexivity|]); (split; [exact F|]); simpl.
      eexists; split; [reflexivity|]. simpl; tauto.
  - unfold_m. simpl. eexists _, _; (split; [reflexivity|]). split.
    + destruct F as (?&?&?&?&?). repeat split; assumption.
    + simpl. eexists; split; [reflexivity|]. simpl; tauto.
  - unfold ret. eexists _, _; (split; [reflexivity|]); (split; [exact F|]); simpl.
    eexists; split; [reflexivity|]. simpl; tauto.
  - unfold ret. eexists _, _; (split; [reflexivity|]); (split; [exact F|]); simpl.
    eexists; split; [reflexivity|]. simpl; tauto.
Qed.

Lemma reserve_loop_total env items : forall acc k w,
  exists new w1,
    ProductServiceClient.reserve_loop env items acc k w
    = (Return ((acc ++ new)%list, (k + count_reserved new)%nat), w1)
    /\ frame w w1
    /\ Forall2 (reservation_of env) items new.
Proof.
  induction items as [|[pid qty] rest IH]; intros acc k w.
  - exists [], w. simpl. unfold ret. rewrite app_nil_r, Nat.add_0_r.
    split; [reflexivity|]. split; [apply frame_refl | constructor].
  - simpl.
    destruct (check_product_availability_total env pid qty w) as (a & w1 & E & F & Ha).
    rewrite (bind_Return _ _ _ _ _ E).
    destruct (Availability.available a).
    + destruct Ha as (p & Hp & Hs). rewrite Hp.
      match goal with |- context [app acc [?r]] => set (r0 := r) end.
      destruct (IH (app acc [r0]) (k + 1)%nat w1) as (new & w2 & E2 & F2 & H2).
      exists (r0 :: new), w2.
      assert (X : app (app acc [r0]) new = app acc (r0 :: new))
        by (rewrite <- app_assoc; reflexivity).
      assert (Y : (k + 1 + count_reserved new = k + count_reserved (r0 :: new))%nat)
        by (unfold count_reserved; simpl; lia).
      rewrite E2, X, Y. split; [reflexivity|].
      split; [eapply frame_trans; eassumption|].
      constructor; [|assumption]. repeat split; simpl. eauto.
    + destruct Ha as (why & Hw & Hin). rewrite Hw.
      match goal with |- context [app acc [?r]] => set (r0 := r) end.
      destruct (IH (app acc [r0]) k w1) as (new & w2 & E2 & F2 & H2).
      exists (r0 :: new), w2.
      assert (X : app (app acc [r0]) new = app acc (r0 :: new))
        by (rewrite <- app_assoc; reflexivity).
      rewrite E2, X. split; [reflexivity|].
      split; [eapply frame_trans; eassumption|].
      constructor; [|assumption]. repeat split; simpl. eauto.
Qed.

Lemma count_reserved_le rs : (count_reserved rs <= length rs)%nat.
Proof. unfold count_reserved. apply List.filter_length_le. Qed.

Lemma count_reserved_all rs :
  Nat.eqb (count_reserved rs) (length rs) = forallb Reservation.reserved rs.
Proof.
  induction rs as [|r rs IH]; [reflexivity|].
  unfold count_reserved in *. simpl.
  destruct (Reservation.reserved r); simpl.
  - exact IH.
  - apply Nat.eqb_neq. pose proof (List.filter_length_le Reservation.reserved rs). lia.
Qed.

Lemma reserve_products_total env items w :
  exists rr w1,
    ProductServiceClient.reserve_products env items w = (Return rr, w1)
    /\ frame w w1
    /\ Forall2 (reservation_of env) items (ReservationResult.reservations rr)
    /\ ReservationResult.success rr
       = forallb Reservation.reserved (ReservationResult.reservations rr).
Proof.
  unfold ProductServiceClient.reserve_products.
  destruct (reserve_loop_total env items [] 0%nat w) as (new & w1 & E & F & H).
  rewrite (bind_Return _ _ _ _ _ E). unfold ret. simpl.
  eexists _, w1. split; [reflexivity|]. split; [assumption|]. simpl.
  split; [assumption|].
  assert (L : length items = length new) by (eapply Forall2_length; eassumption).
  rewrite L. apply count_reserved_all.
Qed.

Lemma forallb_false_Exists (rs : list Reservation.t) :
  Exists (fun r => Reservation.reserved r = false) rs ->
  forallb Reservation.reserved rs = false.
Proof.
  induction 1 as [r rs H|r rs H IH]; simpl.
  - now rewrite H.
  - rewrite IH. apply andb_false_r.
Qed.

(** C2.  When the token resolves and at least one requested line is not
    reserved, [create_order] raises [HTTPException 400] whose detail lists,
    in request order, the product and the reason of each line that failed
    (one of: not found, not available, insufficient stock, service error),
    and neither the orders nor the shipping addresses are written. *)
Theorem create_order_reservation_failure env order_data token w u w1 rr w2 :
  UserServiceClient.verify_user_token env token w = (Return (Some (JObject u)), w1) ->
  ProductServiceClient.reserve_products env (OrderService.requested_lines order_data) w1
  = (Return rr, w2) ->
  Exists (fun r => Reservation.reserved r = false) (ReservationResult.reservations rr) ->
  OrderService.create_order env order_data token w
  = (Raise (HTTPException HTTP_400_BAD_REQUEST
              ("Product reservation failed: "
               +:+ join "; "
                     (map OrderService.error_detail
                        (List.filter (fun r => negb (Reservation.reserved r))
                           (ReservationResult.reservations rr))))), w2)
  /\ OrderWorld.orders w2 = OrderWorld.orders w
  /\ OrderWorld.shipping_addresses w2 = OrderWorld.shipping_addresses w
  /\ Forall (fun r => Reservation.reserved r = false ->
               exists why, Reservation.reason r = Some why /\ In why failure_reasons)
       (ReservationResult.reservations rr).
Proof.
  intros H1 H2 Hex.
  destruct (verify_user_token_total env token w) as (r' & w1' & E1 & F1 & _).
  rewrite H1 in E1. injection E1 as <- <-.
  destruct (reserve_products_total env (OrderService.requested_lines order_data) w1)
    as (rr' & w2' & E2 & F2 & Hall & Hs).
  rewrite H2 in E2. injection E2 as <- <-.
  split.
  - unfold OrderService.create_order. unfold try_except.
    rewrite (bind_Return _ _ _ _ _ H1). simpl.
    rewrite (bind_Return _ _ _ _ _ H2).
    rewrite Hs, (forallb_false_Exists _ Hex). reflexivity.
  - pose proof (frame_trans _ _ _ F1 F2) as (Ho & Ha & _).
    split; [assumption|]. split; [assumption|].
    clear -Hall. induction Hall as [|l r ls rs Hr _ IH]; constructor; [|assumption].
    intros Hf. destruct Hr as (_ & _ & Hr). now rewrite Hf in Hr.
Qed.

Lemma send_event_total env topic event_data key w :
  exists w', KafkaProducer.send_event env topic event_data key w = (Return tt, w')
    /\ OrderWorld.orders w' = OrderWorld.orders w
    /\ OrderWorld.shipping_addresses w' = OrderWorld.shipping_addresses w.
Proof.
  unfold KafkaProducer.send_event. unfold_m.
  destruct (negb (OrderWorld.kafka_enabled w) || negb (OrderWorld.producer w)).
  - eexists. split; [reflexivity|]. split; reflexivity.
  - destruct (OrderEnv.send_and_wait env (OrderWorld.tick w) topic
                (KafkaProducer.enrich topic event_data) key) as [e|]; simpl.
    + destruct e; eexists; (split; [reflexivity|]); split; reflexivity.
    + eexists. split; [reflexivity|]. split; reflexivity.
Qed.

Lemma publish_order_created_event_total env order_data w :
  exists w', KafkaProducer.publish_order_created_event env order_data w = (Return tt, w')
    /\ OrderWorld.orders w' = OrderWorld.orders w
    /\ OrderWorld.shipping_addresses w' = OrderWorld.shipping_addresses w.
Proof. unfold KafkaProducer.publish_order_created_event. apply send_event_total. Qed.

Lemma build_items_inv pairs : forall acc sub w its sub' w',
  OrderService.build_items pairs acc sub w = (Return (its, sub'), w') ->
  w' = w
  /\ exists new,
       its = app acc new
       /\ sub' = fold_left Qplus (map OrderItem.total_price new) sub
       /\ Forall2 line_for
            (List.filter (fun pr => Reservation.reserved (snd pr)) pairs) new.
Proof.
  induction pairs as [|[item_data reservation] rest IH]; intros acc sub w its sub' w' H.
  - simpl in H. injection H as <- <- <-. split; [reflexivity|].
    exists []. rewrite app_nil_r. repeat split. constructor.
  - simpl in H. simpl.
    destruct (Reservation.reserved reservation) eqn:Er.
    + destruct (Reservation.product reservation) as [product|] eqn:Ep; [|discriminate].
      unfold OrderItem.new in H.
      destruct (0 <? OrderItemCreate.quantity item_data)%Z eqn:Eq; [|discriminate].
      match type of H with
      | context [ret ?x] => set (it := x) in H
      end.
      rewrite (bind_Return _ _ w it w eq_refl) in H.
      apply IH in H. destruct H as (-> & new & -> & -> & Hall).
      split; [reflexivity|]. exists (it :: new).
      rewrite <- app_assoc. repeat split; try reflexivity.
      constructor; [|assumption].
      repeat split; simpl; try reflexivity.
      * now apply Z.ltb_lt.
      * exists product. repeat split. assumption.
    + apply IH in H. exact H.
Qed.

Lemma round2_is_cents q : is_cents (round2 q).
Proof. eexists. unfold round2. reflexivity. Qed.

Lemma is_cents_plus a b : is_cents a -> is_cents b -> is_cents (a + b)%Q.
Proof.
  intros [x Hx] [y Hy]. exists (x + y)%Z. rewrite Hx, Hy.
  unfold Qeq, Qplus. simpl. lia.
Qed.

Lemma fold_cents xs : forall a,
  is_cents a -> Forall is_cents xs -> is_cents (fold_left Qplus xs a).
Proof.
  induction xs as [|x xs IH]; intros a Ha Hxs; simpl; [assumption|].
  inversion Hxs; subst. apply IH; [now apply is_cents_plus | assumption].
Qed.

Lemma round2_of_cents q : is_cents q -> (round2 q == q)%Q.
Proof.
  intros [z Hz]. rewrite (round2_comp _ _ Hz), round2_cents. now symmetry.
Qed.

Lemma fold_nonneg xs : forall a,
  (0 <= a)%Q -> Forall (fun x => 0 <= x)%Q xs -> (0 <= fold_left Qplus xs a)%Q.
Proof.
  induction xs as [|x xs IH]; intros a Ha Hxs; simpl; [assumption|].
  inversion Hxs; subst. apply IH; [|assumption].
  replace 0%Q with (0 + 0)%Q by reflexivity. now apply Qplus_le_compat.
Qed.

Lemma Qltb_comp a a' b : (a == a')%Q -> Qltb a b = Qltb a' b.
Proof. intros H. unfold Qltb. now rewrite H. Qed.

Lemma Qmax_nonneg q : (0 <= q)%Q -> (Qmax q 0 == q)%Q.
Proof. intros H. now apply Q.max_l. Qed.

Lemma handler_Raise {A} (e : exn) (w : OrderWorld.t) (a : A) w' :
  (if is_http e then raise e
   else Py.bind (OrderIO.logger ERROR "Error creating order: {e}" [VStr (exn_str e)])
          (fun _ => raise (HTTPException HTTP_500_INTERNAL_SERVER_ERROR "Failed to create order"))) w
  = (Return a, w') -> False.
Proof. destruct (is_http e); discriminate. Qed.

Lemma insert_address_spec env a w :
  exists s w1, OrderDocument.insert_address env a w = (Return s, w1)
    /\ OrderWorld.orders w1 = OrderWorld.orders w.
Proof.
  unfold OrderDocument.insert_address. unfold_m. simpl.
  eexists _, _. split; reflexivity.
Qed.

Lemma generate_order_number_spec env w :
  exists s w1, OrderService._generate_order_number env w = (Return s, w1)
    /\ OrderWorld.orders w1 = OrderWorld.orders w.
Proof.
  unfold OrderService._generate_order_number. unfold_m. simpl.
  eexists _, _. split; reflexivity.
Qed.

Lemma repository_create_order_spec env d w :
  exists i o w1,
    OrderRepository.create_order env d w = (Return o, w1)
    /\ Order.id o = Some i
    /\ OrderWorld.orders w1 = <[i := o]> (OrderWorld.orders w)
    /\ Order.items o = OrderData.items d
    /\ Order.subtotal o = Order.calculate_subtotal (OrderData.subtotal d) (OrderData.items d)
    /\ Order.tax_amount o = default 0%Q (OrderData.tax_amount d)
    /\ Order.shipping_cost o = default 0%Q (OrderData.shipping_cost d)
    /\ Order.discount_amount o = default 0%Q (OrderData.discount_amount d)
    /\ Order.total_amount o
       = Order.calculate_total_amount (OrderData.total_amount d) (Order.subtotal o)
           (Order.tax_amount o) (Order.shipping_cost o) (Order.discount_amount o)
    /\ Order.status o = default OrderStatus.PENDING (OrderData.status d)
    /\ Order.payment_status o = default PaymentStatus.PENDING (OrderData.payment_status d).
Proof.
  unfold OrderRepository.create_order, OrderDocument.new, OrderDocument.insert,
    OrderDocument.or_utcnow.
  destruct (OrderData.created_at d), (OrderData.updated_at d); unfold_m; simpl;
    eexists _, _, _; (split; [reflexivity|]); simpl; repeat split; reflexivity.
Qed.

Lemma filter_forallb {A} (f : A -> bool) (l : list A) :
  forallb f l = true -> List.filter f l = l.
Proof.
  induction l as [|a l IH]; simpl; [reflexivity|].
  intros H. apply andb_prop in H. destruct H as [Ha Hl].
  rewrite Ha. f_equal. now apply IH.
Qed.

Lemma forallb_combine_snd {A B} (f : B -> bool) (xs : list A) (ys : list B) :
  forallb f ys = true -> forallb (fun pr => f (snd pr)) (combine xs ys) = true.
Proof.
  revert ys. induction xs as [|x xs IH]; intros [|y ys]; simpl; try reflexivity.
  intros H. apply andb_prop in H. destruct H as [Hy Hys].
  rewrite Hy. simpl. now apply IH.
Qed.

Lemma Forall2_combine_inv {A B C} (P : A * B -> C -> Prop) (xs : list A) :
  forall (ys : list B) (zs : list C),
    length xs = length ys ->
    Forall2 P (combine xs ys) zs ->
    Forall2 (fun x z => exists y, In y ys /\ P (x, y) z) xs zs.
Proof.
  induction xs as [|x xs IH]; intros [|y ys] zs Hlen H; simpl in *; try discriminate.
  - inversion H; subst. constructor.
  - inversion H as [|? ? ? ? Hp Hrest]; subst. constructor.
    + exists y. split; [now left | assumption].
    + injection Hlen as Hlen. specialize (IH ys _ Hlen Hrest).
      eapply Forall2_impl; [exact IH|].
      intros a c (yy & Hin & Hp0). exists yy. split; [now right | assumption].
Qed.

Lemma Forall2_Forall_r {A B} (P : A -> B -> Prop) (Q : B -> Prop) xs ys :
  Forall2 P xs ys -> (forall x y, P x y -> Q y) -> Forall Q ys.
Proof.
  induction 1; intros HPQ; constructor; eauto.
Qed.

Lemma create_order_inv env order_data token w resp w' :
  OrderService.create_order env order_data token w = (Return resp, w') ->
  exists u w1 rr w2 new addr w3 num w4 o w5,
    UserServiceClient.verify_user_token env token w = (Return (Some (JObject u)), w1)
    /\ ProductServiceClient.reserve_products env
         (OrderService.requested_lines order_data) w1 = (Return rr, w2)
    /\ ReservationResult.success rr = true
    /\ OrderService.build_items
         (combine (OrderCreate.items order_data) (ReservationResult.reservations rr))
         [] 0%Q w2
       = (Return (new, sumQ (map OrderItem.total_price new)), w2)
    /\ OrderDocument.insert_address env (OrderCreate.shipping_address order_data) w2
       = (Return addr, w3)
    /\ OrderService._generate_order_number env w3 = (Return num, w4)
    /\ (let subtotal := sumQ (map OrderItem.total_price new) in
        let tax_amount := round2 (subtotal * (8 # 100)) in
        let shipping_cost := if Qltb subtotal 100 then 10%Q else 0%Q in
        OrderRepository.create_order env
          (OrderService.order_dict num (UserJson.id u) (UserJson.email u) new subtotal
             tax_amount shipping_cost (subtotal + tax_amount + shipping_cost)%Q
             addr order_data) w4
        = (Return o, w5))
    /\ KafkaProducer.publish_order_created_event env
         (OrderService.order_created_data o) w5 = (Return tt, w')
    /\ OrderService._convert_to_response o w' = (Return resp, w').
Proof.
  intros H.
  unfold OrderService.create_order, try_except in H.
  destruct (verify_user_token_total env token w) as (ui & w1 & E1 & F1 & _).
  rewrite (bind_Return _ _ _ _ _ E1) in H.
  destruct ui as [[u|[|]]|]; simpl in H; try discriminate.
  destruct (reserve_products_total env (OrderService.requested_lines order_data) w1)
    as (rr & w2 & E2 & F2 & Hall & Hs).
  rewrite (bind_Return _ _ _ _ _ E2) in H.
  destruct (ReservationResult.success rr) eqn:Esucc; simpl in H; [|discriminate].
  match type of H with
  | context [OrderService.build_items ?l ?a ?s] =>
      destruct (OrderService.build_items l a s w2) as [[[its sub]|e] w3] eqn:Eb
  end.
  2:{ rewrite (bind_Raise _ _ _ _ _ Eb) in H. now apply handler_Raise in H. }
  rewrite (bind_Return _ _ _ _ _ Eb) in H.
  pose proof (build_items_inv _ _ _ _ _ _ _ Eb) as (-> & new & -> & -> & _).
  simpl in H, Eb.
  destruct (insert_address_spec env (OrderCreate.shipping_address order_data) w2)
    as (addr & w3 & E3 & O3).
  rewrite (bind_Return _ _ _ _ _ E3) in H.
  destruct (generate_order_number_spec env w3) as (num & w4 & E4 & O4).
  rewrite (bind_Return _ _ _ _ _ E4) in H.
  match type of H with
  | context [OrderRepository.create_order env ?d] =>
      destruct (repository_create_order_spec env d w4) as (i & o & w5 & E5 & _)
  end.
  rewrite (bind_Return _ _ _ _ _ E5) in H.
  destruct (publish_order_created_event_total env (OrderService.order_created_data o) w5)
    as (w6 & E6 & _).
  rewrite (bind_Return _ _ _ _ _ E6) in H.
  unfold OrderService._convert_to_response, ret in H.
  injection H as <- <-.
  exists u, w1, rr, w2, new, addr, w3, num, w4, o, w5.
  repeat split; assumption || reflexivity.
Qed.

(** C1 (amended).  Every order that [create_order] returns is in order
    storage with one line per requested line, each line total being
    [round(unit_price * quantity, 2)].  Its tax and its shipping cost
    are computed from the running sum [S] of the line totals, the local
    variable [subtotal] of [create_order]: the tax is
    [round(S * 0.08, 2)], the shipping cost is [10] when [S] is below
    [100] and [0] otherwise.  Its subtotal is [round(S, 2)], computed
    again by the validator of [Order] (and [0] for an order without
    lines), and its total is [round(subtotal + tax + shipping, 2)].
    Whenever [S] is its own rounding the subtotal is [S], and tax and
    shipping cost follow from the subtotal as well.  The product service
    is assumed to serve no negative price (its schema has [price > 0]). *)
Theorem create_order_totals env order_data token w resp w' :
  (forall p, served env p -> (0 <= ProductJson.price p)%Q) ->
  OrderService.create_order env order_data token w = (Return resp, w') ->
  exists o S,
    OrderWorld.orders w' !! OrderResponse.id resp = Some o
    /\ Forall2 line_of (OrderCreate.items order_data) (Order.items o)
    /\ Forall (fun it => OrderItem.total_price it
                 = round2 (OrderItem.unit_price it * inject_Z (OrderItem.quantity it)))
         (Order.items o)
    /\ S = sumQ (map OrderItem.total_price (Order.items o))
    /\ (Order.items o <> [] -> Order.subtotal o = round2 S)
    /\ (Order.items o = [] -> Order.subtotal o = 0%Q)
    /\ Order.tax_amount o = round2 (S * (8 # 100))
    /\ Order.shipping_cost o = (if Qltb S 100 then 10%Q else 0%Q)
    /\ Order.total_amount o
       = round2 (Order.subtotal o + Order.tax_amount o + Order.shipping_cost o)
    /\ ((round2 S == S)%Q ->
        (Order.subtotal o == S)%Q
        /\ Order.tax_amount o = round2 (Order.subtotal o * (8 # 100))
        /\ Order.shipping_cost o
           = (if Qltb (Order.subtotal o) 100 then 10%Q else 0%Q))
    /\ OrderResponse.subtotal resp = Order.subtotal o
    /\ OrderResponse.tax_amount resp = Order.tax_amount o
    /\ OrderResponse.shipping_cost resp = Order.shipping_cost o
    /\ OrderResponse.total_amount resp = Order.total_amount o.
Proof.
  intros Hprice H.
  apply create_order_inv in H.
  destruct H as (u & w1 & rr & w2 & new & addr & w3 & num & w4 & o & w5
                 & E1 & E2 & Esucc & Eb & E3 & E4 & E5 & E6 & E7).
  destruct (reserve_products_total env (OrderService.requested_lines order_data) w1)
    as (rr' & w2' & E2' & _ & Hall & Hs).
  rewrite E2 in E2'. injection E2' as <- <-. rewrite Esucc in Hs.
  pose proof (build_items_inv _ _ _ _ _ _ _ Eb) as (_ & new' & Hnew & _ & Hlines).
  simpl in Hnew. subst new'.
  cbv zeta in E5.
  set (S := sumQ (map OrderItem.total_price new)) in *.
  match type of E5 with
  | OrderRepository.create_order env ?d w4 = _ =>
      destruct (repository_create_order_spec env d w4)
        as (i & o' & w5' & E5' & Hid & O5 & Hitems & Hsub & Htax & Hship & Hdisc & Htot & _)
  end.
  rewrite E5 in E5'. injection E5' as <- <-.
  destruct (publish_order_created_event_total env (OrderService.order_created_data o) w5)
    as (w6 & E6' & O6 & _).
  rewrite E6 in E6'. injection E6' as <-.
  unfold OrderService._convert_to_response, ret in E7. injection E7 as <-.
  simpl in Hitems, Hsub, Htax, Hship, Hdisc. simpl.
  (* every line of the request became a line of the order *)
  assert (Hlen : length (OrderCreate.items order_data)
                 = length (ReservationResult.reservations rr)).
  { apply Forall2_length in Hall. unfold OrderService.requested_lines in Hall.
    now rewrite length_map in Hall. }
  assert (Hres : Forall (fun r => Reservation.reserved r = true ->
                   exists p, Reservation.product r = Some p /\ served env p)
                   (ReservationResult.reservations rr)).
  { eapply Forall2_Forall_r; [exact Hall|].
    intros l r (_ & _ & Hr) Ht. now rewrite Ht in Hr. }
  rewrite filter_forallb in Hlines
    by (apply forallb_combine_snd; now symmetry).
  apply Forall2_combine_inv in Hlines; [|assumption].
  assert (Hok : Forall (fun it =>
                  OrderItem.total_price it
                  = round2 (OrderItem.unit_price it * inject_Z (OrderItem.quantity it))
                  /\ (0 <= OrderItem.total_price it)%Q) new).
  { eapply Forall2_Forall_r; [exact Hlines|].
    intros x it (r & Hin & _ & _ & Hq & Htotal & p & Hp & Hup & _).
    split; [assumption|]. rewrite Htotal. apply round2_nonneg.
    apply Qmult_le_0_compat.
    - rewrite Hup. apply Hprice.
      rewrite Forall_forall in Hres.
      destruct (Hres r) as (p' & Hp' & Hserved).
      + now apply list_elem_of_In.
      + symmetry in Hs. rewrite forallb_forall in Hs. now apply Hs.
      + simpl in Hp. congruence.
    - unfold Qle. simpl. lia. }
  assert (HS0 : (0 <= S)%Q).
  { apply fold_nonneg; [discriminate|].
    apply Forall_map. eapply Forall_impl; [exact Hok|]. now intros it [_ ?]. }
  assert (HSc : is_cents S).
  { apply fold_cents; [now exists 0%Z|].
    apply Forall_map. eapply Forall_impl; [exact Hok|].
    intros it [-> _]. apply round2_is_cents. }
  assert (Hsubeq : (Order.subtotal o == S)%Q).
  { rewrite Hsub. unfold Order.calculate_subtotal. destruct new as [|it new'].
    - reflexivity.
    - now apply round2_of_cents. }
  assert (Htax0 : (0 <= Order.tax_amount o)%Q).
  { rewrite Htax. apply round2_nonneg. apply Qmult_le_0_compat; [assumption|discriminate]. }
  assert (Hship0 : (0 <= Order.shipping_cost o)%Q).
  { rewrite Hship. destruct (Qltb S 100); discriminate. }
  exists o, S. rewrite Hid. simpl.
  split. { rewrite O6, O5. apply lookup_insert_eq. }
  split. { rewrite Hitems. eapply Forall2_impl; [exact Hlines|].
           intros x it (r & _ & H1 & H2 & _). split; assumption. }
  split. { rewrite Hitems. eapply Forall_impl; [exact Hok|]. now intros it [? _]. }
  split. { rewrite Hitems. reflexivity. }
  split.
  { rewrite Hitems, Hsub. intros Hne. unfold Order.calculate_subtotal.
    destruct new; [contradiction | reflexivity]. }
  split.
  { rewrite Hitems, Hsub. intros ->. reflexivity. }
  split; [exact Htax|]. split; [exact Hship|].
  split.
  { rewrite Htot. unfold Order.calculate_total_amount. apply round2_comp.
    rewrite Hdisc. rewrite Qmax_nonneg.
    - ring.
    - assert (0 <= Order.subtotal o)%Q by now rewrite Hsubeq.
      assert (E : (Order.subtotal o + Order.tax_amount o + Order.shipping_cost o - 0
                   == Order.subtotal o + Order.tax_amount o + Order.shipping_cost o)%Q)
        by ring.
      rewrite E.
      replace 0%Q with (0 + 0 + 0)%Q by reflexivity.
      repeat apply Qplus_le_compat; assumption. }
  split.
  { intros _. split; [exact Hsubeq|].
    split.
    - rewrite Htax. apply round2_comp. now rewrite Hsubeq.
    - rewrite Hship. now rewrite (Qltb_comp _ _ 100 Hsubeq). }
  repeat split; reflexivity.
Qed.

(** C1 as stated fails in binary floating point.  For three lines of
    one unit priced 16.75, 52.01 and 31.24 the running sum of
    [create_order] is [100 - 2 ** -46], below [100], so the shipping
    cost is [10.0]; the validator of [Order] stores the subtotal
    [round(sum, 2) = 100.0], which is not the sum of the line totals
    and is not below [100].  The stored order has subtotal [100.0],
    tax [8.0], shipping cost [10.0] and total [118.0]. *)
Lemma shipping_charged_at_subtotal_100 :
  FloatOrder.running_subtotal FloatFixture.three_lines
  = S754_finite false 7036874417766399 (-46)
  /\ FloatOrder.subtotal (FloatOrder.create_order_amounts FloatFixture.three_lines)
     = Binary64.of_Z 100
  /\ FloatOrder.tax_amount (FloatOrder.create_order_amounts FloatFixture.three_lines)
     = Binary64.of_Z 8
  /\ FloatOrder.shipping_cost (FloatOrder.create_order_amounts FloatFixture.three_lines)
     = Binary64.of_Z 10
  /\ FloatOrder.total_amount (FloatOrder.create_order_amounts FloatFixture.three_lines)
     = Binary64.of_Z 118
  /\ FloatOrder.subtotal (FloatOrder.create_order_amounts FloatFixture.three_lines)
     <> Binary64.sum (FloatOrder.line_totals FloatFixture.three_lines)
  /\ FloatOrder.shipping_cost (FloatOrder.create_order_amounts FloatFixture.three_lines)
     <> (if Binary64.ltb
              (FloatOrder.subtotal
                 (FloatOrder.create_order_amounts FloatFixture.three_lines))
              (Binary64.of_Z 100)
         then Binary64.of_Z 10 else Binary64.zero).
Proof.
  vm_compute. repeat split; discriminate.
Qed.

(** [x - 0.0] is [x]. *)
Lemma float_sub_zero (x : Binary64.t) : Binary64.sub x Binary64.zero = x.
Proof. destruct x as [[|]|[|]| |s m e]; reflexivity. Qed.

(** In binary floating point the stored amounts follow the running sum
    [S] of [create_order] in the same way: the subtotal of an order
    with lines is [round(S, 2)], the tax is [round(S * 0.08, 2)], the
    shipping cost is decided by [S < 100], and the total is
    [round(max(subtotal + tax + shipping, 0), 2)]. *)
Lemma float_amounts_follow_the_running_sum (lines : list (Binary64.t * Z)) :
  let a := FloatOrder.create_order_amounts lines in
  let S := FloatOrder.running_subtotal lines in
  (lines <> [] -> FloatOrder.subtotal a = Binary64.round2 S)
  /\ FloatOrder.tax_amount a = Binary64.round2 (Binary64.mul S (Binary64.decimal 8))
  /\ FloatOrder.shipping_cost a
     = (if Binary64.ltb S (Binary64.of_Z 100) then Binary64.of_Z 10 else Binary64.zero)
  /\ FloatOrder.total_amount a
     = Binary64.round2
         (Binary64.max0
            (Binary64.add
               (Binary64.add (FloatOrder.subtotal a) (FloatOrder.tax_amount a))
               (FloatOrder.shipping_cost a))).
Proof.
  intros a S. subst a S. unfold FloatOrder.create_order_amounts.
  cbn [FloatOrder.subtotal FloatOrder.tax_amount FloatOrder.shipping_cost
       FloatOrder.total_amount].
  split.
  { intros Hne. destruct lines as [|l lines]; [contradiction|]. reflexivity. }
  split; [reflexivity|]. split; [reflexivity|].
  unfold FloatOrder.calculate_total_amount. now rewrite float_sub_zero.
Qed.

(** The example of C1 in binary floating point: two units priced 30
    give the subtotal 60.0, the tax 4.8, the shipping cost 10.0 and
    the total 74.8. *)
Example float_amounts_of_two_widgets :
  FloatOrder.create_order_amounts [(Binary64.of_Z 30, 2%Z)]
  = {| FloatOrder.subtotal := Binary64.of_Z 60;
       FloatOrder.tax_amount := Binary64.decimal 480;
       FloatOrder.shipping_cost := Binary64.of_Z 10;
       FloatOrder.discount_amount := Binary64.zero;
       FloatOrder.total_amount := Binary64.decimal 7480 |}.
Proof. vm_compute. reflexivity. Qed.

Lemma repository_update_order_status_found env order_id status notes w o :
  OrderWorld.orders w !! order_id = Some o ->
  exists o' w' t,
    OrderRepository.update_order_status env order_id status notes w
    = (Return (Some o'), w')
    /\ wrote_order order_id o' w w'
    /\ Order.id o' = Some order_id
    /\ Order.status o' = status
    /\ Order.updated_at o' = OrderEnv.utcnow env (OrderWorld.tick w)
    /\ Order.notes o' = noted (Order.notes o) notes t
    /\ same_content o o'
    /\ (forall s, milestone s o' =
          if bool_decide (s = status)
          then match milestone s o with
               | Some t0 => Some t0
               | None =>
                   match s with
                   | OrderStatus.CONFIRMED | OrderStatus.SHIPPED | OrderStatus.DELIVERED =>
                       Some (OrderEnv.utcnow env (S (OrderWorld.tick w)))
                   | _ => None
                   end
               end
          else milestone s o).
Proof.
  intros Hget.
  unfold OrderRepository.update_order_status, OrderDocument.get, get_document,
    OrderRepository.stamp_milestone, OrderRepository.add_notes, OrderDocument.save,
    OrderDocument.insert, noted, opt_truthy.
  unfold_m. rewrite Hget. simpl.
  destruct status, (Order.confirmed_at o) eqn:Ec, (Order.shipped_at o) eqn:Es,
    (Order.delivered_at o) eqn:Ed; simpl;
  (destruct notes as [n|]; [destruct (str_truthy n)|]; simpl;
   [destruct (Order.notes o) as [old|]; [destruct (str_truthy old)|]; simpl|..]);
  eexists _, _, (OrderEnv.utcnow env _); (split; [reflexivity|]); simpl;
  (split; [repeat split|]); (split; [reflexivity|]); (split; [reflexivity|]);
  (split; [reflexivity|]); (split; [reflexivity|]); (split; [repeat split|]);
  intros s; destruct s; simpl; rewrite ?Ec, ?Es, ?Ed; reflexivity.
  Unshelve. all: exact 0%nat.
Qed.

Lemma repository_update_order_status_missing env order_id status notes w :
  OrderWorld.orders w !! order_id = None ->
  OrderRepository.update_order_status env order_id status notes w = (Return None, w).
Proof.
  intros Hget.
  unfold OrderRepository.update_order_status, OrderDocument.get, get_document.
  unfold_m. now rewrite Hget.
Qed.

(** C4.  Setting an order to confirmed, shipped or delivered stamps the
    matching timestamp only if it is not set yet, and setting the same
    status again keeps the timestamp the first update left. *)
Theorem milestone_stamped_once env order_id status notes notes2 w o :
  In status [OrderStatus.CONFIRMED; OrderStatus.SHIPPED; OrderStatus.DELIVERED] ->
  OrderWorld.orders w !! order_id = Some o ->
  exists o1 w1 o2 w2,
    OrderRepository.update_order_status env order_id status notes w
    = (Return (Some o1), w1)
    /\ OrderWorld.orders w1 !! order_id = Some o1
    /\ milestone status o1
       = match milestone status o with
         | Some t0 => Some t0
         | None => Some (OrderEnv.utcnow env (S (OrderWorld.tick w)))
         end
    /\ OrderRepository.update_order_status env order_id status notes2 w1
       = (Return (Some o2), w2)
    /\ OrderWorld.orders w2 !! order_id = Some o2
    /\ milestone status o2 = milestone status o1.
Proof.
  intros Hst Hget.
  destruct (repository_update_order_status_found env order_id status notes w o Hget)
    as (o1 & w1 & t1 & E1 & W1 & _ & _ & _ & _ & _ & M1).
  assert (G1 : OrderWorld.orders w1 !! order_id = Some o1).
  { destruct W1 as (-> & _). apply lookup_insert_eq. }
  destruct (repository_update_order_status_found env order_id status notes2 w1 o1 G1)
    as (o2 & w2 & t2 & E2 & W2 & _ & _ & _ & _ & _ & M2).
  exists o1, w1, o2, w2.
  split; [exact E1|]. split; [exact G1|].
  assert (S1 : milestone status o1
               = match milestone status o with
                 | Some t0 => Some t0
                 | None => Some (OrderEnv.utcnow env (S (OrderWorld.tick w)))
                 end).
  { rewrite (M1 status). rewrite bool_decide_eq_true_2 by reflexivity.
    destruct (milestone status o); [reflexivity|].
    simpl in Hst. destruct Hst as [<-|[<-|[<-|[]]]]; reflexivity. }
  split; [exact S1|]. split; [exact E2|].
  split. { destruct W2 as (-> & _). apply lookup_insert_eq. }
  rewrite (M2 status). rewrite bool_decide_eq_true_2 by reflexivity.
  rewrite S1. destruct (milestone status o); reflexivity.
Qed.

Lemma status_event_total env (su : OrderStatusUpdate.t) (order : Order.t) w :
  exists w',
    (let order_event_data := OrderService.base_event_data order in
     let status := OrderStatusUpdate.status su in
     if bool_decide (status = OrderStatus.CONFIRMED) then
       KafkaProducer.publish_order_confirmed_event env
         (dict_set order_event_data "confirmed_at"
            (OrderService.iso_or_none (Order.confirmed_at order)))
     else if bool_decide (status = OrderStatus.CANCELLED) then
       KafkaProducer.publish_order_cancelled_event env
         (dict_set order_event_data "cancellation_reason"
            (opt_str (OrderStatusUpdate.notes su)))
     else if bool_decide (status = OrderStatus.SHIPPED) then
       KafkaProducer.publish_order_shipped_event env
         (dict_update order_event_data
            [("shipped_at", OrderService.iso_or_none (Order.shipped_at order));
             ("tracking_number", opt_str (Order.tracking_number order));
             ("shipping_method", opt_str (Order.shipping_method order));
             ("shipping_address",
               VDict (ShippingAddress.to_dict (Order.shipping_address order)))])
     else if bool_decide (status = OrderStatus.DELIVERED) then
       KafkaProducer.publish_order_delivered_event env
         (dict_set order_event_data "delivered_at"
            (OrderService.iso_or_none (Order.delivered_at order)))
     else ret tt) w = (Return tt, w')
    /\ OrderWorld.orders w' = OrderWorld.orders w
    /\ OrderWorld.shipping_addresses w' = OrderWorld.shipping_addresses w.
Proof.
  cbv zeta.
  destruct (OrderStatusUpdate.status su);
    repeat (rewrite bool_decide_eq_true_2 by reflexivity
            || rewrite bool_decide_eq_false_2 by discriminate);
    try apply send_event_total.
  all: eexists; split; [reflexivity|]; split; reflexivity.
Qed.

(** C6.  [update_order_status] raises 404 when the order is absent;
    otherwise, whatever the current and the requested status, it stores
    the requested status, and appends a time-stamped line to the notes
    when non-empty notes are given (leaving the notes alone otherwise). *)
Theorem update_order_status_unconditional env order_id su w :
  (OrderWorld.orders w !! order_id = None ->
   OrderService.update_order_status env order_id su w
   = (Raise (HTTPException HTTP_404_NOT_FOUND "Order not found"), w))
  /\ (forall o, OrderWorld.orders w !! order_id = Some o ->
      exists resp w' o',
        OrderService.update_order_status env order_id su w = (Return resp, w')
        /\ OrderWorld.orders w' !! order_id = Some o'
        /\ Order.status o' = OrderStatusUpdate.status su
        /\ OrderResponse.status resp = OrderStatusUpdate.status su
        /\ same_content o o'
        /\ (opt_truthy (OrderStatusUpdate.notes su) = false ->
            Order.notes o' = Order.notes o)
        /\ (forall n, OrderStatusUpdate.notes su = Some n -> n <> "" ->
            exists t,
              Order.notes o'
              = if opt_truthy (Order.notes o)
                then Some (default "" (Order.notes o) +:+ newline
                           +:+ isoformat t +:+ ": " +:+ n)
                else Some (isoformat t +:+ ": " +:+ n))).
Proof.
  split.
  - intros Hget. unfold OrderService.update_order_status.
    rewrite (bind_Return _ _ _ _ _
               (repository_update_order_status_missing env order_id _ _ w Hget)).
    reflexivity.
  - intros o Hget.
    destruct (repository_update_order_status_found env order_id
                (OrderStatusUpdate.status su) (OrderStatusUpdate.notes su) w o Hget)
      as (o' & w1 & t & E & W & Hid & Hst & _ & Hn & Hc & _).
    destruct (status_event_total env su o' w1) as (w2 & E2 & O2 & _).
    unfold OrderService.update_order_status.
    rewrite (bind_Return _ _ _ _ _ E).
    cbv zeta in E2. rewrite (bind_Return _ _ _ _ _ E2).
    unfold OrderService._convert_to_response, ret.
    eexists _, w2, o'. split; [reflexivity|]. simpl.
    split. { rewrite O2. destruct W as (-> & _). apply lookup_insert_eq. }
    split; [exact Hst|]. split; [exact Hst|]. split; [exact Hc|].
    split.
    + intros Hf. rewrite Hn. unfold noted. now rewrite Hf.
    + intros n Hsome Hne. exists t. rewrite Hn. unfold noted. rewrite Hsome. simpl.
      assert (str_truthy n = true) as ->.
      { unfold str_truthy. apply negb_true_iff, String.eqb_neq. exact Hne. }
      reflexivity.
Qed.

Lemma repository_get_order_by_id_spec order_id w :
  OrderRepository.get_order_by_id order_id w
  = (Return (Order.set_id (Some order_id) <$> OrderWorld.orders w !! order_id), w).
Proof. reflexivity. Qed.

Lemma publish_order_cancelled_event_total env order_data w :
  exists w', KafkaProducer.publish_order_cancelled_event env order_data w = (Return tt, w')
    /\ OrderWorld.orders w' = OrderWorld.orders w
    /\ OrderWorld.shipping_addresses w' = OrderWorld.shipping_addresses w.
Proof. unfold KafkaProducer.publish_order_cancelled_event. apply send_event_total. Qed.

(** C3.  [cancel_order] checks, in this order: the token (401 when it
    does not resolve), the order (404 when absent), the owner (403 when
    another user), the status (400 when shipped, delivered, cancelled or
    refunded); from pending, confirmed or processing it succeeds, stores
    the order as cancelled and appends the note "Cancelled by customer". *)
Theorem cancel_order_cases env order_id token w ui w1 :
  UserServiceClient.verify_user_token env token w = (Return ui, w1) ->
  (answer_truthy ui = false ->
   OrderService.cancel_order env order_id token w
   = (Raise (HTTPException HTTP_401_UNAUTHORIZED "Invalid or expired token"), w1))
  /\ (answer_truthy ui = true -> OrderWorld.orders w !! order_id = None ->
      OrderService.cancel_order env order_id token w
      = (Raise (HTTPException HTTP_404_NOT_FOUND "Order not found"), w1))
  /\ (forall u o,
        ui = Some (JObject u) -> OrderWorld.orders w !! order_id = Some o ->
        (Order.user_id o <> UserJson.id u ->
         OrderService.cancel_order env order_id token w
         = (Raise (HTTPException HTTP_403_FORBIDDEN "Access denied"), w1))
        /\ (Order.user_id o = UserJson.id u ->
            In (Order.status o)
              [OrderStatus.SHIPPED; OrderStatus.DELIVERED;
               OrderStatus.CANCELLED; OrderStatus.REFUNDED] ->
            exists detail,
              OrderService.cancel_order env order_id token w
              = (Raise (HTTPException HTTP_400_BAD_REQUEST detail), w1))
        /\ (Order.user_id o = UserJson.id u ->
            In (Order.status o)
              [OrderStatus.PENDING; OrderStatus.CONFIRMED; OrderStatus.PROCESSING] ->
            exists resp w' o' t,
              OrderService.cancel_order env order_id token w = (Return resp, w')
              /\ OrderWorld.orders w' !! order_id = Some o'
              /\ Order.status o' = OrderStatus.CANCELLED
              /\ OrderResponse.status resp = OrderStatus.CANCELLED
              /\ Order.notes o'
                 = (if opt_truthy (Order.notes o)
                    then Some (default "" (Order.notes o) +:+ newline
                               +:+ isoformat t +:+ ": Cancelled by customer")
                    else Some (isoformat t +:+ ": Cancelled by customer"))
              /\ same_content o o')).
Proof.
  intros E.
  destruct (verify_user_token_total env token w) as (ui' & w1' & E' & F & _).
  rewrite E in E'. injection E' as <- <-.
  destruct F as (Ho & _).
  unfold OrderService.cancel_order. rewrite (bind_Return _ _ _ _ _ E).
  split; [intros ->; reflexivity|].
  split.
  { intros -> Hnone. simpl.
    rewrite (bind_Return _ _ _ _ _ (repository_get_order_by_id_spec order_id w1)).
    rewrite Ho, Hnone. reflexivity. }
  intros u o -> Hget. simpl.
  rewrite (bind_Return _ _ _ _ _ (repository_get_order_by_id_spec order_id w1)).
  rewrite Ho, Hget. simpl.
  split.
  { intros Hne. apply String.eqb_neq in Hne. now rewrite Hne. }
  split.
  { intros Heq Hst. apply String.eqb_eq in Heq. rewrite Heq. simpl.
    unfold Order.is_cancellable. simpl.
    destruct Hst as [<-|[<-|[<-|[<-|[]]]]]; simpl; eexists; reflexivity. }
  intros Heq Hst. apply String.eqb_eq in Heq. rewrite Heq. simpl.
  assert (Hc : Order.is_cancellable (Order.set_id (Some order_id) o) = true).
  { unfold Order.is_cancellable. simpl. destruct Hst as [<-|[<-|[<-|[]]]]; reflexivity. }
  rewrite Hc. simpl.
  assert (Hget1 : OrderWorld.orders w1 !! order_id = Some o) by now rewrite Ho.
  destruct (repository_update_order_status_found env order_id OrderStatus.CANCELLED
              (Some "Cancelled by customer") w1 o Hget1)
    as (o' & w2 & t & E2 & W & _ & Hst' & _ & Hn & Hcont & _).
  rewrite (bind_Return _ _ _ _ _ E2).
  match goal with
  | |- context [KafkaProducer.publish_order_cancelled_event env ?d] =>
      destruct (publish_order_cancelled_event_total env d w2) as (w3 & E3 & O3 & _)
  end.
  rewrite (bind_Return _ _ _ _ _ E3).
  unfold OrderService._convert_to_response, ret.
  eexists _, w3, o', t. split; [reflexivity|]. simpl.
  split. { rewrite O3. destruct W as (-> & _). apply lookup_insert_eq. }
  split; [exact Hst'|]. split; [exact Hst'|].
  split; [exact Hn|exact Hcont].
Qed.

Lemma reserve_loop_other_broker f env items : forall acc k w,
  ProductServiceClient.reserve_loop (OrderEnv.with_send_and_wait f env) items acc k w
  = ProductServiceClient.reserve_loop env items acc k w.
Proof.
  induction items as [|[pid qty] rest IH]; intros acc k w; [reflexivity|].
  simpl.
  change (ProductServiceClient.check_product_availability
            (OrderEnv.with_send_and_wait f env) pid qty)
    with (ProductServiceClient.check_product_availability env pid qty).
  unfold bind.
  destruct (ProductServiceClient.check_product_availability env pid qty w) as [[a|e] w1];
    [|reflexivity].
  destruct (Availability.available a).
  - destruct (Availability.product a); [apply IH | reflexivity].
  - destruct (Availability.reason a); [apply IH | reflexivity].
Qed.

Lemma reserve_products_other_broker f env items w :
  ProductServiceClient.reserve_products (OrderEnv.with_send_and_wait f env) items w
  = ProductServiceClient.reserve_products env items w.
Proof.
  unfold ProductServiceClient.reserve_products, bind.
  now rewrite reserve_loop_other_broker.
Qed.

(** C9.  [send_event] never raises and never touches the stores: with
    the transport disabled or no producer it only logs at debug level;
    when the send fails nothing is recorded as delivered and an error is
    logged.  And an order creation that succeeds with one broker succeeds
    with any other, a failing one included, with the same response and
    the same stored orders. *)
Theorem event_emission_never_raises :
  (forall env topic event_data key w,
     exists w',
       KafkaProducer.send_event env topic event_data key w = (Return tt, w')
       /\ OrderWorld.orders w' = OrderWorld.orders w
       /\ OrderWorld.shipping_addresses w' = OrderWorld.shipping_addresses w
       /\ (OrderWorld.kafka_enabled w = false \/ OrderWorld.producer w = false ->
           w' = OrderWorld.add_log
                  {| levelname := DEBUG;
                     msg := "Kafka disabled or producer not available, skipping event: {topic}";
                     args := [VStr topic] |} w)
       /\ (forall e,
             OrderWorld.kafka_enabled w = true -> OrderWorld.producer w = true ->
             OrderEnv.send_and_wait env (OrderWorld.tick w) topic
               (KafkaProducer.enrich topic event_data) key = Some e ->
             OrderWorld.delivered w' = OrderWorld.delivered w
             /\ exists r, OrderWorld.log w' = (OrderWorld.log w ++ [r])%list
                          /\ levelname r = ERROR))
  /\ (forall env order_data token w resp w' broker,
        OrderService.create_order env order_data token w = (Return resp, w') ->
        exists w'',
          OrderService.create_order (OrderEnv.with_send_and_wait broker env)
            order_data token w = (Return resp, w'')
          /\ OrderWorld.orders w'' = OrderWorld.orders w'
          /\ OrderWorld.shipping_addresses w'' = OrderWorld.shipping_addresses w').
Proof.
  split.
  - intros env topic event_data key w.
    unfold KafkaProducer.send_event. unfold_m.
    destruct (OrderWorld.kafka_enabled w) eqn:Ek, (OrderWorld.producer w) eqn:Ep; simpl.
    2-4: (eexists; split; [reflexivity|]; split; [reflexivity|]; split; [reflexivity|];
          split; [reflexivity|]; intros; discriminate).
    destruct (OrderEnv.send_and_wait env (OrderWorld.tick w) topic
                (KafkaProducer.enrich topic event_data) key) as [e|] eqn:Es; simpl.
    + destruct e; eexists; (split; [reflexivity|]); (split; [reflexivity|]);
        (split; [reflexivity|]); (split; [intros [|]; discriminate|]);
        intros e' _ _ _; simpl; (split; [reflexivity|]); eexists; split; reflexivity.
    + eexists; (split; [reflexivity|]); (split; [reflexivity|]);
        (split; [reflexivity|]); (split; [intros [|]; discriminate|]).
      intros; discriminate.
  - intros env order_data token w resp w' broker H.
    apply create_order_inv in H.
    destruct H as (u & w1 & rr & w2 & new & addr & w3 & num & w4 & o & w5
                   & E1 & E2 & Esucc & Eb & E3 & E4 & E5 & E6 & E7).
    set (env' := OrderEnv.with_send_and_wait broker env).
    destruct (publish_order_created_event_total env (OrderService.order_created_data o) w5)
      as (v & E6a & O6 & A6).
    rewrite E6 in E6a. injection E6a as <-.
    destruct (publish_order_created_event_total env' (OrderService.order_created_data o) w5)
      as (w'' & E6' & O6' & A6').
    exists w''.
    unfold OrderService._convert_to_response, ret in E7. injection E7 as <-.
    split; [|split; congruence].
    unfold OrderService.create_order, try_except.
    change (UserServiceClient.verify_user_token env' token)
      with (UserServiceClient.verify_user_token env token).
    rewrite (bind_Return _ _ _ _ _ E1). simpl.
    rewrite <- (reserve_products_other_broker broker) in E2. fold env' in E2.
    rewrite (bind_Return _ _ _ _ _ E2). rewrite Esucc. simpl.
    rewrite (bind_Return _ _ _ _ _ Eb). simpl.
    change (OrderDocument.insert_address env') with (OrderDocument.insert_address env).
    rewrite (bind_Return _ _ _ _ _ E3).
    change (OrderService._generate_order_number env')
      with (OrderService._generate_order_number env).
    rewrite (bind_Return _ _ _ _ _ E4).
    change (OrderRepository.create_order env') with (OrderRepository.create_order env).
    cbv zeta in E5. rewrite (bind_Return _ _ _ _ _ E5).
    rewrite (bind_Return _ _ _ _ _ E6').
    reflexivity.
Qed.

Lemma documents_In {D} (set_id : option string -> D -> D) (m : gmap string D) d' :
  In d' (documents set_id m) <->
  exists k d, m !! k = Some d /\ d' = set_id (Some k) d.
Proof.
  unfold documents. rewrite in_map_iff. split.
  - intros ([k d] & <- & Hin). exists k, d. split; [|reflexivity].
    apply elem_of_map_to_list. now apply list_elem_of_In.
  - intros (k & d & Hm & ->). exists (k, d). split; [reflexivity|].
    apply list_elem_of_In. now apply elem_of_map_to_list.
Qed.

Lemma head_filter_Some {A} (f : A -> bool) (l : list A) a :
  In a l -> f a = true -> is_Some (head (List.filter f l)).
Proof.
  intros Hin Hf.
  assert (H : In a (List.filter f l)) by (apply filter_In; split; assumption).
  destruct (List.filter f l); [destruct H | eexists; reflexivity].
Qed.

Lemma find_one_found {D} (set_id : option string -> D -> D) cond (m : gmap string D) k d :
  m !! k = Some d -> cond (set_id (Some k) d) = true ->
  is_Some (find_one set_id cond m).
Proof.
  intros Hm Hc. unfold find_one. eapply head_filter_Some; [|exact Hc].
  apply documents_In. eauto.
Qed.

Lemma find_one_sound {D} (set_id : option string -> D -> D) cond (m : gmap string D) d' :
  find_one set_id cond m = Some d' ->
  cond d' = true /\ exists k d, m !! k = Some d /\ d' = set_id (Some k) d.
Proof.
  unfold find_one. intros H.
  assert (Hin : In d' (List.filter cond (documents set_id m))).
  { destruct (List.filter cond (documents set_id m)); [discriminate|].
    injection H as ->. now left. }
  apply filter_In in Hin. destruct Hin as [Hin Hc].
  split; [assumption|]. now apply documents_In.
Qed.

(** C7, as amended.  Registering an email that is already registered,
    creating a product whose non-empty SKU already exists, and creating a
    category whose name already exists each fail with
    [HTTPException 400] (BadRequest, not Conflict), and write nothing. *)
Theorem duplicate_unique_field_is_bad_request :
  (forall env user_data w k u,
     UserWorld.users w !! k = Some u ->
     User.email u = UserCreate.email user_data ->
     UserService.register_user env user_data w
     = (Raise (HTTPException HTTP_400_BAD_REQUEST "User with this email already exists"), w))
  /\ (forall env product_data w k p sku,
        ProductWorld.products w !! k = Some p ->
        Product.sku p = Some sku -> sku <> "" ->
        ProductCreate.sku product_data = Some sku ->
        ProductService.create_product env product_data w
        = (Raise (HTTPException HTTP_400_BAD_REQUEST
                    "Product with this SKU already exists"), w))
  /\ (forall env category_data w k c,
        ProductWorld.categories w !! k = Some c ->
        Category.name c = CategoryCreate.name category_data ->
        CategoryService.create_category env category_data w
        = (Raise (HTTPException HTTP_400_BAD_REQUEST
                    "Category with this name already exists"), w)).
Proof.
  split; [|split].
  - intros env user_data w k u Hk He.
    unfold UserService.register_user, UserRepository.user_exists. unfold_m.
    destruct (find_one_found User.set_id
                (fun u0 => String.eqb (User.email u0) (UserCreate.email user_data))
                (UserWorld.users w) k u Hk) as [u' ->].
    { simpl. apply String.eqb_eq. exact He. }
    reflexivity.
  - intros env product_data w k p sku Hk Hs Hne Hd.
    unfold ProductService.create_product, ProductRepository.get_product_by_sku.
    rewrite Hd. unfold_m.
    assert (str_truthy sku = true) as ->.
    { unfold str_truthy. apply negb_true_iff, String.eqb_neq. exact Hne. }
    destruct (find_one_found Product.set_id
                (fun p0 => bool_decide (Product.sku p0 = Some sku))
                (ProductWorld.products w) k p Hk) as [p' ->].
    { simpl. apply bool_decide_eq_true_2. exact Hs. }
    reflexivity.
  - intros env category_data w k c Hk Hn.
    unfold CategoryService.create_category, CategoryRepository.get_category_by_name.
    unfold_m.
    destruct (find_one_found Category.set_id
                (fun c0 => String.eqb (Category.name c0) (CategoryCreate.name category_data))
                (ProductWorld.categories w) k c Hk) as [c' ->].
    { simpl. apply String.eqb_eq. exact Hn. }
    reflexivity.
Qed.

(** C8.  A stock change that would make the quantity negative is
    rejected: the repository returns no product, the service raises
    400, and the state is unchanged.  Hence [update_stock] keeps every
    stored stock quantity non-negative. *)
Theorem update_stock_rejects_negative env product_id quantity_change w :
  (forall p,
     ProductWorld.products w !! product_id = Some p ->
     (Product.stock_quantity p + quantity_change < 0)%Z ->
     ProductRepository.update_stock env product_id quantity_change w = (Return None, w)
     /\ ProductService.update_stock env product_id quantity_change w
        = (Raise (HTTPException HTTP_400_BAD_REQUEST
                    "Product not found or insufficient stock"), w))
  /\ ((forall k p, ProductWorld.products w !! k = Some p ->
                   (0 <= Product.stock_quantity p)%Z) ->
      forall k p,
        ProductWorld.products
          (snd (ProductRepository.update_stock env product_id quantity_change w)) !! k
        = Some p ->
        (0 <= Product.stock_quantity p)%Z).
Proof.
  split.
  - intros p Hget Hneg.
    assert (E : ProductRepository.update_stock env product_id quantity_change w
                = (Return None, w)).
    { unfold ProductRepository.update_stock, get_document. unfold_m.
      rewrite Hget. simpl.
      assert ((Product.stock_quantity p + quantity_change <? 0)%Z = true) as ->
        by now apply Z.ltb_lt.
      reflexivity. }
    split; [exact E|].
    unfold ProductService.update_stock. now rewrite (bind_Return _ _ _ _ _ E).
  - intros Hinv k p.
    unfold ProductRepository.update_stock, get_document, ProductRepository.save,
      ProductWorld.ask. unfold_m.
    destruct (ProductWorld.products w !! product_id) as [p0|] eqn:Hget; simpl;
      [|apply Hinv].
    destruct (Product.stock_quantity p0 + quantity_change <? 0)%Z eqn:Hlt; simpl;
      [apply Hinv|].
    rewrite lookup_insert. case_decide as Hk.
    + intros [= <-]. simpl. now apply Z.ltb_ge.
    + apply Hinv.
Qed.

(** C10.  After a successful stock update the stored product is
    available exactly when its new stock is positive; a product whose
    stock reaches zero is marked unavailable. *)
Theorem update_stock_sets_availability env product_id quantity_change w p' w' :
  ProductRepository.update_stock env product_id quantity_change w
  = (Return (Some p'), w') ->
  Product.is_available p' = (0 <? Product.stock_quantity p')%Z
  /\ ProductWorld.products w' !! product_id = Some p'
  /\ (exists p, ProductWorld.products w !! product_id = Some p
                /\ Product.stock_quantity p'
                   = (Product.stock_quantity p + quantity_change)%Z)
  /\ (Product.stock_quantity p' = 0%Z -> Product.is_available p' = false).
Proof.
  unfold ProductRepository.update_stock, get_document, ProductRepository.save,
    ProductWorld.ask. unfold_m.
  destruct (ProductWorld.products w !! product_id) as [p0|] eqn:Hget; simpl;
    [|discriminate].
  destruct (Product.stock_quantity p0 + quantity_change <? 0)%Z eqn:Hlt; simpl;
    [discriminate|].
  intros [= <- <-]. simpl.
  split; [reflexivity|]. split; [apply lookup_insert_eq|].
  split; [exists p0; split; reflexivity|].
  intros ->. reflexivity.
Qed.

(** C5.  Whatever amounts are supplied to the [Order] constructor, the
    order it builds has the supplied tax, shipping cost and discount, a
    subtotal recomputed from its lines when it has any, and
    [total_amount = round(max(subtotal + tax + shipping - discount, 0), 2)]
    over its own fields; so the total is never negative, and it does not
    depend on the [total_amount] that was supplied. *)
Theorem order_total_is_derived env d w :
  exists o w',
    OrderDocument.new env d w = (Return o, w')
    /\ Order.tax_amount o = default 0%Q (OrderData.tax_amount d)
    /\ Order.shipping_cost o = default 0%Q (OrderData.shipping_cost d)
    /\ Order.discount_amount o = default 0%Q (OrderData.discount_amount d)
    /\ (OrderData.items d = [] -> (Order.subtotal o == OrderData.subtotal d)%Q)
    /\ (OrderData.items d <> [] ->
        Order.subtotal o = round2 (sumQ (map OrderItem.total_price (OrderData.items d))))
    /\ Order.total_amount o
       = round2 (Qmax (Order.subtotal o + Order.tax_amount o + Order.shipping_cost o
                       - Order.discount_amount o) 0)
    /\ (0 <= Order.total_amount o)%Q
    /\ (forall v,
          OrderDocument.new env (OrderData.set_total_amount v d) w = (Return o, w')).
Proof.
  unfold OrderDocument.new, OrderDocument.or_utcnow.
  destruct (OrderData.created_at d) eqn:Ec, (OrderData.updated_at d) eqn:Eu;
    unfold_m; simpl; rewrite ?Ec, ?Eu; simpl;
    eexists _, _; (split; [reflexivity|]); simpl;
    (split; [reflexivity|]); (split; [reflexivity|]); (split; [reflexivity|]);
    (split; [intros ->; simpl; destruct (Qeq_bool (OrderData.subtotal d) 0) eqn:Ez;
             [symmetry; now apply Qeq_bool_eq | reflexivity]|]);
    (split; [intros Hne; destruct (OrderData.items d); [now destruct Hne|reflexivity]|]);
    (split; [reflexivity|]);
    (split; [apply round2_nonneg, Q.le_max_r|]);
    intros v; reflexivity.
Qed.

(** C7 as stated fails: with Alice registered, registering her address
    again is refused with status 400, not with 409 (Conflict). *)
Lemma duplicate_email_is_not_conflict :
  (exists u, UserWorld.users Fixture.user_world !! "u1" = Some u
             /\ User.email u = UserCreate.email Fixture.second_alice)
  /\ UserService.register_user Fixture.user_env Fixture.second_alice Fixture.user_world
     = (Raise (HTTPException HTTP_400_BAD_REQUEST "User with this email already exists"),
        Fixture.user_world)
  /\ ~ (exists detail w',
          UserService.register_user Fixture.user_env Fixture.second_alice
            Fixture.user_world
          = (Raise (HTTPException HTTP_409_CONFLICT detail), w')).
Proof.
  assert (E : UserService.register_user Fixture.user_env Fixture.second_alice
                Fixture.user_world
              = (Raise (HTTPException HTTP_400_BAD_REQUEST
                          "User with this email already exists"),
                 Fixture.user_world)) by (vm_compute; reflexivity).
  split; [exists Fixture.stored_alice; split; reflexivity|].
  split; [exact E|].
  intros (detail & w' & H). rewrite E in H. discriminate.
Qed.

(** ** The statements at concrete inputs *)

Lemma create_order_totals_witness :
  (forall p, served Fixture.env p -> (0 <= ProductJson.price p)%Q)
  /\ exists resp w' o,
       OrderService.create_order Fixture.env Fixture.order_data "alice-token" Fixture.world
       = (Return resp, w')
       /\ OrderWorld.orders w' !! OrderResponse.id resp = Some o
       /\ (Order.subtotal o == 60)%Q
       /\ (Order.tax_amount o == 48 # 10)%Q
       /\ (Order.shipping_cost o == 10)%Q
       /\ (Order.total_amount o == 748 # 10)%Q.
Proof.
  assert (Hprice : forall p, served Fixture.env p -> (0 <= ProductJson.price p)%Q).
  { intros p (n & pid & H). simpl in H.
    destruct (String.eqb pid "A"); [|discriminate].
    injection H as <-. discriminate. }
  split; [exact Hprice|].
  destruct (OrderService.create_order Fixture.env Fixture.order_data "alice-token"
              Fixture.world) as [[resp|e] w'] eqn:E.
  2:{ vm_compute in E. discriminate. }
  exists resp, w'.
  destruct (create_order_totals _ _ _ _ _ _ Hprice E)
    as (o & S & Hget & _ & _ & _ & _ & _ & Htax & Hship & Htot & _).
  exists o. split; [reflexivity|]. split; [exact Hget|].
  vm_compute in E. injection E as <- <-.
  vm_compute in Hget. injection Hget as <-.
  repeat split; vm_compute; reflexivity.
Defined.

Lemma create_order_reservation_failure_witness :
  exists w2,
    OrderService.create_order Fixture.env Fixture.bad_order_data "alice-token"
      Fixture.world
    = (Raise (HTTPException HTTP_400_BAD_REQUEST
                "Product reservation failed: Product B: Product not found; Product A: Insufficient stock"),
       w2)
    /\ OrderWorld.orders w2 = OrderWorld.orders Fixture.world.
Proof.
  destruct (UserServiceClient.verify_user_token Fixture.env "alice-token" Fixture.world)
    as [r1 w1] eqn:E1.
  assert (Hr1 : r1 = Return (Some (JObject Fixture.alice))).
  { vm_compute in E1. now injection E1 as <- _. }
  subst r1.
  destruct (ProductServiceClient.reserve_products Fixture.env
              (OrderService.requested_lines Fixture.bad_order_data) w1)
    as [r2 w2] eqn:E2.
  destruct r2 as [rr|e].
  2:{ destruct (reserve_products_total Fixture.env
                  (OrderService.requested_lines Fixture.bad_order_data) w1)
        as (rr & w2' & E & _). rewrite E in E2. discriminate. }
  assert (Hrs : map Reservation.reserved (ReservationResult.reservations rr)
                = [true; false; false]
                /\ map OrderService.error_detail
                     (List.filter (fun r => negb (Reservation.reserved r))
                        (ReservationResult.reservations rr))
                   = ["Product B: Product not found"; "Product A: Insufficient stock"]).
  { vm_compute in E1. injection E1 as <-.
    vm_compute in E2. injection E2 as <- _. split; reflexivity. }
  destruct Hrs as [Hres Hdet].
  assert (Hex : Exists (fun r => Reservation.reserved r = false)
                  (ReservationResult.reservations rr)).
  { destruct (ReservationResult.reservations rr) as [|a [|b l]]; try discriminate.
    apply Exists_cons_tl, Exists_cons_hd. now injection Hres. }
  destruct (create_order_reservation_failure _ _ _ _ _ _ _ _ E1 E2 Hex) as (H & Ho & _).
  exists w2. split; [|exact Ho].
  rewrite H, Hdet. reflexivity.
Defined.

Lemma cancel_order_cases_witness :
  exists resp w' o',
    OrderService.cancel_order Fixture.env "oid0007" "alice-token" Fixture.world_with_order
    = (Return resp, w')
    /\ OrderWorld.orders w' !! "oid0007" = Some o'
    /\ Order.status o' = OrderStatus.CANCELLED
    /\ Order.notes o' = Some "2024-01-15T09:30:00: Cancelled by customer".
Proof.
  destruct (UserServiceClient.verify_user_token Fixture.env "alice-token"
              Fixture.world_with_order) as [r1 w1] eqn:E1.
  assert (Hr1 : r1 = Return (Some (JObject Fixture.alice))).
  { vm_compute in E1. now injection E1 as <- _. }
  subst r1.
  destruct (OrderWorld.orders Fixture.world_with_order !! "oid0007") as [o|] eqn:Hget.
  2:{ vm_compute in Hget. discriminate. }
  assert (Ho : Order.user_id o = "u1" /\ Order.status o = OrderStatus.PENDING
               /\ Order.notes o = None).
  { vm_compute in Hget. injection Hget as <-. repeat split. }
  destruct Ho as (Hu & Hs & Hn).
  destruct (cancel_order_cases Fixture.env "oid0007" "alice-token"
              Fixture.world_with_order _ _ E1) as (_ & _ & H).
  destruct (H Fixture.alice o eq_refl Hget) as (_ & _ & H5).
  destruct (H5 Hu) as (resp & w' & o' & t & E & Hget' & Hst & _ & Hnotes & _).
  { rewrite Hs. now left. }
  exists resp, w', o'. split; [exact E|]. split; [exact Hget'|]. split; [exact Hst|].
  rewrite Hn in Hnotes. simpl in Hnotes.
  unfold OrderService.cancel_order in E.
  rewrite (bind_Return _ _ _ _ _ E1) in E.
  vm_compute in E1. injection E1 as <-.
  vm_compute in E. injection E as _ <-.
  vm_compute in Hget'. injection Hget' as <-. reflexivity.
Defined.

Lemma milestone_stamped_once_witness :
  exists o1 w1 o2 w2,
    OrderRepository.update_order_status Fixture.env "oid0007" OrderStatus.CONFIRMED None
      Fixture.world_with_order = (Return (Some o1), w1)
    /\ OrderRepository.update_order_status Fixture.env "oid0007" OrderStatus.CONFIRMED
         (Some "again") w1 = (Return (Some o2), w2)
    /\ Order.confirmed_at o1 = Some Fixture.now
    /\ Order.confirmed_at o2 = Order.confirmed_at o1.
Proof.
  destruct (OrderWorld.orders Fixture.world_with_order !! "oid0007") as [o|] eqn:Hget.
  2:{ vm_compute in Hget. discriminate. }
  assert (Hc : Order.confirmed_at o = None).
  { vm_compute in Hget. now injection Hget as <-. }
  destruct (milestone_stamped_once Fixture.env "oid0007" OrderStatus.CONFIRMED None
              (Some "again") Fixture.world_with_order o)
    as (o1 & w1 & o2 & w2 & E1 & _ & M1 & E2 & _ & M2).
  { now left. }
  { exact Hget. }
  exists o1, w1, o2, w2. split; [exact E1|]. split; [exact E2|].
  simpl in M1, M2. rewrite Hc in M1. split; [exact M1 | exact M2].
Defined.

Lemma update_order_status_unconditional_witness :
  OrderService.update_order_status Fixture.env "missing"
    {| OrderStatusUpdate.status := OrderStatus.SHIPPED; OrderStatusUpdate.notes := None |}
    Fixture.world_with_order
  = (Raise (HTTPException HTTP_404_NOT_FOUND "Order not found"), Fixture.world_with_order)
  /\ exists resp w' o',
       OrderService.update_order_status Fixture.env "oid0007"
         {| OrderStatusUpdate.status := OrderStatus.DELIVERED;
            OrderStatusUpdate.notes := Some "left at the door" |}
         Fixture.world_with_order = (Return resp, w')
       /\ OrderWorld.orders w' !! "oid0007" = Some o'
       /\ Order.status o' = OrderStatus.DELIVERED.
Proof.
  split.
  - apply update_order_status_unconditional. vm_compute. reflexivity.
  - destruct (OrderWorld.orders Fixture.world_with_order !! "oid0007") as [o|] eqn:Hget.
    2:{ vm_compute in Hget. discriminate. }
    destruct (proj2 (update_order_status_unconditional Fixture.env "oid0007"
                {| OrderStatusUpdate.status := OrderStatus.DELIVERED;
                   OrderStatusUpdate.notes := Some "left at the door" |}
                Fixture.world_with_order) o Hget)
      as (resp & w' & o' & E & Hget' & Hst & _).
    exists resp, w', o'. repeat split; assumption.
Defined.

Lemma duplicate_unique_field_is_bad_request_witness :
  UserService.register_user Fixture.user_env Fixture.second_alice Fixture.user_world
  = (Raise (HTTPException HTTP_400_BAD_REQUEST "User with this email already exists"),
     Fixture.user_world)
  /\ ProductService.create_product Fixture.product_env Fixture.another_widget
       Fixture.product_world
     = (Raise (HTTPException HTTP_400_BAD_REQUEST "Product with this SKU already exists"),
        Fixture.product_world)
  /\ CategoryService.create_category Fixture.product_env
       {| CategoryCreate.name := "Tools"; CategoryCreate.description := None |}
       Fixture.product_world
     = (Raise (HTTPException HTTP_400_BAD_REQUEST "Category with this name already exists"),
        Fixture.product_world).
Proof.
  destruct duplicate_unique_field_is_bad_request as (Hu & Hp & Hc).
  split; [|split].
  - apply (Hu _ _ _ "u1" Fixture.stored_alice); reflexivity.
  - apply (Hp _ _ _ "p1" Fixture.stored_widget "W-1"); try reflexivity. discriminate.
  - apply (Hc _ _ _ "c1" Fixture.stored_category); reflexivity.
Defined.

Lemma update_stock_rejects_negative_witness :
  ProductRepository.update_stock Fixture.product_env "p1" (-4) Fixture.product_world
  = (Return None, Fixture.product_world)
  /\ ProductService.update_stock Fixture.product_env "p1" (-4) Fixture.product_world
     = (Raise (HTTPException HTTP_400_BAD_REQUEST "Product not found or insufficient stock"),
        Fixture.product_world).
Proof.
  apply (proj1 (update_stock_rejects_negative Fixture.product_env "p1" (-4)
                  Fixture.product_world) Fixture.stored_widget).
  - reflexivity.
  - simpl. lia.
Defined.

Lemma update_stock_sets_availability_witness :
  exists p' w',
    ProductRepository.update_stock Fixture.product_env "p1" (-3) Fixture.product_world
    = (Return (Some p'), w')
    /\ Product.stock_quantity p' = 0%Z
    /\ Product.is_available p' = false
    /\ ProductWorld.products w' !! "p1" = Some p'.
Proof.
  destruct (ProductRepository.update_stock Fixture.product_env "p1" (-3)
              Fixture.product_world) as [[[p'|]|e] w'] eqn:E.
  2,3: (vm_compute in E; discriminate).
  destruct (update_stock_sets_availability _ _ _ _ _ _ E) as (Ha & Hget & _ & Hz).
  assert (Hs : Product.stock_quantity p' = 0%Z).
  { vm_compute in E. now injection E as <- _. }
  exists p', w'. split; [reflexivity|]. split; [exact Hs|].
  split; [exact (Hz Hs) | exact Hget].
Defined.

Lemma event_emission_never_raises_witness :
  exists resp w'',
    OrderService.create_order
      (OrderEnv.with_send_and_wait (fun _ _ _ _ => None) Fixture.env)
      Fixture.order_data "alice-token" Fixture.world = (Return resp, w'')
    /\ OrderService.create_order Fixture.env Fixture.order_data "alice-token" Fixture.world
       = (Return resp, Fixture.world_with_order)
    /\ OrderWorld.orders w'' = OrderWorld.orders Fixture.world_with_order.
Proof.
  destruct (OrderService.create_order Fixture.env Fixture.order_data "alice-token"
              Fixture.world) as [[resp|e] w'] eqn:E.
  2:{ vm_compute in E. discriminate. }
  assert (Hw : w' = Fixture.world_with_order).
  { unfold Fixture.world_with_order. now rewrite E. }
  subst w'.
  destruct (proj2 event_emission_never_raises _ _ _ _ _ _ (fun _ _ _ _ => None) E)
    as (w'' & E' & Ho & _).
  exists resp, w''. split; [exact E'|]. split; [reflexivity | exact Ho].
Defined.

(** ** Further properties of the services *)

Ltac avail_cases :=
  repeat match goal with
         | |- _ /\ _ => split
         | |- forall _, _ => intro
         | H : Response _ _ = Response _ _ |- _ => injection H as H; try subst
         | H : JObject _ = JObject _ |- _ => injection H as H; try subst
         | H : JObject _ = JOther _ |- _ => discriminate H
         | H : JOther _ = JObject _ |- _ => discriminate H
         | H : JOther true = JOther false |- _ => discriminate H
         | H : JOther false = JOther true |- _ => discriminate H
         | H : RequestError _ = Response _ _ |- _ => discriminate H
         | H : _ \/ _ |- _ => destruct H
         | H : forall j, Response ?c ?b <> Response ?c j |- _ => now destruct (H b)
         end.

Ltac avail_close := try discriminate; try congruence; try reflexivity; try lia.

(** X1.  [check_product_availability] never raises and makes exactly one
    request.  For a product the service serves, the answer is available
    exactly when the product is flagged available and its stock covers
    the requested quantity; otherwise the reason is "Product not
    available" (flag off, available quantity 0) or "Insufficient stock"
    (with the stock and the requested quantity).  An answer other than
    200, a 200 answer with a falsy body, or a failed request gives
    "Product not found". *)
Theorem check_product_availability_answers env product_id quantity w :
  exists a w',
    ProductServiceClient.check_product_availability env product_id quantity w
    = (Return a, w')
    /\ frame w w'
    /\ OrderWorld.tick w' = S (OrderWorld.tick w)
    /\ (forall p,
          OrderEnv.get_product env (OrderWorld.tick w) product_id
          = Response HTTP_200_OK (JObject p) ->
          Availability.available a
          = ProductJson.is_available p && (quantity <=? ProductJson.stock_quantity p)%Z
          /\ (Availability.available a = true ->
              Availability.product a = Some p
              /\ Availability.available_quantity a = ProductJson.stock_quantity p)
          /\ (ProductJson.is_available p = false ->
              Availability.reason a = Some "Product not available"
              /\ Availability.available_quantity a = 0%Z)
          /\ (ProductJson.is_available p = true ->
              (ProductJson.stock_quantity p < quantity)%Z ->
              Availability.reason a = Some "Insufficient stock"
              /\ Availability.available_quantity a = ProductJson.stock_quantity p
              /\ Availability.requested_quantity a = Some quantity))
    /\ ((forall j, OrderEnv.get_product env (OrderWorld.tick w) product_id
                   <> Response HTTP_200_OK j)
        \/ OrderEnv.get_product env (OrderWorld.tick w) product_id
           = Response HTTP_200_OK (JOther false) ->
        Availability.available a = false
        /\ Availability.reason a = Some "Product not found").
Proof.
  unfold ProductServiceClient.check_product_availability,
    ProductServiceClient.get_product_by_id. unfold_m.
  destruct (OrderEnv.get_product env (OrderWorld.tick w) product_id)
    as [code body|m] eqn:E; simpl.
  - destruct (Nat.eqb code HTTP_200_OK) eqn:Ec; simpl.
    + apply Nat.eqb_eq in Ec. subst code.
      destruct body as [p|[|]]; simpl.
      * destruct (ProductJson.is_available p) eqn:Ea; simpl.
        -- destruct (ProductJson.stock_quantity p <? quantity)%Z eqn:Es; simpl;
             eexists _, _; (split; [reflexivity|]); (split; [repeat split|]);
             (split; [reflexivity|]); simpl.
           ++ apply Z.ltb_lt in Es.
              assert (El : (quantity <=? ProductJson.stock_quantity p)%Z = false)
                by (apply Z.leb_gt; lia).
              avail_cases; rewrite ?Ea, ?El; avail_close.
           ++ apply Z.ltb_ge in Es.
              assert (El : (quantity <=? ProductJson.stock_quantity p)%Z = true)
                by (apply Z.leb_le; lia).
              avail_cases; rewrite ?Ea, ?El; avail_close.
        -- eexists _, _; (split; [reflexivity|]); (split; [repeat split|]);
             (split; [reflexivity|]); simpl.
           avail_cases; rewrite ?Ea; avail_close.
      * eexists _, _; (split; [reflexivity|]); (split; [repeat split|]);
          (split; [reflexivity|]); simpl.
        avail_cases; avail_close.
      * eexists _, _; (split; [reflexivity|]); (split; [repeat split|]);
          (split; [reflexivity|]); simpl.
        avail_cases; avail_close.
    + eexists _, _; (split; [reflexivity|]); (split; [repeat split|]);
        (split; [reflexivity|]); simpl.
      apply Nat.eqb_neq in Ec.
      avail_cases; avail_close.
  - eexists _, _; (split; [reflexivity|]); (split; [repeat split|]);
      (split; [reflexivity|]); simpl.
    avail_cases; avail_close.
Qed.


(** X2.  [reserve_products] never raises and leaves the order store
    alone.  It returns one reservation per requested line, in the order
    of the request and with the line's product and quantity;
    [total_items] is the number of lines, [reserved_items] the number of
    reserved ones, and [success] holds exactly when every line is
    reserved. *)
Theorem reserve_products_summary env items w :
  exists rr w',
    ProductServiceClient.reserve_products env items w = (Return rr, w')
    /\ frame w w'
    /\ map (fun r => (Reservation.product_id r, Reservation.quantity r))
         (ReservationResult.reservations rr) = items
    /\ Forall2 (reservation_of env) items (ReservationResult.reservations rr)
    /\ ReservationResult.total_items rr = length items
    /\ ReservationResult.reserved_items rr
       = length (List.filter Reservation.reserved (ReservationResult.reservations rr))
    /\ (ReservationResult.success rr = true <->
        Forall (fun r => Reservation.reserved r = true) (ReservationResult.reservations rr)).
Proof.
  unfold ProductServiceClient.reserve_products.
  destruct (reserve_loop_total env items [] 0%nat w) as (new & w1 & E & F & H).
  rewrite (bind_Return _ _ _ _ _ E). unfold ret. simpl.
  eexists _, w1. split; [reflexivity|]. split; [assumption|]. simpl.
  split.
  { clear E. induction H as [|[pid qty] r ls rs (H1 & H2 & _) _ IH]; [reflexivity|].
    simpl in *. now rewrite H1, H2, IH. }
  split; [assumption|]. split; [reflexivity|]. split; [reflexivity|].
  assert (L : length items = length new) by (eapply Forall2_length; eassumption).
  rewrite L. fold (count_reserved new). rewrite count_reserved_all.
  rewrite forallb_forall, Forall_forall. split; intros Hall r Hr; apply Hall.
  - now apply list_elem_of_In.
  - now apply list_elem_of_In.
Qed.

(** X3.  When the token does not resolve to a user, [create_order]
    raises 401 after the single request to the user service: nothing is
    reserved, stored or published. *)
Theorem create_order_unauthorized env order_data token w ui w1 :
  UserServiceClient.verify_user_token env token w = (Return ui, w1) ->
  answer_truthy ui = false ->
  OrderService.create_order env order_data token w
  = (Raise (HTTPException HTTP_401_UNAUTHORIZED "Invalid or expired token"), w1)
  /\ frame w w1
  /\ OrderWorld.tick w1 = S (OrderWorld.tick w).
Proof.
  intros E Hf.
  unfold OrderService.create_order, try_except.
  rewrite (bind_Return _ _ _ _ _ E). rewrite Hf. simpl.
  split; [reflexivity|].
  unfold UserServiceClient.verify_user_token in E. unfold_m.
  destruct (OrderEnv.get_profile env (OrderWorld.tick w) token) as [code body|m];
    simpl in E; [destruct (Nat.eqb code HTTP_200_OK)|]; simpl in E;
    injection E as <- <-; split; repeat split.
Qed.


Lemma check_product_availability_in_stock env pid qty w :
  in_stock env pid qty ->
  exists a w1 p,
    ProductServiceClient.check_product_availability env pid qty w = (Return a, w1)
    /\ frame w w1
    /\ Availability.available a = true
    /\ Availability.product a = Some p.
Proof.
  intros H. destruct (H (OrderWorld.tick w)) as (p & E & Ha & Hs).
  unfold ProductServiceClient.check_product_availability,
    ProductServiceClient.get_product_by_id. unfold_m.
  rewrite E. simpl. rewrite Ha. simpl.
  assert ((ProductJson.stock_quantity p <? qty)%Z = false) as ->
    by (apply Z.ltb_ge; lia).
  simpl. eexists _, _, p. split; [reflexivity|]. repeat split.
Qed.

Lemma reserve_loop_in_stock env items :
  Forall (fun l => in_stock env (fst l) (snd l)) items ->
  forall acc k w,
    exists new w1,
      ProductServiceClient.reserve_loop env items acc k w
      = (Return (app acc new, (k + length new)%nat), w1)
      /\ frame w w1
      /\ length new = length items
      /\ Forall (fun r => Reservation.reserved r = true
                          /\ is_Some (Reservation.product r)) new.
Proof.
  induction 1 as [|[pid qty] rest Hl _ IH]; intros acc k w.
  - exists [], w. simpl. unfold ret. rewrite app_nil_r, Nat.add_0_r.
    repeat split. constructor.
  - simpl in Hl. simpl.
    destruct (check_product_availability_in_stock env pid qty w Hl)
      as (a & w1 & p & E & F & Ha & Hp).
    rewrite (bind_Return _ _ _ _ _ E). rewrite Ha, Hp.
    match goal with |- context [app acc [?r]] => set (r0 := r) end.
    destruct (IH (app acc [r0]) (k + 1)%nat w1) as (new & w2 & E2 & F2 & L2 & H2).
    exists (r0 :: new), w2.
    assert (X : app (app acc [r0]) new = app acc (r0 :: new))
      by (rewrite <- app_assoc; reflexivity).
    assert (Y : (k + 1 + length new = k + length (r0 :: new))%nat) by (simpl; lia).
    rewrite E2, X, Y. split; [reflexivity|].
    split; [eapply frame_trans; eassumption|].
    split; [simpl; now rewrite L2|].
    constructor; [|assumption]. split; [reflexivity|]. now exists p.
Qed.

Lemma build_items_total pairs : forall acc sub w,
  Forall (fun pr => (0 < OrderItemCreate.quantity (fst pr))%Z
                    /\ is_Some (Reservation.product (snd pr))) pairs ->
  exists its sub',
    OrderService.build_items pairs acc sub w = (Return (its, sub'), w).
Proof.
  induction pairs as [|[item_data reservation] rest IH]; intros acc sub w H.
  - eexists _, _. reflexivity.
  - inversion H as [|? ? [Hq [p Hp]] Hrest]; subst. simpl in Hq, Hp. simpl.
    destruct (Reservation.reserved reservation); [|now apply IH].
    rewrite Hp. unfold OrderItem.new.
    assert ((0 <? OrderItemCreate.quantity item_data)%Z = true) as ->
      by now apply Z.ltb_lt.
    match goal with |- context [ret ?x] => set (it := x) end.
    rewrite (bind_Return _ _ w it w eq_refl). now apply IH.
Qed.

Lemma Forall_combine {A B} (P : A -> Prop) (Q : B -> Prop) (xs : list A) :
  forall ys : list B,
    Forall P xs -> Forall Q ys ->
    Forall (fun pr => P (fst pr) /\ Q (snd pr)) (combine xs ys).
Proof.
  induction xs as [|x xs IH]; intros [|y ys] Hx Hy; simpl; try constructor.
  - inversion Hx; inversion Hy; subst. now split.
  - inversion Hx; inversion Hy; subst. now apply IH.
Qed.

Lemma repository_create_order_stored env d w :
  exists i o w1,
    OrderRepository.create_order env d w = (Return o, w1)
    /\ Order.id o = Some i
    /\ OrderWorld.orders w1 = <[i := o]> (OrderWorld.orders w)
    /\ OrderWorld.shipping_addresses w1 = OrderWorld.shipping_addresses w
    /\ Order.user_id o = OrderData.user_id d
    /\ Order.user_email o = OrderData.user_email d
    /\ Order.order_number o = OrderData.order_number d
    /\ Order.shipping_address o = OrderData.shipping_address d
    /\ Order.notes o = OrderData.notes d
    /\ Order.status o = default OrderStatus.PENDING (OrderData.status d)
    /\ Order.payment_status o = default PaymentStatus.PENDING (OrderData.payment_status d)
    /\ Order.confirmed_at o = OrderData.confirmed_at d
    /\ Order.shipped_at o = OrderData.shipped_at d
    /\ Order.delivered_at o = OrderData.delivered_at d.
Proof.
  unfold OrderRepository.create_order, OrderDocument.new, OrderDocument.insert,
    OrderDocument.or_utcnow.
  destruct (OrderData.created_at d), (OrderData.updated_at d); unfold_m; simpl;
    eexists _, _, _; (split; [reflexivity|]); simpl; repeat split; reflexivity.
Qed.

Lemma insert_address_stored env a w :
  exists i s w1,
    OrderDocument.insert_address env a w = (Return s, w1)
    /\ ShippingAddress.id s = Some i
    /\ OrderWorld.shipping_addresses w1 = <[i := s]> (OrderWorld.shipping_addresses w)
    /\ OrderWorld.orders w1 = OrderWorld.orders w
    /\ ShippingAddress.full_name s = ShippingAddressCreate.full_name a
    /\ ShippingAddress.address_line_1 s = ShippingAddressCreate.address_line_1 a
    /\ ShippingAddress.city s = ShippingAddressCreate.city a
    /\ ShippingAddress.country s = ShippingAddressCreate.country a.
Proof.
  unfold OrderDocument.insert_address. unfold_m. simpl.
  eexists _, _, _. split; [reflexivity|]. simpl. repeat split; reflexivity.
Qed.

Lemma generate_order_number_frame env w :
  exists s w1, OrderService._generate_order_number env w = (Return s, w1)
    /\ OrderWorld.orders w1 = OrderWorld.orders w
    /\ OrderWorld.shipping_addresses w1 = OrderWorld.shipping_addresses w.
Proof.
  unfold OrderService._generate_order_number. unfold_m. simpl.
  eexists _, _. repeat split; reflexivity.
Qed.

(** X4.  [create_order] succeeds whenever the token resolves to a user,
    every requested quantity is positive and every requested product is
    served as available with enough stock.  The stored order is pending
    with a pending payment, belongs to the resolved user, carries the
    request's notes and no confirmation time, and its shipping address
    is stored as a record of its own; the response reports it as
    cancellable. *)
Theorem create_order_succeeds env order_data token w u :
  OrderEnv.get_profile env (OrderWorld.tick w) token = Response HTTP_200_OK (JObject u) ->
  OrderCreate.valid order_data ->
  Forall (fun item => in_stock env (OrderItemCreate.product_id item)
                        (OrderItemCreate.quantity item))
    (OrderCreate.items order_data) ->
  exists resp w' o a,
    OrderService.create_order env order_data token w = (Return resp, w')
    /\ OrderWorld.orders w' !! OrderResponse.id resp = Some o
    /\ Order.status o = OrderStatus.PENDING
    /\ Order.payment_status o = PaymentStatus.PENDING
    /\ Order.user_id o = UserJson.id u
    /\ Order.user_email o = UserJson.email u
    /\ Order.notes o = OrderCreate.notes order_data
    /\ Order.confirmed_at o = None
    /\ Order.shipping_address o = a
    /\ OrderWorld.shipping_addresses w' !! str_opt (ShippingAddress.id a) = Some a
    /\ ShippingAddress.full_name a
       = ShippingAddressCreate.full_name (OrderCreate.shipping_address order_data)
    /\ OrderResponse.status resp = OrderStatus.PENDING
    /\ OrderResponse.is_cancellable resp = true.
Proof.
  intros Hprofile Hvalid Hstock.
  assert (E1 : exists w1, UserServiceClient.verify_user_token env token w
                          = (Return (Some (JObject u)), w1)).
  { unfold UserServiceClient.verify_user_token. unfold_m. rewrite Hprofile. simpl.
    eexists. reflexivity. }
  destruct E1 as (w1 & E1).
  assert (Hlines : Forall (fun l => in_stock env (fst l) (snd l))
                     (OrderService.requested_lines order_data)).
  { unfold OrderService.requested_lines. apply Forall_map.
    eapply Forall_impl; [exact Hstock|]. now intros item H. }
  destruct (reserve_loop_in_stock env _ Hlines [] 0%nat w1)
    as (new & w2 & E2 & _ & L2 & Hnew).
  assert (E2' : exists rr,
             ProductServiceClient.reserve_products env
               (OrderService.requested_lines order_data) w1 = (Return rr, w2)
             /\ ReservationResult.success rr = true
             /\ ReservationResult.reservations rr = new).
  { unfold ProductServiceClient.reserve_products.
    rewrite (bind_Return _ _ _ _ _ E2). unfold ret. eexists. split; [reflexivity|].
    simpl. rewrite L2. split; [apply Nat.eqb_refl | reflexivity]. }
  destruct E2' as (rr & E2' & Hsucc & Hrs).
  unfold OrderService.create_order, try_except.
  rewrite (bind_Return _ _ _ _ _ E1). simpl.
  rewrite (bind_Return _ _ _ _ _ E2'). rewrite Hsucc, Hrs. simpl.
  destruct (build_items_total (combine (OrderCreate.items order_data) new) [] 0%Q w2)
    as (its & sub & Eb).
  { eapply Forall_impl; [apply (Forall_combine _ _ _ _ Hvalid Hnew)|].
    intros [x r] [Hx [_ Hr]]. split; assumption. }
  rewrite (bind_Return _ _ _ _ _ Eb). simpl.
  destruct (insert_address_stored env (OrderCreate.shipping_address order_data) w2)
    as (ia & addr & w3 & E3 & Hia & A3 & O3 & Hname & _).
  rewrite (bind_Return _ _ _ _ _ E3).
  destruct (generate_order_number_frame env w3) as (num & w4 & E4 & O4 & A4).
  rewrite (bind_Return _ _ _ _ _ E4).
  match goal with
  | |- context [OrderRepository.create_order env ?d] =>
      destruct (repository_create_order_stored env d w4)
        as (i & o & w5 & E5 & Hid & O5 & A5 & Hu & Hem & _ & Haddr & Hnotes & Hst & Hpay
            & Hconf & _)
  end.
  rewrite (bind_Return _ _ _ _ _ E5).
  destruct (publish_order_created_event_total env (OrderService.order_created_data o) w5)
    as (w6 & E6 & O6 & A6).
  rewrite (bind_Return _ _ _ _ _ E6).
  unfold OrderService._convert_to_response, ret.
  eexists _, w6, o, addr. split; [reflexivity|]. simpl.
  simpl in Hu, Hem, Haddr, Hnotes, Hst, Hpay, Hconf.
  rewrite Hid. simpl.
  split. { rewrite O6, O5. apply lookup_insert_eq. }
  split; [exact Hst|]. split; [exact Hpay|]. split; [exact Hu|]. split; [exact Hem|].
  split; [exact Hnotes|]. split; [exact Hconf|]. split; [exact Haddr|].
  split. { rewrite Hia. simpl. rewrite A6, A5, A4, A3. apply lookup_insert_eq. }
  split; [exact Hname|]. split; [exact Hst|].
  unfold Order.is_cancellable. now rewrite Hst.
Qed.


(** X5.  [get_order_by_id] checks, in this order: the token (401), the
    existence of the order (404), its ownership (403).  Only the owner
    gets the order, and reading never changes the stored orders. *)
Theorem get_order_by_id_access env order_id token w ui w1 :
  UserServiceClient.verify_user_token env token w = (Return ui, w1) ->
  OrderWorld.orders w1 = OrderWorld.orders w
  /\ (answer_truthy ui = false ->
      OrderService.get_order_by_id env order_id token w
      = (Raise (HTTPException HTTP_401_UNAUTHORIZED "Invalid or expired token"), w1))
  /\ (answer_truthy ui = true -> OrderWorld.orders w !! order_id = None ->
      OrderService.get_order_by_id env order_id token w
      = (Raise (HTTPException HTTP_404_NOT_FOUND "Order not found"), w1))
  /\ (forall u o,
        ui = Some (JObject u) -> OrderWorld.orders w !! order_id = Some o ->
        (Order.user_id o <> UserJson.id u ->
         OrderService.get_order_by_id env order_id token w
         = (Raise (HTTPException HTTP_403_FORBIDDEN "Access denied"), w1))
        /\ (Order.user_id o = UserJson.id u ->
            exists resp,
              OrderService.get_order_by_id env order_id token w = (Return resp, w1)
              /\ OrderResponse.id resp = order_id
              /\ OrderResponse.user_id resp = UserJson.id u
              /\ OrderResponse.status resp = Order.status o
              /\ OrderResponse.total_amount resp = Order.total_amount o
              /\ OrderResponse.is_editable resp = Order.is_editable o
              /\ OrderResponse.is_cancellable resp = Order.is_cancellable o)).
Proof.
  intros E.
  destruct (verify_user_token_total env token w) as (ui' & w1' & E' & F & _).
  rewrite E in E'. injection E' as <- <-.
  destruct F as (Ho & _). split; [exact Ho|].
  unfold OrderService.get_order_by_id. rewrite (bind_Return _ _ _ _ _ E).
  split; [intros ->; reflexivity|].
  split.
  { intros -> Hnone. simpl.
    rewrite (bind_Return _ _ _ _ _ (repository_get_order_by_id_spec order_id w1)).
    rewrite Ho, Hnone. reflexivity. }
  intros u o -> Hget. simpl.
  rewrite (bind_Return _ _ _ _ _ (repository_get_order_by_id_spec order_id w1)).
  rewrite Ho, Hget. simpl.
  split.
  { intros Hne. apply String.eqb_neq in Hne. now rewrite Hne. }
  intros Heq. pose proof Heq as Heq'. apply String.eqb_eq in Heq. rewrite Heq. simpl.
  unfold OrderService._convert_to_response, ret.
  eexists. split; [reflexivity|]. simpl. repeat split. exact Heq'.
Qed.

(** X6.  [update_payment_status] raises 404 and changes nothing when the
    order is absent.  Otherwise it stores the requested payment status
    whatever the order's status, which it leaves alone together with
    the total, the lines and the notes; the transaction id and the
    payment method are overwritten only by non-empty values. *)
Theorem update_payment_status_effect env order_id pu w :
  (OrderWorld.orders w !! order_id = None ->
   OrderService.update_payment_status env order_id pu w
   = (Raise (HTTPException HTTP_404_NOT_FOUND "Order not found"), w))
  /\ (forall o, OrderWorld.orders w !! order_id = Some o ->
      exists resp w' o',
        OrderService.update_payment_status env order_id pu w = (Return resp, w')
        /\ OrderWorld.orders w' !! order_id = Some o'
        /\ Order.payment_status o' = PaymentUpdate.payment_status pu
        /\ Order.status o' = Order.status o
        /\ Order.total_amount o' = Order.total_amount o
        /\ Order.items o' = Order.items o
        /\ Order.notes o' = Order.notes o
        /\ Order.payment_transaction_id o'
           = (if opt_truthy (PaymentUpdate.payment_transaction_id pu)
              then PaymentUpdate.payment_transaction_id pu
              else Order.payment_transaction_id o)
        /\ Order.payment_method o'
           = (if opt_truthy (PaymentUpdate.payment_method pu)
              then PaymentUpdate.payment_method pu
              else Order.payment_method o)
        /\ OrderResponse.payment_status resp = PaymentUpdate.payment_status pu).
Proof.
  split.
  - intros Hget.
    unfold OrderService.update_payment_status, OrderRepository.update_payment_status,
      OrderDocument.get, get_document. unfold_m. now rewrite Hget.
  - intros o Hget.
    unfold OrderService.update_payment_status, OrderRepository.update_payment_status,
      OrderDocument.get, get_document, OrderDocument.save, OrderDocument.insert,
      OrderService._convert_to_response,
      KafkaProducer.publish_payment_completed_event,
      KafkaProducer.publish_payment_failed_event.
    unfold bind at 1. unfold try_except, bind at 1. unfold gets. rewrite Hget.
    cbv beta iota zeta delta [fmap option_fmap option_map bind ret modify OrderIO.ask].
    simpl.
    destruct (opt_truthy (PaymentUpdate.payment_transaction_id pu)) eqn:Et,
      (opt_truthy (PaymentUpdate.payment_method pu)) eqn:Em; simpl;
    match goal with
    | |- context [KafkaProducer.send_event _ _ _ _ ?w0] => idtac
    | _ => idtac
    end.
    all: destruct (PaymentUpdate.payment_status pu) eqn:Ep; simpl;
      try (match goal with
           | |- context [KafkaProducer.send_event ?e ?t ?d ?k ?w0] =>
               destruct (send_event_total e t d k w0) as (w2 & -> & O2 & _)
           end);
      eexists _, _, _; (split; [reflexivity|]); simpl;
      rewrite ?O2; simpl; rewrite ?lookup_insert_eq;
      (split; [reflexivity|]); repeat split; reflexivity.
Qed.


(** X7.  [OrderRepository.delete_order] never removes an order.  It
    returns [True] exactly when the order exists and is cancellable, and
    then only sets its status to cancelled (no note is added); in every
    other case it returns [False] and the state is unchanged. *)
Theorem delete_order_is_cancellation env order_id w :
  exists b w',
    OrderRepository.delete_order env order_id w = (Return b, w')
    /\ (b = true <->
        exists o, OrderWorld.orders w !! order_id = Some o
                  /\ Order.is_cancellable o = true)
    /\ (b = false -> w' = w)
    /\ (b = true ->
        exists o o',
          OrderWorld.orders w !! order_id = Some o
          /\ OrderWorld.orders w' = <[order_id := o']> (OrderWorld.orders w)
          /\ Order.status o' = OrderStatus.CANCELLED
          /\ Order.notes o' = Order.notes o
          /\ same_content o o').
Proof.
  unfold OrderRepository.delete_order, OrderDocument.get, get_document,
    OrderDocument.save, OrderDocument.insert. unfold_m.
  destruct (OrderWorld.orders w !! order_id) as [o|] eqn:Hget; simpl.
  - destruct (Order.is_cancellable (Order.set_id (Some order_id) o)) eqn:Hc; simpl.
    + eexists _, _. split; [reflexivity|]. simpl.
      split; [split; [intros _; exists o; split; [reflexivity | exact Hc] | reflexivity]|].
      split; [discriminate|]. intros _.
      eexists o, _. split; [reflexivity|]. split; [reflexivity|]. simpl.
      repeat split.
    + eexists _, _. split; [reflexivity|].
      split.
      { split; [discriminate|]. intros (o' & [= <-] & Hc').
        unfold Order.is_cancellable in *. simpl in Hc, Hc'. congruence. }
      split; [reflexivity | discriminate].
  - eexists _, _. split; [reflexivity|].
    split; [split; [discriminate | intros (o & Ho & _); discriminate]|].
    split; [reflexivity | discriminate].
Qed.

(** X8.  Starting the producer and then sending an event never raises,
    whatever the broker does, and the stored orders are untouched.  The
    enriched record reaches the topic exactly when Kafka is enabled, the
    producer started and the broker accepted the record. *)
Theorem kafka_start_then_send env topic event_data key w :
  OrderWorld.producer w = false ->
  exists w1 w2,
    KafkaProducer.start env w = (Return tt, w1)
    /\ KafkaProducer.send_event env topic event_data key w1 = (Return tt, w2)
    /\ OrderWorld.orders w2 = OrderWorld.orders w
    /\ OrderWorld.delivered w2
       = if OrderWorld.kafka_enabled w
            && negb (is_Some_bool (OrderEnv.producer_start env (OrderWorld.tick w)))
            && negb (is_Some_bool
                       (OrderEnv.send_and_wait env (S (OrderWorld.tick w)) topic
                          (KafkaProducer.enrich topic event_data) key))
         then (OrderWorld.delivered w
               ++ [(topic, KafkaProducer.enrich topic event_data, key)])%list
         else OrderWorld.delivered w.
Proof.
  intros Hp.
  unfold KafkaProducer.start, KafkaProducer.send_event. unfold_m.
  set (enriched := KafkaProducer.enrich topic event_data).
  destruct (OrderWorld.kafka_enabled w) eqn:Ek; simpl.
  - destruct (OrderEnv.producer_start env (OrderWorld.tick w)) as [e|] eqn:Es; simpl.
    + eexists _, _. split; [reflexivity|]. simpl. rewrite Ek. simpl.
      repeat split.
    + destruct (OrderEnv.send_and_wait env (S (OrderWorld.tick w)) topic enriched key)
        as [e|] eqn:Ew.
      * destruct e; eexists _, _; (split; [reflexivity|]); simpl; rewrite Ek; simpl;
          rewrite Ew; repeat split.
      * eexists _, _. split; [reflexivity|]. simpl. rewrite Ek. simpl. rewrite Ew.
        repeat split.
  - eexists _, _. split; [reflexivity|]. simpl. rewrite Ek. simpl. repeat split.
Qed.


Lemma repository_update_stock_applied env product_id quantity_change w p :
  ProductWorld.products w !! product_id = Some p ->
  (0 <= Product.stock_quantity p + quantity_change)%Z ->
  exists p' w',
    ProductRepository.update_stock env product_id quantity_change w
    = (Return (Some p'), w')
    /\ ProductWorld.products w' = <[product_id := p']> (ProductWorld.products w)
    /\ ProductWorld.categories w' = ProductWorld.categories w
    /\ Product.id p' = Some product_id
    /\ Product.stock_quantity p' = (Product.stock_quantity p + quantity_change)%Z
    /\ Product.is_available p' = (0 <? Product.stock_quantity p + quantity_change)%Z
    /\ same_product_data p p'.
Proof.
  intros Hget Hpos.
  unfold ProductRepository.update_stock, get_document, ProductRepository.save,
    ProductWorld.ask. unfold_m. rewrite Hget. simpl.
  assert ((Product.stock_quantity p + quantity_change <? 0)%Z = false) as ->
    by (apply Z.ltb_ge; lia).
  simpl. eexists _, _. split; [reflexivity|]. simpl. repeat split.
Qed.

(** X9.  Two successive stock changes that both keep the stock
    non-negative act as the single change by their sum: the stock is the
    old stock plus [d1 + d2], the availability flag is its positivity,
    the other product data and the other products are unchanged. *)
Theorem update_stock_composes env product_id d1 d2 w p :
  ProductWorld.products w !! product_id = Some p ->
  (0 <= Product.stock_quantity p + d1)%Z ->
  (0 <= Product.stock_quantity p + d1 + d2)%Z ->
  exists p1 w1 p2 w2,
    ProductRepository.update_stock env product_id d1 w = (Return (Some p1), w1)
    /\ ProductRepository.update_stock env product_id d2 w1 = (Return (Some p2), w2)
    /\ ProductWorld.products w2 !! product_id = Some p2
    /\ Product.stock_quantity p2 = (Product.stock_quantity p + (d1 + d2))%Z
    /\ Product.is_available p2 = (0 <? Product.stock_quantity p + (d1 + d2))%Z
    /\ same_product_data p p2
    /\ (forall k, k <> product_id ->
          ProductWorld.products w2 !! k = ProductWorld.products w !! k).
Proof.
  intros Hget H1 H2.
  destruct (repository_update_stock_applied env product_id d1 w p Hget H1)
    as (p1 & w1 & E1 & W1 & _ & _ & S1 & _ & D1).
  assert (Hget1 : ProductWorld.products w1 !! product_id = Some p1)
    by (rewrite W1; apply lookup_insert_eq).
  destruct (repository_update_stock_applied env product_id d2 w1 p1 Hget1)
    as (p2 & w2 & E2 & W2 & _ & _ & S2 & A2 & D2).
  { rewrite S1. exact H2. }
  exists p1, w1, p2, w2. split; [exact E1|]. split; [exact E2|].
  split; [rewrite W2; apply lookup_insert_eq|].
  split; [rewrite S2, S1; lia|].
  split; [rewrite A2, S1; f_equal; lia|].
  split.
  { unfold same_product_data in *.
    destruct D1 as (?&?&?&?&?&?&?&?), D2 as (?&?&?&?&?&?&?&?).
    repeat split; congruence. }
  intros k Hk. rewrite W2, W1.
  rewrite !lookup_insert_ne by congruence. reflexivity.
Qed.

(** X10.  [ProductRepository.update_stock] returns a product exactly when
    the product is stored and the change keeps its stock non-negative;
    whether the product is active plays no role. *)
Theorem update_stock_succeeds_iff env product_id quantity_change w :
  (exists p' w', ProductRepository.update_stock env product_id quantity_change w
                 = (Return (Some p'), w'))
  <-> (exists p, ProductWorld.products w !! product_id = Some p
                 /\ (0 <= Product.stock_quantity p + quantity_change)%Z).
Proof.
  split.
  - intros (p' & w' & E).
    unfold ProductRepository.update_stock, get_document in E. unfold_m.
    destruct (ProductWorld.products w !! product_id) as [p|] eqn:Hget; simpl in E;
      [|discriminate].
    destruct (Product.stock_quantity p + quantity_change <? 0)%Z eqn:Hlt; simpl in E;
      [discriminate|].
    exists p. split; [reflexivity|]. now apply Z.ltb_ge.
  - intros (p & Hget & Hpos).
    destruct (repository_update_stock_applied env product_id quantity_change w p Hget Hpos)
      as (p' & w' & E & _).
    now exists p', w'.
Qed.


Lemma create_product_duplicate_sku env product_data w k p sku :
  ProductWorld.products w !! k = Some p ->
  Product.sku p = Some sku -> sku <> "" ->
  ProductCreate.sku product_data = Some sku ->
  ProductService.create_product env product_data w
  = (Raise (HTTPException HTTP_400_BAD_REQUEST "Product with this SKU already exists"), w).
Proof.
  intros Hk Hs Hne Hd.
  unfold ProductService.create_product, ProductRepository.get_product_by_sku.
  rewrite Hd. unfold_m.
  assert (str_truthy sku = true) as ->.
  { unfold str_truthy. apply negb_true_iff, String.eqb_neq. exact Hne. }
  destruct (find_one_found Product.set_id
              (fun p0 => bool_decide (Product.sku p0 = Some sku))
              (ProductWorld.products w) k p Hk) as [p' ->].
  { simpl. apply bool_decide_eq_true_2. exact Hs. }
  reflexivity.
Qed.

Lemma register_user_duplicate_email env user_data w k u :
  UserWorld.users w !! k = Some u ->
  User.email u = UserCreate.email user_data ->
  UserService.register_user env user_data w
  = (Raise (HTTPException HTTP_400_BAD_REQUEST "User with this email already exists"), w).
Proof.
  intros Hk He.
  unfold UserService.register_user, UserRepository.user_exists. unfold_m.
  destruct (find_one_found User.set_id
              (fun u0 => String.eqb (User.email u0) (UserCreate.email user_data))
              (UserWorld.users w) k u Hk) as [u' ->].
  { simpl. apply String.eqb_eq. exact He. }
  reflexivity.
Qed.

Lemma create_category_duplicate_name env category_data w k c :
  ProductWorld.categories w !! k = Some c ->
  Category.name c = CategoryCreate.name category_data ->
  CategoryService.create_category env category_data w
  = (Raise (HTTPException HTTP_400_BAD_REQUEST "Category with this name already exists"), w).
Proof.
  intros Hk Hn.
  unfold CategoryService.create_category, CategoryRepository.get_category_by_name.
  unfold_m.
  destruct (find_one_found Category.set_id
              (fun c0 => String.eqb (Category.name c0) (CategoryCreate.name category_data))
              (ProductWorld.categories w) k c Hk) as [c' ->].
  { simpl. apply String.eqb_eq. exact Hn. }
  reflexivity.
Qed.

Ltac unfold_p :=
  cbv beta iota zeta delta [bind ret raise try_except gets modify ProductWorld.ask] in *.

(** X11.  Deleting a product is a soft delete: the product stays stored
    with [is_active = False] and its SKU, stock and availability flag
    as they were.  It is then not found by [get_product_by_id], and its
    non-empty SKU stays taken: creating a product with that SKU still
    raises 400. *)
Theorem soft_deleted_product env product_id w p :
  ProductWorld.products w !! product_id = Some p ->
  exists w' p',
    ProductService.delete_product env product_id w
    = (Return "Product deleted successfully", w')
    /\ ProductWorld.products w' = <[product_id := p']> (ProductWorld.products w)
    /\ Product.is_active p' = false
    /\ Product.sku p' = Product.sku p
    /\ Product.stock_quantity p' = Product.stock_quantity p
    /\ Product.is_available p' = Product.is_available p
    /\ ProductService.get_product_by_id product_id w'
       = (Raise (HTTPException HTTP_404_NOT_FOUND "Product not found"), w')
    /\ (forall env' product_data sku,
          Product.sku p = Some sku -> sku <> "" ->
          ProductCreate.sku product_data = Some sku ->
          ProductService.create_product env' product_data w'
          = (Raise (HTTPException HTTP_400_BAD_REQUEST
                      "Product with this SKU already exists"), w')).
Proof.
  intros Hget.
  unfold ProductService.delete_product, ProductRepository.get_product_by_id,
    ProductRepository.delete_product, get_document, ProductRepository.save.
  unfold_p. repeat (rewrite Hget; simpl).
  eexists _, _. split; [reflexivity|]. simpl.
  split; [reflexivity|]. split; [reflexivity|]. split; [reflexivity|].
  split; [reflexivity|]. split; [reflexivity|].
  split.
  - unfold ProductService.get_product_by_id, ProductRepository.get_product_by_id,
      get_document. unfold_p. simpl. rewrite lookup_insert_eq. reflexivity.
  - intros env' product_data sku Hs Hne Hd.
    eapply (create_product_duplicate_sku env' product_data _ product_id);
      [simpl; apply lookup_insert_eq | exact Hs | exact Hne | exact Hd].
Qed.


Lemma stock_ok_insert w w' i p :
  stock_ok w ->
  ProductWorld.products w' = <[i := p]> (ProductWorld.products w) ->
  (0 <= Product.stock_quantity p)%Z ->
  stock_ok w'.
Proof.
  intros H E Hp k q. rewrite E, lookup_insert. case_decide.
  - now intros [= <-].
  - apply H.
Qed.

Lemma stock_ok_same w w' :
  stock_ok w -> ProductWorld.products w' = ProductWorld.products w -> stock_ok w'.
Proof. intros H E k q. rewrite E. apply H. Qed.

Lemma validb_stock p : Product.validb p = true -> (0 <= Product.stock_quantity p)%Z.
Proof.
  unfold Product.validb. intros H.
  repeat (apply andb_prop in H; destruct H as [H ?]).
  now apply Z.leb_le.
Qed.

Lemma resolve_category_frame category_id w :
  exists r, ProductService.resolve_category category_id w = (r, w).
Proof.
  unfold ProductService.resolve_category, CategoryRepository.get_category_by_id.
  destruct category_id as [c|]; [destruct (str_truthy c)|]; unfold_p;
    try (eexists; reflexivity).
  destruct (get_document Category.set_id c (ProductWorld.categories w));
    eexists; reflexivity.
Qed.

Lemma apply_patch_stock u p :
  Product.stock_quantity (ProductRepository.apply_patch u p)
  = default (Product.stock_quantity p) (ProductUpdate.stock_quantity (ProductPatch.fields u)).
Proof.
  unfold ProductRepository.apply_patch.
  destruct u as [[n d pr c s st av ac im tg we di] cn]; simpl.
  destruct n, d, pr, c, s, st, av, ac, im, tg, we, di, cn; reflexivity.
Qed.

Lemma apply_patch_id u p :
  Product.id (ProductRepository.apply_patch u p) = Product.id p.
Proof.
  unfold ProductRepository.apply_patch.
  destruct u as [[n d pr c s st av ac im tg we di] cn]; simpl.
  destruct n, d, pr, c, s, st, av, ac, im, tg, we, di, cn; reflexivity.
Qed.

(** X12.  No operation of the product service stores a negative stock:
    starting from a state without negative stock, creating a product,
    updating one with a validated [ProductUpdate], deleting one and
    changing a stock each end in such a state, whether they succeed or
    raise. *)
Theorem stock_never_negative env w :
  stock_ok w ->
  (forall product_data,
     stock_ok (snd (ProductService.create_product env product_data w)))
  /\ (forall product_id update_data,
        ProductUpdate.validb update_data = true ->
        stock_ok (snd (ProductService.update_product env product_id update_data w)))
  /\ (forall product_id,
        stock_ok (snd (ProductService.delete_product env product_id w)))
  /\ (forall product_id quantity_change,
        stock_ok (snd (ProductService.update_stock env product_id quantity_change w))).
Proof.
  intros Hok. split; [|split; [|split]].
  - intros d. unfold ProductService.create_product.
    assert (Hsku : exists r,
      (match ProductCreate.sku d with
       | Some sku =>
           if str_truthy sku then
             Py.bind (ProductRepository.get_product_by_sku sku)
               (fun existing_product =>
                  match existing_product with
                  | Some _ =>
                      raise (HTTPException HTTP_400_BAD_REQUEST
                               "Product with this SKU already exists")
                  | None => ret tt
                  end)
           else ret tt
       | None => ret tt
       end) w = (r, w)).
    { destruct (ProductCreate.sku d) as [sku|]; [destruct (str_truthy sku)|];
        try (eexists; reflexivity).
      unfold ProductRepository.get_product_by_sku. unfold_p.
      destruct (find_one _ _ _); eexists; reflexivity. }
    destruct Hsku as ([[]|e] & E1).
    2:{ rewrite (bind_Raise _ _ _ _ _ E1). exact Hok. }
    rewrite (bind_Return _ _ _ _ _ E1).
    destruct (resolve_category_frame (ProductCreate.category_id d) w) as ([cn|e] & E2).
    2:{ rewrite (bind_Raise _ _ _ _ _ E2). exact Hok. }
    rewrite (bind_Return _ _ _ _ _ E2).
    unfold ProductRepository.create_product. unfold_p. simpl.
    match goal with |- context [Product.validb ?p] => destruct (Product.validb p) eqn:Hv end;
      simpl.
    + eapply stock_ok_insert; [exact Hok | reflexivity |].
      simpl. apply validb_stock in Hv. exact Hv.
    + eapply stock_ok_same; [exact Hok | reflexivity].
  - intros product_id u Hvalid.
    unfold ProductService.update_product, ProductRepository.get_product_by_id,
      get_document.
    unfold bind at 1. unfold try_except, gets.
    destruct (ProductWorld.products w !! product_id) as [p|] eqn:Hget; simpl;
      [|exact Hok].
    match goal with
    | |- context [Py.bind (if ?c then ?a else ?b) _] =>
        assert (Hsku : exists r, (if c then a else b) w = (r, w))
    end.
    { destruct (opt_truthy (ProductUpdate.sku u) && _); [|eexists; reflexivity].
      unfold ProductRepository.get_product_by_sku. unfold_p.
      destruct (find_one _ _ _); eexists; reflexivity. }
    destruct Hsku as ([[]|e] & E1).
    2:{ rewrite (bind_Raise _ _ _ _ _ E1). exact Hok. }
    rewrite (bind_Return _ _ _ _ _ E1).
    destruct (resolve_category_frame (ProductUpdate.category_id u) w) as ([cn|e] & E2).
    2:{ rewrite (bind_Raise _ _ _ _ _ E2). exact Hok. }
    rewrite (bind_Return _ _ _ _ _ E2).
    unfold ProductRepository.update_product, get_document, ProductRepository.save.
    unfold_p. rewrite Hget. simpl.
    rewrite apply_patch_id. simpl.
    eapply stock_ok_insert; [exact Hok | reflexivity |].
    simpl. rewrite apply_patch_stock. simpl.
    destruct (ProductUpdate.stock_quantity u) as [z|] eqn:Ez; simpl.
    + unfold ProductUpdate.validb in Hvalid. rewrite Ez in Hvalid. simpl in Hvalid.
      repeat (apply andb_prop in Hvalid; destruct Hvalid as [Hvalid ?]).
      now apply Z.leb_le.
    + apply (Hok _ _ Hget).
  - intros product_id.
    unfold ProductService.delete_product, ProductRepository.get_product_by_id,
      ProductRepository.delete_product, get_document, ProductRepository.save.
    unfold_p.
    destruct (ProductWorld.products w !! product_id) as [p|] eqn:Hget; simpl;
      [|exact Hok].
    repeat (rewrite Hget; simpl).
    eapply stock_ok_insert; [exact Hok | reflexivity |]. simpl. apply (Hok _ _ Hget).
  - intros product_id d.
    unfold ProductService.update_stock, ProductRepository.update_stock, get_document,
      ProductRepository.save. unfold_p.
    destruct (ProductWorld.products w !! product_id) as [p|] eqn:Hget; simpl;
      [|exact Hok].
    destruct (Product.stock_quantity p + d <? 0)%Z eqn:Hlt; simpl; [exact Hok|].
    eapply stock_ok_insert; [exact Hok | reflexivity |]. simpl. now apply Z.ltb_ge.
Qed.


Ltac unfold_u :=
  cbv beta iota zeta delta [bind ret raise try_except gets modify UserWorld.ask] in *.

Lemma find_one_None {D} (set_id : option string -> D -> D) cond (m : gmap string D) :
  find_one set_id cond m = None ->
  forall k d, m !! k = Some d -> cond (set_id (Some k) d) = false.
Proof.
  intros Hn k d Hk. destruct (cond (set_id (Some k) d)) eqn:Hc; [|reflexivity].
  destruct (find_one_found set_id cond m k d Hk Hc) as [x Hx]. congruence.
Qed.

Lemma find_user_by_email_unique w e k u :
  unique_emails w ->
  UserWorld.users w !! k = Some u -> User.email u = e ->
  find_one User.set_id (fun u0 => String.eqb (User.email u0) e) (UserWorld.users w)
  = Some (User.set_id (Some k) u).
Proof.
  intros Hu Hk He.
  destruct (find_one_found User.set_id (fun u0 => String.eqb (User.email u0) e)
              (UserWorld.users w) k u Hk) as [u' Hf].
  { simpl. now apply String.eqb_eq. }
  rewrite Hf. f_equal.
  apply find_one_sound in Hf. destruct Hf as (Hc & k' & d & Hk' & ->).
  simpl in Hc. apply String.eqb_eq in Hc.
  assert (k' = k) by (eapply Hu; [exact Hk' | exact Hk | congruence]).
  subst k'. congruence.
Qed.

(** What a successful registration did. *)
Lemma register_user_inv env user_data w resp w1 :
  UserService.register_user env user_data w = (Return resp, w1) ->
  exists i user,
    find_one User.set_id
      (fun u0 => String.eqb (User.email u0) (UserCreate.email user_data))
      (UserWorld.users w) = None
    /\ UserWorld.users w1 = <[i := user]> (UserWorld.users w)
    /\ User.id user = Some i
    /\ User.name user = UserCreate.name user_data
    /\ User.email user = UserCreate.email user_data
    /\ User.password_hash user
       = UserEnv.hash_password env (UserWorld.tick w) (UserCreate.password user_data)
    /\ User.is_active user = true
    /\ resp = UserService.to_response user.
Proof.
  unfold UserService.register_user, UserRepository.user_exists,
    UserRepository.create_user. unfold_u.
  destruct (find_one User.set_id _ (UserWorld.users w)) as [x|] eqn:Hf; simpl;
    [discriminate|].
  destruct (len_between 2 100 (UserCreate.name user_data)
            && UserEnv.is_email env (UserCreate.email user_data)); simpl;
    [|discriminate].
  intros [= <- <-]. eexists _, _. split; [reflexivity|]. simpl. repeat split.
Qed.

(** X13.  After a successful registration the user is stored under the
    returned id, active, with the submitted name and email, and
    [authenticate_user] on that email yields this user exactly for the
    passwords that verify against the hash of the registered one. *)
Theorem register_then_authenticate env user_data w resp w1 :
  UserService.register_user env user_data w = (Return resp, w1) ->
  exists u,
    UserWorld.users w1 !! UserResponse.id resp = Some u
    /\ User.email u = UserCreate.email user_data
    /\ User.name u = UserCreate.name user_data
    /\ User.is_active u = true
    /\ forall password,
         UserService.authenticate_user env (UserCreate.email user_data) password w1
         = (Return (if UserEnv.verify_password env password
                         (UserEnv.hash_password env (UserWorld.tick w)
                            (UserCreate.password user_data))
                    then Some u else None), w1).
Proof.
  intros H. apply register_user_inv in H.
  destruct H as (i & user & Hnone & Hw & Hid & Hname & Hemail & Hhash & Hact & ->).
  exists user. simpl. rewrite Hid. simpl.
  split; [rewrite Hw; apply lookup_insert_eq|].
  split; [exact Hemail|]. split; [exact Hname|]. split; [exact Hact|].
  intros password.
  unfold UserService.authenticate_user, UserRepository.get_user_by_email. unfold_u.
  assert (Hf : find_one User.set_id
                 (fun u0 => String.eqb (User.email u0) (UserCreate.email user_data))
                 (UserWorld.users w1) = Some user).
  { destruct (find_one_found User.set_id
                (fun u0 => String.eqb (User.email u0) (UserCreate.email user_data))
                (UserWorld.users w1) i user) as [u' Hf].
    { rewrite Hw. apply lookup_insert_eq. }
    { simpl. now apply String.eqb_eq. }
    rewrite Hf. f_equal.
    apply find_one_sound in Hf. destruct Hf as (Hc & k & d & Hk & ->).
    rewrite Hw, lookup_insert in Hk. case_decide as Hik.
    - injection Hk as <-. subst k. clear -Hid.
      destruct user as [uid ? ? ? ? ? ?]; simpl in Hid; subst uid; reflexivity.
    - exfalso. pose proof (find_one_None _ _ _ Hnone k d Hk) as Hn.
      simpl in Hc, Hn. congruence. }
  rewrite Hf. rewrite Hact, Hhash. simpl.
  destruct (UserEnv.verify_password env password _); reflexivity.
Qed.

(** X14.  [register_user] keeps email addresses unique among the stored
    users, whether it succeeds or raises. *)
Theorem register_user_keeps_emails_unique env user_data w :
  unique_emails w ->
  unique_emails (snd (UserService.register_user env user_data w)).
Proof.
  intros Hu.
  destruct (UserService.register_user env user_data w) as [[resp|e] w1] eqn:E.
  - apply register_user_inv in E.
    destruct E as (i & user & Hnone & Hw & _ & _ & Hemail & _).
    simpl. intros k1 k2 u1 u2. rewrite Hw, !lookup_insert.
    repeat case_decide; subst.
    + reflexivity.
    + intros [= <-] H2 He. exfalso.
      pose proof (find_one_None _ _ _ Hnone k2 u2 H2) as Hn. simpl in Hn.
      apply String.eqb_neq in Hn. congruence.
    + intros H1 [= <-] He. exfalso.
      pose proof (find_one_None _ _ _ Hnone k1 u1 H1) as Hn. simpl in Hn.
      apply String.eqb_neq in Hn. congruence.
    + apply Hu.
  - simpl.
    unfold UserService.register_user, UserRepository.user_exists,
      UserRepository.create_user in E. unfold_u.
    destruct (find_one User.set_id _ (UserWorld.users w)) as [x|]; simpl in E.
    + injection E as _ <-. exact Hu.
    + destruct (len_between 2 100 (UserCreate.name user_data)
                && UserEnv.is_email env (UserCreate.email user_data)); simpl in E;
        [discriminate|].
      injection E as _ <-. exact Hu.
Qed.


Lemma unique_emails_update w w' k u u' :
  unique_emails w ->
  UserWorld.users w !! k = Some u ->
  UserWorld.users w' = <[k := u']> (UserWorld.users w) ->
  User.email u' = User.email u ->
  unique_emails w'.
Proof.
  intros Hu Hk Hw He k1 k2 u1 u2. rewrite Hw, !lookup_insert.
  repeat case_decide; subst.
  - reflexivity.
  - intros [= <-] H2 E. eapply Hu; [exact Hk | exact H2 | congruence].
  - intros H1 [= <-] E. eapply Hu; [exact H1 | exact Hk | congruence].
  - apply Hu.
Qed.

(** X15.  [delete_user] deactivates the user and keeps the record, its
    email and its password hash.  Afterwards a login with that email
    raises 401 whatever the password, the profile is not found (404),
    and the email stays taken: registering it again raises 400. *)
Theorem deactivated_user_is_locked_out env user_id w u :
  unique_emails w ->
  UserWorld.users w !! user_id = Some u ->
  exists w' u',
    UserRepository.delete_user env user_id w = (Return true, w')
    /\ UserWorld.users w' = <[user_id := u']> (UserWorld.users w)
    /\ User.is_active u' = false
    /\ User.email u' = User.email u
    /\ User.password_hash u' = User.password_hash u
    /\ (forall env' password,
          UserService.login_user env' (User.email u) password w'
          = (Raise (HTTPException HTTP_401_UNAUTHORIZED "Incorrect email or password"), w'))
    /\ UserService.get_user_profile user_id w'
       = (Raise (HTTPException HTTP_404_NOT_FOUND "User not found"), w')
    /\ (forall env' user_data,
          UserCreate.email user_data = User.email u ->
          UserService.register_user env' user_data w'
          = (Raise (HTTPException HTTP_400_BAD_REQUEST
                      "User with this email already exists"), w')).
Proof.
  intros Hu Hget.
  unfold UserRepository.delete_user, get_document, UserRepository.save. unfold_u.
  rewrite Hget. simpl.
  eexists _, _. split; [reflexivity|]. simpl.
  split; [reflexivity|]. split; [reflexivity|]. split; [reflexivity|].
  split; [reflexivity|].
  set (u' := User.set_updated_at (UserEnv.utcnow env (UserWorld.tick w))
               (User.set_is_active false (User.set_id (Some user_id) u))).
  set (w' := UserWorld.set_users _ (UserWorld.next_tick w)).
  assert (Hw' : UserWorld.users w' = <[user_id := u']> (UserWorld.users w)) by reflexivity.
  assert (Hu' : unique_emails w').
  { eapply unique_emails_update; [exact Hu | exact Hget | exact Hw' | reflexivity]. }
  assert (Hget' : UserWorld.users w' !! user_id = Some u').
  { rewrite Hw'. apply lookup_insert_eq. }
  split; [|split].
  - intros env' password.
    unfold UserService.login_user, UserService.authenticate_user,
      UserRepository.get_user_by_email. unfold_u.
    rewrite (find_user_by_email_unique w' (User.email u) user_id u' Hu' Hget' eq_refl).
    reflexivity.
  - unfold UserService.get_user_profile, UserRepository.get_user_by_id, get_document.
    unfold_u. rewrite Hget'. reflexivity.
  - intros env' user_data He.
    apply (register_user_duplicate_email env' user_data w' user_id u' Hget').
    now rewrite He.
Qed.

(** X16.  [update_user_password] of an active user raises 400 and changes
    nothing when the current password does not verify.  When it does,
    the stored hash becomes the hash of the new password, name and
    email stay, and authentication is decided by the new hash. *)
Theorem update_user_password_effect env user_id password_data w u :
  unique_emails w ->
  UserWorld.users w !! user_id = Some u ->
  User.is_active u = true ->
  (UserEnv.verify_password env (UserPasswordUpdate.current_password password_data)
     (User.password_hash u) = false ->
   UserService.update_user_password env user_id password_data w
   = (Raise (HTTPException HTTP_400_BAD_REQUEST "Current password is incorrect"), w))
  /\ (UserEnv.verify_password env (UserPasswordUpdate.current_password password_data)
        (User.password_hash u) = true ->
      exists w' u',
        UserService.update_user_password env user_id password_data w
        = (Return "Password updated successfully", w')
        /\ UserWorld.users w' !! user_id = Some u'
        /\ User.email u' = User.email u
        /\ User.name u' = User.name u
        /\ User.password_hash u'
           = UserEnv.hash_password env (UserWorld.tick w)
               (UserPasswordUpdate.new_password password_data)
        /\ forall password,
             UserService.authenticate_user env (User.email u) password w'
             = (Return (if UserEnv.verify_password env password (User.password_hash u')
                        then Some u' else None), w')).
Proof.
  intros Hu Hget Hact.
  unfold UserService.update_user_password, UserRepository.get_user_by_id,
    UserRepository.update_user, get_document, UserRepository.save. unfold_u.
  rewrite Hget. simpl. rewrite Hact. simpl.
  split.
  - intros ->. reflexivity.
  - intros ->. simpl. rewrite Hget. simpl.
    eexists _, _. split; [reflexivity|]. simpl.
    split; [apply lookup_insert_eq|].
    split; [reflexivity|]. split; [reflexivity|]. split; [reflexivity|].
    intros password.
    set (u' := User.set_updated_at _ (User.set_password_hash _ _)).
    set (w' := UserWorld.set_users _ _).
    assert (Hw' : UserWorld.users w' = <[user_id := u']> (UserWorld.users w))
      by reflexivity.
    assert (Hu' : unique_emails w').
    { eapply unique_emails_update; [exact Hu | exact Hget | exact Hw' | reflexivity]. }
    assert (Hget' : UserWorld.users w' !! user_id = Some u').
    { rewrite Hw'. apply lookup_insert_eq. }
    unfold UserService.authenticate_user, UserRepository.get_user_by_email. unfold_u.
    rewrite (find_user_by_email_unique w' (User.email u) user_id u' Hu' Hget' eq_refl).
    simpl. rewrite Hact. simpl.
    destruct (UserEnv.verify_password env password _); reflexivity.
Qed.

(** ** Further statements at concrete inputs *)

Lemma check_product_availability_answers_witness :
  exists a w',
    ProductServiceClient.check_product_availability Fixture.env "A" 9 Fixture.world
    = (Return a, w')
    /\ Availability.available a = false
    /\ Availability.reason a = Some "Insufficient stock"
    /\ Availability.available_quantity a = 5%Z.
Proof.
  destruct (check_product_availability_answers Fixture.env "A" 9 Fixture.world)
    as (a & w' & E & _ & _ & Hp & _).
  destruct (Hp Fixture.widget eq_refl) as (Hav & _ & _ & Hins).
  destruct Hins as (Hr & Hq & _); [reflexivity | simpl; lia |].
  exists a, w'. split; [exact E|]. split; [rewrite Hav; reflexivity|].
  split; [exact Hr | exact Hq].
Defined.

Lemma create_order_unauthorized_witness :
  exists w1,
    OrderService.create_order Fixture.env Fixture.order_data "stolen" Fixture.world
    = (Raise (HTTPException HTTP_401_UNAUTHORIZED "Invalid or expired token"), w1)
    /\ OrderWorld.orders w1 = OrderWorld.orders Fixture.world.
Proof.
  destruct (UserServiceClient.verify_user_token Fixture.env "stolen" Fixture.world)
    as [r1 w1] eqn:E1.
  assert (Hr1 : r1 = Return None).
  { vm_compute in E1. now injection E1 as <- _. }
  subst r1.
  destruct (create_order_unauthorized Fixture.env Fixture.order_data "stolen"
              Fixture.world None w1 E1 eq_refl) as (H & F & _).
  exists w1. split; [exact H | apply F].
Defined.

Lemma create_order_succeeds_witness :
  exists resp w' o,
    OrderService.create_order Fixture.env Fixture.order_data "alice-token" Fixture.world
    = (Return resp, w')
    /\ OrderWorld.orders w' !! OrderResponse.id resp = Some o
    /\ Order.status o = OrderStatus.PENDING
    /\ Order.user_email o = "alice@example.com".
Proof.
  destruct (create_order_succeeds Fixture.env Fixture.order_data "alice-token"
              Fixture.world Fixture.alice)
    as (resp & w' & o & a & E & Hget & Hst & _ & _ & Hem & _).
  - reflexivity.
  - repeat constructor.
  - repeat constructor. intros n. exists Fixture.widget.
    split; [reflexivity|]. split; [reflexivity|]. simpl. lia.
  - exists resp, w', o. split; [exact E|]. split; [exact Hget|].
    split; [exact Hst | exact Hem].
Defined.

Lemma get_order_by_id_access_witness :
  exists w1,
    OrderService.get_order_by_id Fixture.env "oid0007" "bob-token"
      Fixture.world_with_order
    = (Raise (HTTPException HTTP_403_FORBIDDEN "Access denied"), w1)
    /\ OrderWorld.orders w1 = OrderWorld.orders Fixture.world_with_order.
Proof.
  destruct (UserServiceClient.verify_user_token Fixture.env "bob-token"
              Fixture.world_with_order) as [r1 w1] eqn:E1.
  assert (Hr1 : r1 = Return (Some (JObject Fixture.bob))).
  { vm_compute in E1. now injection E1 as <- _. }
  subst r1.
  destruct (OrderWorld.orders Fixture.world_with_order !! "oid0007") as [o|] eqn:Hget.
  2:{ vm_compute in Hget. discriminate. }
  assert (Hu : Order.user_id o = "u1").
  { vm_compute in Hget. now injection Hget as <-. }
  destruct (get_order_by_id_access Fixture.env "oid0007" "bob-token"
              Fixture.world_with_order _ _ E1) as (Ho & _ & _ & H).
  destruct (H Fixture.bob o eq_refl Hget) as (H403 & _).
  exists w1. split; [|exact Ho].
  apply H403. rewrite Hu. discriminate.
Defined.

Lemma update_payment_status_effect_witness :
  exists resp w' o',
    OrderService.update_payment_status Fixture.env "oid0007"
      {| PaymentUpdate.payment_status := PaymentStatus.PAID;
         PaymentUpdate.payment_method := Some "card";
         PaymentUpdate.payment_transaction_id := Some "" |}
      Fixture.world_with_order = (Return resp, w')
    /\ OrderWorld.orders w' !! "oid0007" = Some o'
    /\ Order.payment_status o' = PaymentStatus.PAID
    /\ Order.status o' = OrderStatus.PENDING
    /\ Order.payment_method o' = Some "card"
    /\ Order.payment_transaction_id o' = None.
Proof.
  destruct (OrderWorld.orders Fixture.world_with_order !! "oid0007") as [o|] eqn:Hget.
  2:{ vm_compute in Hget. discriminate. }
  assert (Ho : Order.status o = OrderStatus.PENDING
               /\ Order.payment_transaction_id o = None).
  { vm_compute in Hget. injection Hget as <-. split; reflexivity. }
  destruct Ho as (Hs & Ht).
  destruct (proj2 (update_payment_status_effect Fixture.env "oid0007"
              {| PaymentUpdate.payment_status := PaymentStatus.PAID;
                 PaymentUpdate.payment_method := Some "card";
                 PaymentUpdate.payment_transaction_id := Some "" |}
              Fixture.world_with_order) o Hget)
    as (resp & w' & o' & E & Hget' & Hpay & Hst & _ & _ & _ & Htx & Hpm & _).
  exists resp, w', o'. split; [exact E|]. split; [exact Hget'|].
  split; [exact Hpay|]. split; [now rewrite Hst|].
  split; [exact Hpm|]. now rewrite Htx.
Defined.

Lemma kafka_start_then_send_witness :
  exists w1 w2,
    KafkaProducer.start (OrderEnv.with_send_and_wait (fun _ _ _ _ => None) Fixture.env)
      (OrderWorld.set_producer false Fixture.world) = (Return tt, w1)
    /\ KafkaProducer.send_event
         (OrderEnv.with_send_and_wait (fun _ _ _ _ => None) Fixture.env)
         "order-events" [("order_id", VStr "oid0007")] (VStr "oid0007") w1
       = (Return tt, w2)
    /\ length (OrderWorld.delivered w2) = 1%nat.
Proof.
  destruct (kafka_start_then_send
              (OrderEnv.with_send_and_wait (fun _ _ _ _ => None) Fixture.env)
              "order-events" [("order_id", VStr "oid0007")] (VStr "oid0007")
              (OrderWorld.set_producer false Fixture.world) eq_refl)
    as (w1 & w2 & E1 & E2 & _ & Hd).
  exists w1, w2. split; [exact E1|]. split; [exact E2|].
  rewrite Hd. reflexivity.
Defined.

Lemma update_stock_composes_witness :
  exists p1 w1 p2 w2,
    ProductRepository.update_stock Fixture.product_env "p1" (-3) Fixture.product_world
    = (Return (Some p1), w1)
    /\ ProductRepository.update_stock Fixture.product_env "p1" 5 w1
       = (Return (Some p2), w2)
    /\ Product.stock_quantity p2 = 5%Z
    /\ Product.is_available p2 = true.
Proof.
  destruct (update_stock_composes Fixture.product_env "p1" (-3) 5 Fixture.product_world
              Fixture.stored_widget)
    as (p1 & w1 & p2 & w2 & E1 & E2 & _ & Hs & Ha & _).
  - reflexivity.
  - simpl. lia.
  - simpl. lia.
  - exists p1, w1, p2, w2. split; [exact E1|]. split; [exact E2|].
    split; [exact Hs | exact Ha].
Defined.

Lemma soft_deleted_product_witness :
  exists w',
    ProductService.delete_product Fixture.product_env "p1" Fixture.product_world
    = (Return "Product deleted successfully", w')
    /\ ProductService.get_product_by_id "p1" w'
       = (Raise (HTTPException HTTP_404_NOT_FOUND "Product not found"), w')
    /\ ProductService.create_product Fixture.product_env Fixture.another_widget w'
       = (Raise (HTTPException HTTP_400_BAD_REQUEST
                   "Product with this SKU already exists"), w').
Proof.
  destruct (soft_deleted_product Fixture.product_env "p1" Fixture.product_world
              Fixture.stored_widget eq_refl)
    as (w' & p' & E & _ & _ & _ & _ & _ & H404 & Hsku).
  exists w'. split; [exact E|]. split; [exact H404|].
  apply (Hsku Fixture.product_env Fixture.another_widget "W-1");
    [reflexivity | discriminate | reflexivity].
Defined.

Lemma stock_never_negative_witness :
  stock_ok Fixture.product_world
  /\ stock_ok (snd (ProductService.update_stock Fixture.product_env "p1" (-4)
                      Fixture.product_world))
  /\ stock_ok (snd (ProductService.create_product Fixture.product_env
                      Fixture.another_widget Fixture.product_world)).
Proof.
  assert (H : stock_ok Fixture.product_world).
  { intros k p Hk. simpl in Hk. apply lookup_singleton_Some in Hk as [_ <-]. simpl. lia. }
  split; [exact H|].
  destruct (stock_never_negative Fixture.product_env Fixture.product_world H)
    as (Hc & _ & _ & Hs).
  split; [apply Hs | apply Hc].
Defined.

Lemma register_then_authenticate_witness :
  exists resp w1 u,
    UserService.register_user Fixture.user_env
      {| UserCreate.name := "Bob"; UserCreate.email := "bob@example.com";
         UserCreate.password := "tr0ub4dor" |} Fixture.user_world = (Return resp, w1)
    /\ UserService.authenticate_user Fixture.user_env "bob@example.com" "tr0ub4dor" w1
       = (Return (Some u), w1)
    /\ UserService.authenticate_user Fixture.user_env "bob@example.com" "guess" w1
       = (Return None, w1).
Proof.
  destruct (UserService.register_user Fixture.user_env
              {| UserCreate.name := "Bob"; UserCreate.email := "bob@example.com";
                 UserCreate.password := "tr0ub4dor" |} Fixture.user_world)
    as [[resp|e] w1] eqn:E.
  2:{ vm_compute in E. discriminate. }
  destruct (register_then_authenticate _ _ _ _ _ E) as (u & _ & _ & _ & _ & Hauth).
  exists resp, w1, u. split; [reflexivity|].
  split; [apply (Hauth "tr0ub4dor") | apply (Hauth "guess")].
Defined.

Lemma register_user_keeps_emails_unique_witness :
  unique_emails Fixture.user_world
  /\ unique_emails
       (snd (UserService.register_user Fixture.user_env Fixture.second_alice
               Fixture.user_world)).
Proof.
  assert (H : unique_emails Fixture.user_world).
  { intros k1 k2 u1 u2 H1 H2 _. simpl in H1, H2.
    apply lookup_singleton_Some in H1 as [<- _].
    apply lookup_singleton_Some in H2 as [<- _]. reflexivity. }
  split; [exact H|].
  apply (register_user_keeps_emails_unique Fixture.user_env Fixture.second_alice
           Fixture.user_world H).
Defined.

Lemma deactivated_user_is_locked_out_witness :
  exists w',
    UserRepository.delete_user Fixture.user_env "u1" Fixture.user_world
    = (Return true, w')
    /\ UserService.login_user Fixture.user_env "alice@example.com" "correct horse" w'
       = (Raise (HTTPException HTTP_401_UNAUTHORIZED "Incorrect email or password"), w')
    /\ UserService.register_user Fixture.user_env Fixture.second_alice w'
       = (Raise (HTTPException HTTP_400_BAD_REQUEST
                   "User with this email already exists"), w').
Proof.
  assert (H : unique_emails Fixture.user_world).
  { intros k1 k2 u1 u2 H1 H2 _. simpl in H1, H2.
    apply lookup_singleton_Some in H1 as [<- _].
    apply lookup_singleton_Some in H2 as [<- _]. reflexivity. }
  destruct (deactivated_user_is_locked_out Fixture.user_env "u1" Fixture.user_world
              Fixture.stored_alice H eq_refl)
    as (w' & u' & E & _ & _ & _ & _ & Hlogin & _ & Hreg).
  exists w'. split; [exact E|].
  split; [apply (Hlogin Fixture.user_env "correct horse")|].
  apply (Hreg Fixture.user_env Fixture.second_alice). reflexivity.
Defined.

Lemma update_user_password_effect_witness :
  UserService.update_user_password Fixture.user_env "u1"
    {| UserPasswordUpdate.current_password := "guess";
       UserPasswordUpdate.new_password := "battery staple" |} Fixture.user_world
  = (Raise (HTTPException HTTP_400_BAD_REQUEST "Current password is incorrect"),
     Fixture.user_world)
  /\ exists w' u',
       UserService.update_user_password Fixture.user_env "u1"
         {| UserPasswordUpdate.current_password := "correct horse";
            UserPasswordUpdate.new_password := "battery staple" |} Fixture.user_world
       = (Return "Password updated successfully", w')
       /\ UserService.authenticate_user Fixture.user_env "alice@example.com"
            "battery staple" w' = (Return (Some u'), w')
       /\ UserService.authenticate_user Fixture.user_env "alice@example.com"
            "correct horse" w' = (Return None, w').
Proof.
  assert (H : unique_emails Fixture.user_world).
  { intros k1 k2 u1 u2 H1 H2 _. simpl in H1, H2.
    apply lookup_singleton_Some in H1 as [<- _].
    apply lookup_singleton_Some in H2 as [<- _]. reflexivity. }
  split.
  - apply (proj1 (update_user_password_effect Fixture.user_env "u1"
                    {| UserPasswordUpdate.current_password := "guess";
                       UserPasswordUpdate.new_password := "battery staple" |}
                    Fixture.user_world Fixture.stored_alice H eq_refl eq_refl)).
    reflexivity.
  - destruct (proj2 (update_user_password_effect Fixture.user_env "u1"
                {| UserPasswordUpdate.current_password := "correct horse";
                   UserPasswordUpdate.new_password := "battery staple" |}
                Fixture.user_world Fixture.stored_alice H eq_refl eq_refl))
      as (w' & u' & E & _ & _ & _ & Hh & Hauth); [reflexivity|].
    exists w', u'. split; [exact E|].
    pose proof (Hauth "battery staple") as H1.
    pose proof (Hauth "correct horse") as H2.
    rewrite Hh in H1, H2. simpl in H1, H2.
    split; [exact H1 | exact H2].
Defined.

(** ** The notification service *)

Ltac unfold_n :=
  cbv beta iota zeta delta
    [bind ret raise try_except gets modify NotificationIO.ask NotificationIO.logger
     NotificationIO.store] in *.

Lemma no_failure_recorded_refl w : no_failure_recorded w w.
Proof.
  intros k. destruct (NotificationWorld.notifications w !! k); [split|]; auto.
Qed.

Lemma no_failure_recorded_trans w1 w2 w3 :
  no_failure_recorded w1 w2 -> no_failure_recorded w2 w3 -> no_failure_recorded w1 w3.
Proof.
  intros H1 H2 k. specialize (H1 k). specialize (H2 k).
  destruct (NotificationWorld.notifications w1 !! k),
    (NotificationWorld.notifications w2 !! k),
    (NotificationWorld.notifications w3 !! k); try tauto.
  destruct H1 as [R1 S1], H2 as [R2 S2]. split; [congruence | tauto].
Qed.

Lemma no_failure_recorded_same w w' :
  NotificationWorld.notifications w' = NotificationWorld.notifications w ->
  no_failure_recorded w w'.
Proof.
  intros E k. rewrite E.
  destruct (NotificationWorld.notifications w !! k); [split|]; auto.
Qed.

Lemma notification_patch_id u n :
  Notification.id (NotificationRepository.apply_patch u n) = Notification.id n.
Proof.
  unfold NotificationRepository.apply_patch.
  destruct u as [s up se de rc]. destruct s, up, se, de, rc; reflexivity.
Qed.

(** [update_notification] never raises; it changes nothing, or replaces
    the notification by the patched one. *)
Lemma update_notification_total env notification_id u w :
  exists r w',
    NotificationRepository.update_notification env notification_id u w = (Return r, w')
    /\ (NotificationWorld.notifications w' = NotificationWorld.notifications w
        \/ exists n,
             NotificationWorld.notifications w !! notification_id = Some n
             /\ NotificationWorld.notifications w'
                = <[notification_id :=
                      NotificationRepository.apply_patch u
                        (Notification.set_id (Some notification_id) n)]>
                    (NotificationWorld.notifications w)).
Proof.
  unfold NotificationRepository.update_notification, NotificationDocument.get,
    NotificationDocument.save, get_document.
  unfold_n. simpl.
  destruct (NotificationEnv.store_fault env (NotificationWorld.tick w)) as [e|];
    [eexists _, _; split; [reflexivity | left; reflexivity]|].
  simpl.
  destruct (NotificationWorld.notifications w !! notification_id) as [n|] eqn:Hget;
    simpl; [|eexists _, _; split; [reflexivity | left; reflexivity]].
  rewrite notification_patch_id. simpl.
  destruct (NotificationEnv.store_fault env (S (NotificationWorld.tick w))) as [e|];
    simpl; eexists _, _; (split; [reflexivity|]).
  - left. reflexivity.
  - right. exists n. split; reflexivity.
Qed.

Lemma update_notification_status_total env notification_id status delivered_at w :
  exists r w',
    NotificationService.update_notification_status env notification_id status
      delivered_at w = (Return r, w')
    /\ (status <> NotificationStatus.FAILED -> no_failure_recorded w w').
Proof.
  unfold NotificationService.update_notification_status.
  set (m1 := NotificationIO.ask (NotificationEnv.utcnow env)).
  assert (E1 : m1 w = (Return (NotificationEnv.utcnow env (NotificationWorld.tick w)),
                       NotificationWorld.next_tick w)) by reflexivity.
  rewrite (bind_Return _ _ _ _ _ E1).
  match goal with
  | |- context [Py.bind (if ?c then ?a else ?b) _] =>
      assert (E2 : exists s w2, (if c then a else b) (NotificationWorld.next_tick w)
                                = (Return s, w2)
                                /\ NotificationWorld.notifications w2
                                   = NotificationWorld.notifications w)
  end.
  { destruct (bool_decide _); eexists _, _; split; reflexivity. }
  destruct E2 as (s & w2 & E2 & N2).
  rewrite (bind_Return _ _ _ _ _ E2).
  match goal with
  | |- context [NotificationRepository.update_notification env notification_id ?u] =>
      destruct (update_notification_total env notification_id u w2)
        as (r & w' & E3 & H3); set (patch := u) in *
  end.
  exists r, w'. split; [exact E3|].
  intros Hnf. destruct H3 as [H3 | (n & Hget & H3)].
  - apply no_failure_recorded_same. congruence.
  - intros k. rewrite H3, lookup_insert. rewrite N2 in Hget.
    destruct (decide (notification_id = k)) as [Hk|Hk].
    + subst k. rewrite Hget. subst patch.
      unfold NotificationRepository.apply_patch. simpl.
      destruct s, (if bool_decide (status = NotificationStatus.DELIVERED)
                   then delivered_at else None); simpl; split; try reflexivity;
        intros; congruence.
    + rewrite N2. destruct (NotificationWorld.notifications w !! k); [split|]; auto.
Qed.

Lemma logger_Return l text a w :
  NotificationIO.logger l text a w
  = (Return tt, NotificationWorld.add_log {| levelname := l; msg := text; args := a |} w).
Proof. reflexivity. Qed.

Ltac step_logger :=
  rewrite (bind_Return _ _ _ _ _ (logger_Return _ _ _ _)); cbv beta.

Ltac step_status E F :=
  match goal with
  | |- context [Py.bind (NotificationService.update_notification_status ?env ?i ?s ?d)
                  ?k ?w] =>
      destruct (update_notification_status_total env i s d w) as (? & ? & E & F);
      rewrite (bind_Return _ _ _ _ _ E); cbv beta
  end.

Lemma send_email_total env notification w :
  exists w',
    NotificationService._send_email_notification env notification w = (Return tt, w')
    /\ no_failure_recorded w w'.
Proof.
  unfold NotificationService._send_email_notification.
  do 3 step_logger. step_status E1 F1.
  match goal with
  | |- context [Py.bind (NotificationIO.ask ?f) ?k ?w0] =>
      rewrite (bind_Return (NotificationIO.ask f) k w0 _ _ eq_refl); cbv beta
  end.
  step_status E2 F2.
  eexists. split; [reflexivity|].
  eapply no_failure_recorded_trans; [apply F1; discriminate|].
  eapply no_failure_recorded_trans; [|apply no_failure_recorded_same; reflexivity].
  apply F2. discriminate.
Qed.

Lemma send_sms_total env notification w :
  exists w',
    NotificationService._send_sms_notification env notification w = (Return tt, w')
    /\ no_failure_recorded w w'.
Proof.
  unfold NotificationService._send_sms_notification.
  do 2 step_logger. step_status E1 F1.
  eexists. split; [reflexivity|].
  eapply no_failure_recorded_trans; [apply F1; discriminate|].
  apply no_failure_recorded_same. reflexivity.
Qed.

Lemma send_push_total env notification w :
  exists w',
    NotificationService._send_push_notification env notification w = (Return tt, w')
    /\ no_failure_recorded w w'.
Proof.
  unfold NotificationService._send_push_notification.
  do 2 step_logger. step_status E1 F1.
  eexists. split; [reflexivity|].
  eapply no_failure_recorded_trans; [apply F1; discriminate|].
  apply no_failure_recorded_same. reflexivity.
Qed.

Lemma send_in_app_total env notification w :
  exists w',
    NotificationService._send_in_app_notification env notification w = (Return tt, w')
    /\ no_failure_recorded w w'.
Proof.
  unfold NotificationService._send_in_app_notification.
  do 2 step_logger. step_status E1 F1.
  eexists. split; [reflexivity|].
  eapply no_failure_recorded_trans; [apply F1; discriminate|].
  apply no_failure_recorded_same. reflexivity.
Qed.

Lemma send_notification_total env notification w :
  exists w',
    NotificationService._send_notification env notification w = (Return tt, w')
    /\ no_failure_recorded w w'.
Proof.
  unfold NotificationService._send_notification, try_except.
  destruct (Notification.type notification).
  - destruct (send_email_total env notification w) as (w' & -> & F). eauto.
  - destruct (send_sms_total env notification w) as (w' & -> & F). eauto.
  - destruct (send_push_total env notification w) as (w' & -> & F). eauto.
  - destruct (send_in_app_total env notification w) as (w' & -> & F). eauto.
Qed.

Lemma same_notification_refl n : same_notification n n.
Proof. repeat split. Qed.

Lemma same_notification_trans a b c :
  same_notification a b -> same_notification b c -> same_notification a c.
Proof.
  unfold same_notification. intros H1 H2.
  destruct H1 as (?&?&?&?&?&?&?&?&?&?&?&?), H2 as (?&?&?&?&?&?&?&?&?&?&?&?).
  repeat split; congruence.
Qed.

Lemma update_notification_ok env notification_id u w n :
  store_ok env ->
  NotificationWorld.notifications w !! notification_id = Some n ->
  NotificationRepository.update_notification env notification_id u w
  = (Return (Some (NotificationRepository.apply_patch u
                     (Notification.set_id (Some notification_id) n))),
     NotificationWorld.set_notifications
       (fun m => <[notification_id :=
                     NotificationRepository.apply_patch u
                       (Notification.set_id (Some notification_id) n)]> m)
       (NotificationWorld.next_tick (NotificationWorld.next_tick w))).
Proof.
  intros Hok Hget.
  unfold NotificationRepository.update_notification, NotificationDocument.get,
    NotificationDocument.save, get_document.
  unfold_n. simpl. rewrite Hok. simpl. rewrite Hget. simpl.
  rewrite notification_patch_id. simpl. rewrite Hok. reflexivity.
Qed.

(** The effect of one status update when the store answers. *)
Lemma update_notification_status_ok env notification_id status delivered_at w n :
  store_ok env ->
  NotificationWorld.notifications w !! notification_id = Some n ->
  exists n' w',
    NotificationService.update_notification_status env notification_id status
      delivered_at w = (Return (Some n'), w')
    /\ NotificationWorld.notifications w'
       = <[notification_id := n']> (NotificationWorld.notifications w)
    /\ Notification.id n' = Some notification_id
    /\ Notification.status n' = status
    /\ same_notification n n'
    /\ Notification.sent_at n'
       = (if bool_decide (status = NotificationStatus.SENT)
          then Some (NotificationEnv.utcnow env (S (NotificationWorld.tick w)))
          else Notification.sent_at n)
    /\ Notification.delivered_at n'
       = (if bool_decide (status = NotificationStatus.DELIVERED)
          then match delivered_at with
               | Some t => Some t
               | None => Notification.delivered_at n
               end
          else Notification.delivered_at n).
Proof.
  intros Hok Hget.
  unfold NotificationService.update_notification_status.
  rewrite (bind_Return (NotificationIO.ask (NotificationEnv.utcnow env)) _ w _ _ eq_refl).
  cbv beta.
  destruct status; simpl bool_decide; cbv iota.
  2:{ rewrite (bind_Return
                 (Py.bind (NotificationIO.ask (NotificationEnv.utcnow env))
                    (fun t => ret (Some t))) _ (NotificationWorld.next_tick w) _ _ eq_refl).
      cbv beta.
      erewrite update_notification_ok; [|exact Hok | exact Hget].
      eexists _, _. split; [reflexivity|]. simpl. repeat split. }
  all: rewrite (bind_Return (ret None) _ (NotificationWorld.next_tick w) _ _ eq_refl);
    cbv beta;
    (erewrite update_notification_ok; [|exact Hok | exact Hget]);
    eexists _, _; (split; [reflexivity|]); simpl; try (repeat split; fail).
  destruct delivered_at; simpl; repeat split.
Qed.

(** The effect of sending when the store answers: the stored
    notification reaches the final status of the type. *)
Lemma send_notification_ok env notification k n w :
  store_ok env ->
  Notification.id notification = Some k ->
  NotificationWorld.notifications w !! k = Some n ->
  exists n' w',
    NotificationService._send_notification env notification w = (Return tt, w')
    /\ NotificationWorld.notifications w' = <[k := n']> (NotificationWorld.notifications w)
    /\ Notification.id n' = Some k
    /\ Notification.status n' = sent_status (Notification.type notification)
    /\ same_notification n n'
    /\ is_Some (Notification.sent_at n')
    /\ (if bool_decide (Notification.type notification = NotificationType.EMAIL)
        then is_Some (Notification.delivered_at n')
        else Notification.delivered_at n' = Notification.delivered_at n).
Proof.
  intros Hok Hid Hget.
  unfold NotificationService._send_notification, try_except.
  destruct (Notification.type notification) eqn:Hty;
    unfold NotificationService._send_email_notification,
      NotificationService._send_sms_notification,
      NotificationService._send_push_notification,
      NotificationService._send_in_app_notification;
    rewrite Hid; simpl str_opt.
  - do 3 step_logger.
    match goal with
    | |- context [Py.bind (NotificationService.update_notification_status env k ?s ?d)
                    ?c ?w0] =>
        destruct (update_notification_status_ok env k s d w0 n Hok Hget)
          as (n1 & w1 & E1 & W1 & I1 & S1 & C1 & T1 & D1);
        rewrite (bind_Return _ _ _ _ _ E1); cbv beta
    end.
    match goal with
    | |- context [Py.bind (NotificationIO.ask ?f) ?c ?w0] =>
        rewrite (bind_Return (NotificationIO.ask f) c w0 _ _ eq_refl); cbv beta
    end.
    assert (Hget1 : NotificationWorld.notifications (NotificationWorld.next_tick w1) !! k
                    = Some n1).
    { simpl. rewrite W1. apply lookup_insert_eq. }
    match goal with
    | |- context [Py.bind (NotificationService.update_notification_status env k ?s ?d)
                    ?c ?w0] =>
        destruct (update_notification_status_ok env k s d w0 n1 Hok Hget1)
          as (n2 & w2 & E2 & W2 & I2 & S2 & C2 & T2 & D2);
        rewrite (bind_Return _ _ _ _ _ E2); cbv beta
    end.
    exists n2. eexists. split; [reflexivity|]. simpl.
    split. { rewrite W2. simpl. rewrite W1. apply insert_insert_eq. }
    split; [exact I2|]. split; [exact S2|].
    split; [eapply same_notification_trans; eassumption|].
    split. { rewrite T2, T1. simpl. eexists. reflexivity. }
    rewrite D2. simpl. eexists. reflexivity.
  - do 2 step_logger.
    match goal with
    | |- context [Py.bind (NotificationService.update_notification_status env k ?s ?d)
                    ?c ?w0] =>
        destruct (update_notification_status_ok env k s d w0 n Hok Hget)
          as (n1 & w1 & E1 & W1 & I1 & S1 & C1 & T1 & D1);
        rewrite (bind_Return _ _ _ _ _ E1); cbv beta
    end.
    exists n1. eexists. split; [reflexivity|]. simpl.
    split; [exact W1|]. split; [exact I1|]. split; [exact S1|]. split; [exact C1|].
    split; [rewrite T1; simpl; eexists; reflexivity | exact D1].
  - do 2 step_logger.
    match goal with
    | |- context [Py.bind (NotificationService.update_notification_status env k ?s ?d)
                    ?c ?w0] =>
        destruct (update_notification_status_ok env k s d w0 n Hok Hget)
          as (n1 & w1 & E1 & W1 & I1 & S1 & C1 & T1 & D1);
        rewrite (bind_Return _ _ _ _ _ E1); cbv beta
    end.
    exists n1. eexists. split; [reflexivity|]. simpl.
    split; [exact W1|]. split; [exact I1|]. split; [exact S1|]. split; [exact C1|].
    split; [rewrite T1; simpl; eexists; reflexivity | exact D1].
  - do 2 step_logger.
    match goal with
    | |- context [Py.bind (NotificationService.update_notification_status env k ?s ?d)
                    ?c ?w0] =>
        destruct (update_notification_status_ok env k s d w0 n Hok Hget)
          as (n1 & w1 & E1 & W1 & I1 & S1 & C1 & T1 & D1);
        rewrite (bind_Return _ _ _ _ _ E1); cbv beta
    end.
    exists n1. eexists. split; [reflexivity|]. simpl.
    split; [exact W1|]. split; [exact I1|]. split; [exact S1|]. split; [exact C1|].
    split; [rewrite T1; simpl; eexists; reflexivity | exact D1].
Qed.

Lemma in_strings_member type :
  PyValue.in_strings (VStr (NotificationType.value type))
    (map NotificationType.value NotificationType.members) = true.
Proof. destruct type; reflexivity. Qed.

Lemma of_value_value type :
  NotificationType.of_value (NotificationType.value type) = Some type.
Proof. destruct type; reflexivity. Qed.

Lemma or_utcnow_Return env supplied w :
  exists t w',
    NotificationDocument.or_utcnow env supplied w = (Return t, w')
    /\ NotificationWorld.notifications w' = NotificationWorld.notifications w.
Proof. destruct supplied; eexists _, _; split; reflexivity. Qed.

Lemma repository_create_notification_invalid env d w :
  NotificationDocument.type_field (NotificationData.type d) = None
  \/ NotificationDocument.str_field env (NotificationData.recipient d) = None
  \/ NotificationDocument.str_field env (NotificationData.source_service d) = None ->
  exists w',
    NotificationRepository.create_notification env d w
    = (Raise (Error "ValidationError" "Notification"), w')
    /\ NotificationWorld.notifications w' = NotificationWorld.notifications w.
Proof.
  intros Hbad.
  unfold NotificationRepository.create_notification, NotificationDocument.new.
  destruct (or_utcnow_Return env (NotificationData.created_at d) w)
    as (t1 & w1 & E1 & N1).
  destruct (or_utcnow_Return env (NotificationData.updated_at d) w1)
    as (t2 & w2 & E2 & N2).
  exists w2. split; [|congruence].
  apply bind_Raise.
  rewrite (bind_Return _ _ _ _ _ E1). rewrite (bind_Return _ _ _ _ _ E2).
  destruct Hbad as [-> | [-> | ->]]; [reflexivity | |].
  - destruct (NotificationDocument.type_field _); reflexivity.
  - destruct (NotificationDocument.type_field _); [|reflexivity].
    destruct (NotificationDocument.str_field env (NotificationData.recipient d));
      reflexivity.
Qed.

Lemma repository_create_notification_ok env d w type recipient source_service :
  store_ok env ->
  NotificationDocument.type_field (NotificationData.type d) = Some type ->
  NotificationDocument.str_field env (NotificationData.recipient d) = Some recipient ->
  NotificationDocument.str_field env (NotificationData.source_service d)
  = Some source_service ->
  exists n i w',
    NotificationRepository.create_notification env d w = (Return n, w')
    /\ Notification.id n = Some i
    /\ NotificationWorld.notifications w' = <[i := n]> (NotificationWorld.notifications w)
    /\ Notification.type n = type
    /\ Notification.recipient n = recipient
    /\ Notification.source_service n = source_service
    /\ Notification.subject n = NotificationData.subject d
    /\ Notification.message n = NotificationData.message d
    /\ Notification.status n
       = default NotificationStatus.PENDING (NotificationData.status d)
    /\ Notification.event_type n = NotificationData.event_type d
    /\ Notification.event_data n = default [] (NotificationData.event_data d)
    /\ Notification.priority n = default 1%Z (NotificationData.priority d)
    /\ Notification.retry_count n = default 0%Z (NotificationData.retry_count d)
    /\ Notification.max_retries n = default 3%Z (NotificationData.max_retries d)
    /\ Notification.sent_at n = NotificationData.sent_at d
    /\ Notification.delivered_at n = NotificationData.delivered_at d.
Proof.
  intros Hok Hty Hre Hso.
  unfold NotificationRepository.create_notification, NotificationDocument.new,
    NotificationDocument.insert.
  rewrite Hty, Hre, Hso.
  destruct (or_utcnow_Return env (NotificationData.created_at d) w)
    as (t1 & w1 & E1 & N1).
  destruct (or_utcnow_Return env (NotificationData.updated_at d) w1)
    as (t2 & w2 & E2 & N2).
  match goal with
  | |- context [Py.bind (Py.bind ?m ?c) ?c2] =>
      assert (E : exists n0, Py.bind m c w = (Return n0, w2)
                /\ n0 = {| Notification.id := None;
                           Notification.type := type;
                           Notification.recipient := recipient;
                           Notification.subject := NotificationData.subject d;
                           Notification.message := NotificationData.message d;
                           Notification.status :=
                             default NotificationStatus.PENDING (NotificationData.status d);
                           Notification.sent_at := NotificationData.sent_at d;
                           Notification.delivered_at := NotificationData.delivered_at d;
                           Notification.event_type := NotificationData.event_type d;
                           Notification.event_data :=
                             default [] (NotificationData.event_data d);
                           Notification.source_service := source_service;
                           Notification.template_id := NotificationData.template_id d;
                           Notification.priority :=
                             default 1%Z (NotificationData.priority d);
                           Notification.retry_count :=
                             default 0%Z (NotificationData.retry_count d);
                           Notification.max_retries :=
                             default 3%Z (NotificationData.max_retries d);
                           Notification.created_at := t1;
                           Notification.updated_at := t2 |})
  end.
  { eexists. rewrite (bind_Return _ _ _ _ _ E1). rewrite (bind_Return _ _ _ _ _ E2).
    split; reflexivity. }
  destruct E as (n0 & E & Hn0).
  rewrite (bind_Return _ _ _ _ _ E).
  unfold_n. rewrite Hok. simpl.
  eexists _, _, _. split; [reflexivity|]. simpl.
  split; [reflexivity|]. split; [now rewrite N2, N1|].
  subst n0. simpl. repeat split.
Qed.

(** X18.  [create_notification] stores nothing when it rejects its
    data.  A type that is not one of the four type names raises
    [ValueError] before the store or the clock is consulted; a
    recipient or a source service that fails the validation of a
    string field raises [ValidationError]. *)
Theorem create_notification_rejects env notification_data w :
  (PyValue.in_strings (NotificationData.type notification_data)
     ["email"; "sms"; "push"; "in_app"] = false ->
   exists w',
     NotificationService.create_notification env notification_data w
     = (Raise (Error "ValueError"
                 ("Invalid notification type: "
                  +:+ PyValue.str (NotificationEnv.repr env)
                        (NotificationData.type notification_data))), w')
     /\ NotificationWorld.notifications w' = NotificationWorld.notifications w
     /\ NotificationWorld.tick w' = NotificationWorld.tick w)
  /\ (PyValue.in_strings (NotificationData.type notification_data)
        ["email"; "sms"; "push"; "in_app"] = true ->
      NotificationDocument.str_field env (NotificationData.recipient notification_data)
      = None
      \/ NotificationDocument.str_field env
           (NotificationData.source_service notification_data) = None ->
      exists w',
        NotificationService.create_notification env notification_data w
        = (Raise (Error "ValidationError" "Notification"), w')
        /\ NotificationWorld.notifications w' = NotificationWorld.notifications w).
Proof.
  split.
  - intros Hty. unfold NotificationService.create_notification.
    change (map NotificationType.value NotificationType.members)
      with ["email"; "sms"; "push"; "in_app"].
    rewrite Hty. simpl negb. cbv iota. unfold_n. simpl.
    eexists. split; [reflexivity|]. split; reflexivity.
  - intros Hty Hbad. unfold NotificationService.create_notification.
    change (map NotificationType.value NotificationType.members)
      with ["email"; "sms"; "push"; "in_app"].
    rewrite Hty. simpl negb. cbv iota. unfold try_except.
    rewrite (bind_Return (ret tt) _ w _ _ eq_refl). cbv beta.
    destruct (repository_create_notification_invalid env notification_data w)
      as (w1 & E & N1); [right; exact Hbad|].
    rewrite (bind_Raise _ _ _ _ _ E). unfold_n. simpl.
    eexists. split; [reflexivity|]. exact N1.
Qed.

Lemma create_notification_ok env notification_data w type recipient source_service :
  store_ok env ->
  NotificationData.type notification_data = VStr (NotificationType.value type) ->
  NotificationData.recipient notification_data = VStr recipient ->
  NotificationData.source_service notification_data = VStr source_service ->
  exists n i stored w',
    NotificationService.create_notification env notification_data w = (Return n, w')
    /\ Notification.id n = Some i
    /\ NotificationWorld.notifications w'
       = <[i := stored]> (NotificationWorld.notifications w)
    /\ Notification.status n
       = default NotificationStatus.PENDING (NotificationData.status notification_data)
    /\ Notification.status stored = sent_status type
    /\ is_Some (Notification.sent_at stored)
    /\ (type = NotificationType.EMAIL -> is_Some (Notification.delivered_at stored))
    /\ same_notification n stored
    /\ Notification.type n = type
    /\ Notification.recipient n = recipient
    /\ Notification.source_service n = source_service
    /\ Notification.subject n = NotificationData.subject notification_data
    /\ Notification.message n = NotificationData.message notification_data
    /\ Notification.event_type n = NotificationData.event_type notification_data
    /\ Notification.event_data n
       = default [] (NotificationData.event_data notification_data)
    /\ Notification.priority n = default 1%Z (NotificationData.priority notification_data)
    /\ Notification.retry_count n
       = default 0%Z (NotificationData.retry_count notification_data).
Proof.
  intros Hok Hty Hre Hso.
  unfold NotificationService.create_notification.
  rewrite Hty, in_strings_member. simpl negb. cbv iota. unfold try_except.
  rewrite (bind_Return (ret tt) _ w _ _ eq_refl). cbv beta.
  destruct (repository_create_notification_ok env notification_data w type recipient
              source_service Hok)
    as (n & i & w1 & E1 & Hid & W1 & Ty & Re & So & Su & Me & St & Et & Ed & Pr & Rc
        & _ & _ & _).
  { rewrite Hty. simpl. apply of_value_value. }
  { now rewrite Hre. }
  { now rewrite Hso. }
  rewrite (bind_Return _ _ _ _ _ E1).
  destruct (send_notification_ok env n i n w1 Hok Hid)
    as (stored & w2 & E2 & W2 & _ & S2 & C2 & T2 & D2).
  { rewrite W1. apply lookup_insert_eq. }
  rewrite (bind_Return _ _ _ _ _ E2). unfold ret.
  exists n, i, stored, w2. split; [reflexivity|]. split; [exact Hid|].
  split. { rewrite W2, W1. apply insert_insert_eq. }
  split; [exact St|]. split; [now rewrite S2, Ty|]. split; [exact T2|].
  split. { intros ->. rewrite Ty in D2. exact D2. }
  split; [exact C2|].
  repeat split; assumption.
Qed.

(** X19.  When the store answers, [create_notification] on data with a
    valid type name, a recipient and a source service stores one
    notification built from the data and sends it at once: read back by
    its identifier, it is delivered (an email, with both timestamps) or
    sent (the other types, with [sent_at]).  The notification returned
    to the caller is the one that was inserted: it has the identifier,
    but still the initial status. *)
Theorem create_notification_sends env notification_data w type recipient source_service :
  store_ok env ->
  NotificationData.type notification_data = VStr (NotificationType.value type) ->
  NotificationData.recipient notification_data = VStr recipient ->
  NotificationData.source_service notification_data = VStr source_service ->
  exists n i stored w' w'',
    NotificationService.create_notification env notification_data w = (Return n, w')
    /\ Notification.id n = Some i
    /\ Notification.status n
       = default NotificationStatus.PENDING (NotificationData.status notification_data)
    /\ NotificationService.get_notification_by_id env i w' = (Return (Some stored), w'')
    /\ Notification.status stored = sent_status type
    /\ is_Some (Notification.sent_at stored)
    /\ (type = NotificationType.EMAIL -> is_Some (Notification.delivered_at stored))
    /\ Notification.type stored = type
    /\ Notification.recipient stored = recipient
    /\ Notification.source_service stored = source_service
    /\ Notification.subject stored = NotificationData.subject notification_data
    /\ Notification.message stored = NotificationData.message notification_data
    /\ Notification.event_type stored = NotificationData.event_type notification_data
    /\ Notification.priority stored
       = default 1%Z (NotificationData.priority notification_data)
    /\ Notification.retry_count stored
       = default 0%Z (NotificationData.retry_count notification_data).
Proof.
  intros Hok Hty Hre Hso.
  destruct (create_notification_ok env notification_data w type recipient source_service
              Hok Hty Hre Hso)
    as (n & i & stored & w' & E & Hid & W & St & Ss & Ts & Ds & C & Ty & Re & So & Su
        & Me & Et & Ed & Pr & Rc).
  destruct C as (C1 & C2 & C3 & C4 & C5 & C6 & C7 & C8 & C9 & C10 & C11 & C12).
  unfold NotificationService.create_notification in E.
  exists n, i, (Notification.set_id (Some i) stored), w'. eexists.
  split; [exact E|]. split; [exact Hid|]. split; [exact St|].
  split.
  { unfold NotificationService.get_notification_by_id,
      NotificationRepository.get_notification_by_id, NotificationDocument.get,
      get_document.
    unfold_n. rewrite Hok. simpl. rewrite W, lookup_insert_eq. reflexivity. }
  simpl. split; [exact Ss|]. split; [exact Ts|]. split; [exact Ds|].
  repeat split; congruence.
Qed.

Lemma retry_loop_total env max_retries l :
  forall c w,
    exists c' w',
      NotificationService.retry_loop env max_retries l c w = (Return c', w')
      /\ no_failure_recorded w w'.
Proof.
  induction l as [|h l IH]; intros c w; simpl.
  - exists c, w. split; [reflexivity | apply no_failure_recorded_refl].
  - destruct (Notification.retry_count h <? max_retries)%Z.
    + destruct (send_notification_total env h w) as (w1 & E1 & F1).
      match goal with
      | |- context [Py.bind (try_except ?m ?h) ?k] =>
          assert (E1' : try_except m h w = (Return (c + 1)%nat, w1))
            by (unfold try_except; rewrite (bind_Return _ _ _ _ _ E1); reflexivity);
          rewrite (bind_Return _ _ _ _ _ E1')
      end.
      destruct (IH (c + 1)%nat w1) as (c' & w' & E & F).
      exists c', w'. split; [exact E|].
      eapply no_failure_recorded_trans; eassumption.
    + rewrite (bind_Return (ret c) _ w _ _ eq_refl). apply IH.
Qed.

(** X17.  The service never records a failed delivery.  Whatever the
    document store does, [_send_notification] returns normally, and
    neither it nor a retry sweep adds or removes a notification,
    changes a retry count, or turns a notification into a failed
    one. *)
Theorem failure_is_never_recorded env notification max_retries w :
  (exists w',
     NotificationService._send_notification env notification w = (Return tt, w')
     /\ no_failure_recorded w w')
  /\ no_failure_recorded w
       (snd (NotificationService.retry_failed_notifications env max_retries w)).
Proof.
  split; [apply send_notification_total|].
  unfold NotificationService.retry_failed_notifications,
    NotificationRepository.get_notifications.
  unfold_n. simpl.
  destruct (NotificationEnv.store_fault env (NotificationWorld.tick w)) as [e|]; simpl.
  - apply no_failure_recorded_same. reflexivity.
  - match goal with
    | |- context [NotificationService.retry_loop env max_retries ?l 0%nat ?w0] =>
        destruct (retry_loop_total env max_retries l 0%nat w0) as (c' & w' & E & F)
    end.
    rewrite E. exact F.
Qed.

Lemma retry_loop_ok env max_retries l :
  store_ok env ->
  forall c w,
    (forall n, In n l ->
       exists k n0,
         Notification.id n = Some k
         /\ NotificationWorld.notifications w !! k = Some n0
         /\ Notification.type n0 = Notification.type n) ->
    exists w',
      NotificationService.retry_loop env max_retries l c w
      = (Return (c + length (List.filter
                               (fun n => (Notification.retry_count n <? max_retries)%Z) l))%nat,
         w')
      /\ forall k,
           match NotificationWorld.notifications w !! k with
           | None => NotificationWorld.notifications w' !! k = None
           | Some n0 =>
               exists n1,
                 NotificationWorld.notifications w' !! k = Some n1
                 /\ same_notification n0 n1
                 /\ if retried max_retries k l
                    then Notification.status n1 = sent_status (Notification.type n0)
                         /\ is_Some (Notification.sent_at n1)
                    else n1 = n0
           end.
Proof.
  intros Hok. induction l as [|h l IH]; intros c w Hpre; simpl.
  - exists w. rewrite Nat.add_0_r. split; [reflexivity|].
    intros k. destruct (NotificationWorld.notifications w !! k) as [n0|]; [|reflexivity].
    exists n0. split; [reflexivity|]. split; [apply same_notification_refl | reflexivity].
  - destruct (Hpre h (or_introl eq_refl)) as (kh & nh & Hid & Hget & Hty).
    destruct (Notification.retry_count h <? max_retries)%Z eqn:Hrc.
    + destruct (send_notification_ok env h kh nh w Hok Hid Hget)
        as (n1h & w1 & E1 & W1 & _ & S1 & C1 & T1 & _).
      match goal with
      | |- context [Py.bind (try_except ?m ?h) ?k] =>
          assert (E1' : try_except m h w = (Return (c + 1)%nat, w1))
            by (unfold try_except; rewrite (bind_Return _ _ _ _ _ E1); reflexivity);
          rewrite (bind_Return _ _ _ _ _ E1')
      end.
      destruct (IH (c + 1)%nat w1) as (w' & E & Hpost).
      { intros n Hn. destruct (Hpre n (or_intror Hn)) as (k & n0 & Hk & Hg & Ht).
        exists k. rewrite W1, lookup_insert. destruct (decide (kh = k)) as [<-|Hne].
        - exists n1h. split; [exact Hk|]. split; [reflexivity|].
          destruct C1 as (C1 & _). rewrite C1. congruence.
        - exists n0. repeat split; assumption. }
      exists w'. split.
      { rewrite E. simpl. do 2 f_equal. lia. }
      intros k. specialize (Hpost k). rewrite W1, lookup_insert in Hpost.
      rewrite Hid. destruct (decide (kh = k)) as [<-|Hne].
      * rewrite Hget. destruct Hpost as (n2 & G2 & C2 & R2).
        exists n2. split; [exact G2|].
        split; [eapply same_notification_trans; eassumption|].
        rewrite bool_decide_eq_true_2 by reflexivity. simpl.
        destruct C1 as (Cty & _).
        destruct (retried max_retries kh l).
        -- now rewrite <- Cty.
        -- subst n2. rewrite S1, Hty. split; [reflexivity | exact T1].
      * rewrite bool_decide_eq_false_2 by congruence. simpl.
        destruct (NotificationWorld.notifications w !! k); exact Hpost.
    + rewrite (bind_Return (ret c) _ w _ _ eq_refl). cbv beta.
      destruct (IH c w) as (w' & E & Hpost).
      { intros n Hn. apply Hpre. now right. }
      exists w'. split; [exact E|].
      intros k. specialize (Hpost k). rewrite andb_false_r. simpl. exact Hpost.
Qed.

Lemma In_take {A} (n : nat) (l : list A) x : In x (take n l) -> In x l.
Proof.
  intros H. rewrite <- (firstn_skipn n l). apply in_or_app. now left.
Qed.

Lemma In_limited {A} (n : nat) (l : list A) x :
  In x (NotificationRepository.limited n l) -> In x l.
Proof.
  unfold NotificationRepository.limited. destruct (Nat.eqb n 0); [trivial|].
  apply In_take.
Qed.

Lemma limited_all {A} (n : nat) (l : list A) :
  (length l <= n)%nat -> NotificationRepository.limited n l = l.
Proof.
  intros H. unfold NotificationRepository.limited.
  destruct (Nat.eqb n 0); [reflexivity|]. now apply firstn_all2.
Qed.

Lemma length_limited {A} (n : nat) (l : list A) :
  n <> 0%nat -> (length (NotificationRepository.limited n l) <= n)%nat.
Proof.
  intros H. unfold NotificationRepository.limited.
  destruct (Nat.eqb n 0) eqn:E; [apply Nat.eqb_eq in E; contradiction|].
  rewrite length_take. lia.
Qed.

(** The failed notifications a retry sweep fetches. *)
Lemma failed_batch_sound w n :
  In n (NotificationRepository.limited 100
          (drop 0
             (merge_sort NotificationRepository.newest_first
                (List.filter
                   (NotificationRepository.matches None (Some NotificationStatus.FAILED))
                   (documents Notification.set_id (NotificationWorld.notifications w)))))) ->
  exists k n0,
    NotificationWorld.notifications w !! k = Some n0
    /\ n = Notification.set_id (Some k) n0
    /\ Notification.status n0 = NotificationStatus.FAILED.
Proof.
  intros H. apply In_limited in H. rewrite drop_0 in H.
  apply list_elem_of_In in H. rewrite merge_sort_Permutation in H.
  apply list_elem_of_In in H. apply filter_In in H. destruct H as (Hd & Hm).
  apply documents_In in Hd. destruct Hd as (k & n0 & Hget & ->).
  exists k, n0. split; [exact Hget|]. split; [reflexivity|].
  unfold NotificationRepository.matches in Hm. simpl in Hm.
  now apply bool_decide_eq_true_1 in Hm.
Qed.

Lemma failed_batch_complete w k n0 :
  NotificationWorld.notifications w !! k = Some n0 ->
  Notification.status n0 = NotificationStatus.FAILED ->
  (length (List.filter
             (fun n => bool_decide (Notification.status n = NotificationStatus.FAILED))
             (documents Notification.set_id (NotificationWorld.notifications w)))
   <= 100)%nat ->
  In (Notification.set_id (Some k) n0)
    (NotificationRepository.limited 100
       (drop 0
          (merge_sort NotificationRepository.newest_first
             (List.filter
                (NotificationRepository.matches None (Some NotificationStatus.FAILED))
                (documents Notification.set_id (NotificationWorld.notifications w)))))).
Proof.
  intros Hget Hst Hlen. rewrite drop_0.
  rewrite limited_all.
  - apply list_elem_of_In. rewrite merge_sort_Permutation. apply list_elem_of_In.
    apply filter_In. split.
    + apply documents_In. eauto.
    + unfold NotificationRepository.matches. simpl.
      now apply bool_decide_eq_true_2.
  - rewrite merge_sort_Permutation. exact Hlen.
Qed.

(** X20.  A retry sweep, when the store answers.  It fetches the failed
    notifications, the newest hundred at most, and sends again those
    whose retry count is below the bound given to the sweep (the
    notification's own [max_retries] is not consulted); the result
    counts them.  Each of them ends delivered (email) or sent (other
    types) with its retry count as it was; a notification that is not
    failed or has reached the bound is left untouched; no notification
    appears or disappears.  With at most a hundred failed
    notifications stored, none is missed. *)
Theorem retry_failed_notifications_effect env max_retries w :
  store_ok env ->
  exists failed w1 w',
    NotificationRepository.get_notifications env None (Some NotificationStatus.FAILED)
      100 0 w = (Return failed, w1)
    /\ NotificationService.retry_failed_notifications env max_retries w
       = (Return (length (List.filter
                            (fun n => (Notification.retry_count n <? max_retries)%Z)
                            failed)), w')
    /\ (length failed <= 100)%nat
    /\ (forall n, In n failed ->
          exists k n0,
            NotificationWorld.notifications w !! k = Some n0
            /\ n = Notification.set_id (Some k) n0
            /\ Notification.status n0 = NotificationStatus.FAILED)
    /\ (forall k n0,
          NotificationWorld.notifications w !! k = Some n0 ->
          Notification.status n0 = NotificationStatus.FAILED ->
          (length (List.filter
                     (fun n => bool_decide
                                 (Notification.status n = NotificationStatus.FAILED))
                     (documents Notification.set_id (NotificationWorld.notifications w)))
           <= 100)%nat ->
          In (Notification.set_id (Some k) n0) failed)
    /\ (forall k,
          NotificationWorld.notifications w !! k = None ->
          NotificationWorld.notifications w' !! k = None)
    /\ (forall k n0,
          NotificationWorld.notifications w !! k = Some n0 ->
          exists n1,
            NotificationWorld.notifications w' !! k = Some n1
            /\ same_notification n0 n1
            /\ (In (Notification.set_id (Some k) n0) failed ->
                (Notification.retry_count n0 < max_retries)%Z ->
                Notification.status n1 = sent_status (Notification.type n0)
                /\ is_Some (Notification.sent_at n1))
            /\ (Notification.status n0 <> NotificationStatus.FAILED
                \/ (max_retries <= Notification.retry_count n0)%Z ->
                n1 = n0)).
Proof.
  intros Hok.
  set (failed := NotificationRepository.limited 100
          (drop 0
             (merge_sort NotificationRepository.newest_first
                (List.filter
                   (NotificationRepository.matches None (Some NotificationStatus.FAILED))
                   (documents Notification.set_id (NotificationWorld.notifications w)))))).
  assert (E1 : NotificationRepository.get_notifications env None
                 (Some NotificationStatus.FAILED) 100 0 w
               = (Return failed, NotificationWorld.next_tick w)).
  { unfold NotificationRepository.get_notifications. unfold_n. rewrite Hok. reflexivity. }
  destruct (retry_loop_ok env max_retries failed Hok 0%nat (NotificationWorld.next_tick w))
    as (w' & E2 & Hpost).
  { intros n Hn. destruct (failed_batch_sound w n Hn) as (k & n0 & Hget & -> & _).
    exists k, n0. repeat split. exact Hget. }
  exists failed, (NotificationWorld.next_tick w), w'.
  split; [exact E1|].
  split.
  { unfold NotificationService.retry_failed_notifications.
    rewrite (bind_Return _ _ _ _ _ E1). exact E2. }
  split; [apply length_limited; discriminate|].
  split; [apply failed_batch_sound|].
  split; [apply failed_batch_complete|].
  split.
  { intros k Hnone. specialize (Hpost k). simpl in Hpost. now rewrite Hnone in Hpost. }
  intros k n0 Hget. specialize (Hpost k). simpl in Hpost. rewrite Hget in Hpost.
  destruct Hpost as (n1 & G1 & C1 & R1).
  exists n1. split; [exact G1|]. split; [exact C1|].
  split.
  - intros Hin Hlt.
    assert (Hr : retried max_retries k failed = true).
    { apply existsb_exists. exists (Notification.set_id (Some k) n0).
      split; [exact Hin|]. simpl.
      rewrite bool_decide_eq_true_2 by reflexivity. simpl. now apply Z.ltb_lt. }
    now rewrite Hr in R1.
  - intros Hnot.
    destruct (retried max_retries k failed) eqn:Hr; [|exact R1].
    exfalso. apply existsb_exists in Hr. destruct Hr as (n & Hin & Hc).
    apply andb_prop in Hc. destruct Hc as (Hk & Hlt).
    apply bool_decide_eq_true_1 in Hk. apply Z.ltb_lt in Hlt.
    destruct (failed_batch_sound w n Hin) as (k' & n0' & Hget' & -> & Hst).
    simpl in Hk, Hlt. injection Hk as ->.
    rewrite Hget in Hget'. injection Hget' as <-.
    destruct Hnot as [Hnot | Hnot]; [contradiction | lia].
Qed.

(** X21.  [_process_message] never raises, whatever the message holds
    and whatever the store does.  Unless the message carries a
    [user.registered] event on [user-events] or a
    [product.stock_updated] event on [product-events], it only logs:
    the stored notifications are as before and neither the store nor
    the clock was consulted. *)
Theorem process_message_never_raises env message w :
  exists w',
    KafkaConsumer._process_message env message w = (Return tt, w')
    /\ (~ carries message "user-events" "user.registered" ->
        ~ carries message "product-events" "product.stock_updated" ->
        NotificationWorld.notifications w' = NotificationWorld.notifications w
        /\ NotificationWorld.tick w' = NotificationWorld.tick w).
Proof.
  destruct message as [topic key value].
  unfold KafkaConsumer._process_message. simpl KafkaMessage.topic.
  simpl KafkaMessage.key. simpl KafkaMessage.value. cbv zeta.
  unfold try_except at 1.
  match goal with
  | |- context [match ?m w with _ => _ end] => destruct (m w) as [[[]|e] w1] eqn:E
  end.
  - exists w1. split; [reflexivity|]. intros Hu Hp.
    revert E. unfold carries in Hu, Hp. simpl in Hu, Hp.
    destruct value as [| | | | |l|v];
      try (unfold_n; simpl; discriminate).
    unfold KafkaConsumer.get at 1 2 3.
    unfold KafkaConsumer._handle_user_event, KafkaConsumer._handle_product_event.
    unfold_n. cbv beta iota.
    destruct (String.eqb topic "user-events") eqn:Et.
    + apply String.eqb_eq in Et. subst topic.
      destruct (PyValue.eq_str (dict_get_default v "event_type" (VStr "unknown"))
                  "user.registered") eqn:Ee.
      { exfalso. apply Hu. split; [reflexivity|]. exists v. split; [reflexivity|].
        unfold PyValue.eq_str in Ee.
        destruct (dict_get_default v "event_type" (VStr "unknown")); try discriminate.
        apply String.eqb_eq in Ee. now subst. }
      unfold KafkaConsumer._handle_user_login, KafkaConsumer._handle_user_updated.
      destruct (PyValue.eq_str _ "user.login");
        [|destruct (PyValue.eq_str _ "user.updated")];
        destruct (dict_get_default v "data" (VDict [])); simpl;
        intros [= <-]; split; reflexivity.
    + destruct (String.eqb topic "product-events") eqn:Ep.
      * apply String.eqb_eq in Ep. subst topic.
        unfold KafkaConsumer._handle_product_created.
        destruct (PyValue.eq_str (dict_get_default v "event_type" (VStr "unknown"))
                    "product.created") eqn:Ec.
        { destruct (dict_get_default v "data" (VDict [])); simpl;
            intros [= <-]; split; reflexivity. }
        destruct (PyValue.eq_str (dict_get_default v "event_type" (VStr "unknown"))
                    "product.stock_updated") eqn:Ee.
        { exfalso. apply Hp. split; [reflexivity|]. exists v. split; [reflexivity|].
          unfold PyValue.eq_str in Ee.
          destruct (dict_get_default v "event_type" (VStr "unknown")); try discriminate.
          apply String.eqb_eq in Ee. now subst. }
        simpl. intros [= <-]. split; reflexivity.
      * simpl. intros [= <-]. split; reflexivity.
  - eexists. split; [reflexivity|]. intros Hu Hp.
    revert E. unfold carries in Hu, Hp. simpl in Hu, Hp.
    destruct value as [| | | | |l|v];
      try (unfold_n; simpl; intros [= <- <-]; split; reflexivity).
    unfold KafkaConsumer.get at 1 2 3.
    unfold KafkaConsumer._handle_user_event, KafkaConsumer._handle_product_event.
    unfold_n. cbv beta iota.
    destruct (String.eqb topic "user-events") eqn:Et.
    + destruct (PyValue.eq_str (dict_get_default v "event_type" (VStr "unknown"))
                  "user.registered") eqn:Ee.
      { destruct (KafkaConsumer._handle_user_registered _ _ _ _) as [[[]|?] ?];
          discriminate. }
      unfold KafkaConsumer._handle_user_login, KafkaConsumer._handle_user_updated.
      destruct (PyValue.eq_str _ "user.login");
        [|destruct (PyValue.eq_str _ "user.updated")];
        destruct (dict_get_default v "data" (VDict [])); simpl; discriminate.
    + destruct (String.eqb topic "product-events") eqn:Ep.
      * unfold KafkaConsumer._handle_product_created.
        destruct (PyValue.eq_str (dict_get_default v "event_type" (VStr "unknown"))
                    "product.created") eqn:Ec.
        { destruct (dict_get_default v "data" (VDict [])); simpl; discriminate. }
        destruct (PyValue.eq_str (dict_get_default v "event_type" (VStr "unknown"))
                    "product.stock_updated") eqn:Ee.
        { destruct (KafkaConsumer._handle_product_stock_updated _ _ _ _) as [[[]|?] ?];
            discriminate. }
        simpl. discriminate.
      * simpl. discriminate.
Qed.

Ltac route :=
  cbn [PyValue.eq_str PyValue.truthy PyValue.is_None PyValue.lt_int String.eqb Ascii.eqb
       Bool.eqb].

Ltac use_create_notification_ok Hok type recipient service :=
  match goal with
  | |- context [NotificationService.create_notification ?env ?d ?w0] =>
      destruct (create_notification_ok env d w0 type recipient service Hok
                  eq_refl eq_refl eq_refl)
        as (?n & ?i & ?stored & ?w1 & ?E & ?Hid & ?W & ?St & ?Ss & ?Ts & ?Ds & ?C & ?Ty
            & ?Re & ?So & ?Su & ?Me & ?Et & ?Ed & ?Pr & ?Rc)
  end.

(** X22.  A [user.registered] event on [user-events] whose data carry a
    non-empty email address leads, when the store answers, to exactly
    one new notification: a welcome email to that address, of priority
    3, delivered, which records the event's data and source service.
    Without an email address (missing, [None] or empty) nothing is
    stored. *)
Theorem user_registered_is_welcomed env message w v d :
  store_ok env ->
  KafkaMessage.topic message = "user-events" ->
  KafkaMessage.value message = VDict v ->
  dict_get_default v "event_type" (VStr "unknown") = VStr "user.registered" ->
  dict_get_default v "data" (VDict []) = VDict d ->
  (forall email service,
     dict_get_default v "service" (VStr "unknown") = VStr service ->
     dict_get d "email" = VStr email -> email <> "" ->
     exists i n w',
       KafkaConsumer._process_message env message w = (Return tt, w')
       /\ NotificationWorld.notifications w'
          = <[i := n]> (NotificationWorld.notifications w)
       /\ Notification.type n = NotificationType.EMAIL
       /\ Notification.recipient n = email
       /\ Notification.subject n = Some "Welcome to E-commerce Platform!"
       /\ Notification.message n
          = "Hello " +:+ PyValue.str (NotificationEnv.repr env) (dict_get d "name")
            +:+ ", welcome to our platform! We're excited to have you on board."
       /\ Notification.status n = NotificationStatus.DELIVERED
       /\ is_Some (Notification.sent_at n)
       /\ is_Some (Notification.delivered_at n)
       /\ Notification.event_type n = "user.registered"
       /\ Notification.event_data n = d
       /\ Notification.source_service n = service
       /\ Notification.priority n = 3%Z
       /\ Notification.retry_count n = 0%Z)
  /\ (PyValue.truthy (dict_get d "email") = false ->
      exists w',
        KafkaConsumer._process_message env message w = (Return tt, w')
        /\ NotificationWorld.notifications w' = NotificationWorld.notifications w).
Proof.
  intros Hok Htopic Hvalue Hev Hdata.
  destruct message as [topic key value]. simpl in Htopic, Hvalue. subst topic value.
  split; [intros email service Hservice Hemail Hne | intros Hfalse];
    unfold KafkaConsumer._process_message; simpl KafkaMessage.topic;
    simpl KafkaMessage.key; simpl KafkaMessage.value; cbv zeta;
    unfold KafkaConsumer._handle_user_event, KafkaConsumer._handle_user_registered;
    unfold KafkaConsumer.get, KafkaConsumer.as_dict, dict_get in *;
    rewrite Hev, Hdata.
  - rewrite Hservice.
    assert (Ht : str_truthy email = true).
    { unfold str_truthy. apply negb_true_iff, String.eqb_neq. exact Hne. }
    unfold_n. cbv beta iota. route.
    rewrite !Hemail. route. rewrite Ht.
    use_create_notification_ok Hok NotificationType.EMAIL email service.
    rewrite E. cbv beta iota.
    destruct C as (C1 & C2 & C3 & C4 & C5 & C6 & C7 & C8 & C9 & C10 & C11 & C12).
    exists i, stored. eexists. split; [reflexivity|]. simpl.
    split; [exact W|].
    simpl in Su, Me, Et, Ed, Pr, Rc.
    repeat split; try congruence; try assumption.
    now apply Ds.
  - unfold_n. cbv beta iota. rewrite Hfalse. route.
    eexists. split; [reflexivity|]. reflexivity.
Qed.

(** X23.  The low-stock threshold.  A [product.stock_updated] event on
    [product-events] with an integer stock below 10 leads, when the
    store answers, to exactly one new notification: a "Low Stock
    Alert" email to the administrator, of priority 4, delivered, whose
    message names the product and the remaining units.  With a stock
    of 10 or more, or without a stock, nothing is stored. *)
Theorem low_stock_alert env message w v d :
  store_ok env ->
  KafkaMessage.topic message = "product-events" ->
  KafkaMessage.value message = VDict v ->
  dict_get_default v "event_type" (VStr "unknown") = VStr "product.stock_updated" ->
  dict_get_default v "data" (VDict []) = VDict d ->
  (forall z service,
     dict_get_default v "service" (VStr "unknown") = VStr service ->
     dict_get d "stock_quantity" = VInt z -> (z < 10)%Z ->
     exists i n w',
       KafkaConsumer._process_message env message w = (Return tt, w')
       /\ NotificationWorld.notifications w'
          = <[i := n]> (NotificationWorld.notifications w)
       /\ Notification.type n = NotificationType.EMAIL
       /\ Notification.recipient n = "admin@ecommerce.com"
       /\ Notification.subject n = Some "Low Stock Alert"
       /\ Notification.message n
          = "Product " +:+ PyValue.str (NotificationEnv.repr env) (dict_get d "product_id")
            +:+ " has low stock: " +:+ PyValue.str (NotificationEnv.repr env) (VInt z)
            +:+ " units remaining."
       /\ Notification.status n = NotificationStatus.DELIVERED
       /\ Notification.event_type n = "product.stock_updated"
       /\ Notification.event_data n = d
       /\ Notification.source_service n = service
       /\ Notification.priority n = 4%Z)
  /\ (forall z,
        dict_get d "stock_quantity" = VInt z -> (10 <= z)%Z ->
        exists w',
          KafkaConsumer._process_message env message w = (Return tt, w')
          /\ NotificationWorld.notifications w' = NotificationWorld.notifications w)
  /\ (dict_get d "stock_quantity" = VNone ->
      exists w',
        KafkaConsumer._process_message env message w = (Return tt, w')
        /\ NotificationWorld.notifications w' = NotificationWorld.notifications w).
Proof.
  intros Hok Htopic Hvalue Hev Hdata.
  destruct message as [topic key value]. simpl in Htopic, Hvalue. subst topic value.
  split; [intros z service Hservice Hstock Hlt
         |split; [intros z Hstock Hge | intros Hstock]];
    unfold KafkaConsumer._process_message; simpl KafkaMessage.topic;
    simpl KafkaMessage.key; simpl KafkaMessage.value; cbv zeta;
    unfold KafkaConsumer._handle_product_event,
      KafkaConsumer._handle_product_stock_updated;
    unfold KafkaConsumer.get, KafkaConsumer.as_dict, dict_get in *;
    rewrite Hev, Hdata.
  - rewrite Hservice.
    assert (Hz : (z <? 10)%Z = true) by now apply Z.ltb_lt.
    unfold_n. cbv beta iota. route.
    rewrite !Hstock. route. rewrite Hz. cbv iota.
    use_create_notification_ok Hok NotificationType.EMAIL "admin@ecommerce.com" service.
    rewrite E. cbv beta iota.
    destruct C as (C1 & C2 & C3 & C4 & C5 & C6 & C7 & C8 & C9 & C10 & C11 & C12).
    exists i, stored. eexists. split; [reflexivity|]. simpl.
    split; [exact W|].
    simpl in Su, Me, Et, Ed, Pr, Rc.
    repeat split; try congruence; assumption.
  - assert (Hz : (z <? 10)%Z = false) by (apply Z.ltb_ge; lia).
    unfold_n. cbv beta iota. route.
    rewrite !Hstock. route. rewrite Hz.
    eexists. split; reflexivity.
  - unfold_n. cbv beta iota. route.
    rewrite !Hstock. route.
    eexists. split; reflexivity.
Qed.

(** X24.  Deleting a notification removes the record (this is not a
    soft delete).  [delete_notification] never raises; when the store
    answers it returns [True] exactly for a stored notification, which
    is then gone for [get_notification_by_id] while the other
    notifications stay; for an unknown identifier it returns [False]
    and changes nothing. *)
Theorem delete_notification_removes env notification_id w :
  (exists b w', NotificationRepository.delete_notification env notification_id w
                = (Return b, w'))
  /\ (store_ok env ->
      forall n,
        NotificationWorld.notifications w !! notification_id = Some n ->
        exists w' w'',
          NotificationRepository.delete_notification env notification_id w
          = (Return true, w')
          /\ NotificationWorld.notifications w'
             = base.delete notification_id (NotificationWorld.notifications w)
          /\ NotificationService.get_notification_by_id env notification_id w'
             = (Return None, w''))
  /\ (store_ok env ->
      NotificationWorld.notifications w !! notification_id = None ->
      exists w',
        NotificationRepository.delete_notification env notification_id w
        = (Return false, w')
        /\ NotificationWorld.notifications w' = NotificationWorld.notifications w).
Proof.
  unfold NotificationService.get_notification_by_id,
    NotificationRepository.get_notification_by_id,
    NotificationRepository.delete_notification, NotificationDocument.get,
    NotificationDocument.delete, get_document.
  split; [|split].
  - unfold_n. simpl.
    destruct (NotificationEnv.store_fault env (NotificationWorld.tick w));
      [eexists _, _; reflexivity|].
    simpl. destruct (NotificationWorld.notifications w !! notification_id); simpl;
      [|eexists _, _; reflexivity].
    destruct (NotificationEnv.store_fault env (S (NotificationWorld.tick w)));
      eexists _, _; reflexivity.
  - intros Hok n Hget. unfold_n. simpl. rewrite !Hok. simpl. rewrite Hget. simpl.
    rewrite !Hok. simpl.
    eexists _, _. split; [reflexivity|]. split; [reflexivity|].
    rewrite Hok. simpl. rewrite lookup_delete_eq. reflexivity.
  - intros Hok Hget. unfold_n. simpl. rewrite !Hok. simpl. rewrite Hget. simpl.
    eexists. split; reflexivity.
Qed.

(** X25.  [update_notification_status] never raises.  When the store
    answers, an unknown identifier gives [None] and changes nothing; a
    stored notification takes the requested status whatever its
    current one, [sent_at] is stamped anew on every update to sent,
    [delivered_at] is set only by an update to delivered that brings a
    timestamp, and the rest of the notification, its retry count
    included, stays. *)
Theorem update_notification_status_effect env notification_id status delivered_at w :
  (exists r w',
     NotificationService.update_notification_status env notification_id status
       delivered_at w = (Return r, w'))
  /\ (store_ok env ->
      NotificationWorld.notifications w !! notification_id = None ->
      exists w',
        NotificationService.update_notification_status env notification_id status
          delivered_at w = (Return None, w')
        /\ NotificationWorld.notifications w' = NotificationWorld.notifications w)
  /\ (store_ok env ->
      forall n,
        NotificationWorld.notifications w !! notification_id = Some n ->
        exists n' w',
          NotificationService.update_notification_status env notification_id status
            delivered_at w = (Return (Some n'), w')
          /\ NotificationWorld.notifications w'
             = <[notification_id := n']> (NotificationWorld.notifications w)
          /\ Notification.status n' = status
          /\ same_notification n n'
          /\ (status = NotificationStatus.SENT ->
              Notification.sent_at n'
              = Some (NotificationEnv.utcnow env (S (NotificationWorld.tick w)))
              /\ Notification.delivered_at n' = Notification.delivered_at n)
          /\ (status = NotificationStatus.DELIVERED ->
              Notification.sent_at n' = Notification.sent_at n
              /\ Notification.delivered_at n'
                 = match delivered_at with
                   | Some t => Some t
                   | None => Notification.delivered_at n
                   end)
          /\ (status <> NotificationStatus.SENT ->
              status <> NotificationStatus.DELIVERED ->
              Notification.sent_at n' = Notification.sent_at n
              /\ Notification.delivered_at n' = Notification.delivered_at n)).
Proof.
  split; [|split].
  - destruct (update_notification_status_total env notification_id status delivered_at w)
      as (r & w' & E & _).
    now exists r, w'.
  - intros Hok Hget.
    unfold NotificationService.update_notification_status,
      NotificationRepository.update_notification, NotificationDocument.get, get_document.
    destruct status; unfold_n; simpl; rewrite !Hok; simpl; rewrite Hget; simpl;
      eexists; split; reflexivity.
  - intros Hok n Hget.
    destruct (update_notification_status_ok env notification_id status delivered_at w n
                Hok Hget) as (n' & w' & E & W & _ & S & C & T & D).
    exists n', w'. split; [exact E|]. split; [exact W|]. split; [exact S|].
    split; [exact C|].
    destruct status; simpl in T, D; repeat split; try congruence; try assumption.
Qed.

Lemma lex_leb_total a : forall b, lex_leb a b = true \/ lex_leb b a = true.
Proof.
  induction a as [|x a IH]; intros [|y b]; simpl; auto.
  destruct (Nat.lt_trichotomy x y) as [H | [H | H]].
  - left. apply orb_true_iff. left. now apply Nat.ltb_lt.
  - subst y. rewrite Nat.eqb_refl. simpl.
    destruct (IH b) as [-> | ->]; [left | right]; apply orb_true_r.
  - right. apply orb_true_iff. left. now apply Nat.ltb_lt.
Qed.

Lemma lex_leb_trans a : forall b c,
  lex_leb a b = true -> lex_leb b c = true -> lex_leb a c = true.
Proof.
  induction a as [|x a IH]; intros [|y b] [|z c]; simpl; auto; try discriminate.
  rewrite !orb_true_iff, !andb_true_iff, !Nat.ltb_lt, !Nat.eqb_eq.
  intros [H1 | [H1 H1']] [H2 | [H2 H2']].
  - left. lia.
  - left. lia.
  - left. lia.
  - right. split; [lia|]. eapply IH; eassumption.
Qed.

Lemma newest_first_total : Total NotificationRepository.newest_first.
Proof. intros a b. unfold NotificationRepository.newest_first. apply lex_leb_total. Qed.

Lemma newest_first_trans : Transitive NotificationRepository.newest_first.
Proof.
  intros a b c H1 H2. unfold NotificationRepository.newest_first in *.
  eapply lex_leb_trans; eassumption.
Qed.

Lemma StronglySorted_drop {A} (R : relation A) n l :
  StronglySorted R l -> StronglySorted R (drop n l).
Proof.
  intros H. rewrite <- (take_drop n l) in H. now apply StronglySorted_app_1_r in H.
Qed.

Lemma StronglySorted_limited {A} (R : relation A) n l :
  StronglySorted R l -> StronglySorted R (NotificationRepository.limited n l).
Proof.
  intros H. unfold NotificationRepository.limited. destruct (Nat.eqb n 0); [exact H|].
  rewrite <- (take_drop n l) in H. now apply StronglySorted_app_1_l in H.
Qed.

(** X26.  A page of [get_notifications], when the store answers.  It
    only reads.  Every notification of the page is stored and passes
    the filter: the recipient is compared only when a non-empty one is
    given, the status only when one is given.  The page is ordered
    from the newest to the oldest, it starts after [offset] matches and
    holds [limit] of them at most (all of them when [limit] is 0);
    [count_notifications] with the same filter counts the matches. *)
Theorem get_notifications_page env recipient status limit offset w :
  store_ok env ->
  exists page total w1 w2,
    NotificationRepository.get_notifications env recipient status limit offset w
    = (Return page, w1)
    /\ NotificationRepository.count_notifications env recipient status w
       = (Return total, w2)
    /\ NotificationWorld.notifications w1 = NotificationWorld.notifications w
    /\ StronglySorted NotificationRepository.newest_first page
    /\ (forall n, In n page ->
          exists k n0,
            NotificationWorld.notifications w !! k = Some n0
            /\ n = Notification.set_id (Some k) n0
            /\ (opt_truthy recipient = true ->
                Some (Notification.recipient n0) = recipient)
            /\ (forall s, status = Some s -> Notification.status n0 = s))
    /\ length page
       = (if Nat.eqb limit 0 then total - offset
          else Nat.min limit (total - offset))%nat.
Proof.
  intros Hok.
  unfold NotificationRepository.get_notifications,
    NotificationRepository.count_notifications.
  unfold_n. rewrite Hok.
  eexists _, _, _, _. split; [reflexivity|]. split; [reflexivity|].
  split; [reflexivity|]. simpl NotificationWorld.notifications.
  set (matching := List.filter (NotificationRepository.matches recipient status)
                     (documents Notification.set_id (NotificationWorld.notifications w))).
  split.
  { apply StronglySorted_limited, StronglySorted_drop.
    apply (@StronglySorted_merge_sort _ NotificationRepository.newest_first _
             newest_first_trans newest_first_total). }
  split.
  { intros n Hn. apply In_limited in Hn.
    assert (Hn' : In n (merge_sort NotificationRepository.newest_first matching)).
    { rewrite <- (take_drop offset (merge_sort _ matching)). apply in_or_app. now right. }
    apply list_elem_of_In in Hn'. rewrite merge_sort_Permutation in Hn'.
    apply list_elem_of_In in Hn'. apply filter_In in Hn'. destruct Hn' as (Hd & Hm).
    apply documents_In in Hd. destruct Hd as (k & n0 & Hget & ->).
    exists k, n0. split; [exact Hget|]. split; [reflexivity|].
    unfold NotificationRepository.matches in Hm. apply andb_prop in Hm.
    destruct Hm as (Hr & Hs). simpl in Hr, Hs. split.
    - intros Ht. rewrite Ht in Hr. apply String.eqb_eq in Hr.
      destruct recipient as [r|]; [|discriminate]. simpl in Hr. now rewrite Hr.
    - intros s ->. now apply bool_decide_eq_true_1 in Hs. }
  unfold NotificationRepository.limited.
  assert (L : length (drop offset (merge_sort NotificationRepository.newest_first matching))
              = (length matching - offset)%nat).
  { rewrite length_drop. now rewrite merge_sort_Permutation. }
  destruct (Nat.eqb limit 0); [exact L|].
  rewrite length_take, L. reflexivity.
Qed.

(** ** Categories, product creation and profile updates *)

(** X27.  Deleting a category is a soft delete that hides nothing: the
    category stays stored with [is_active = False] and its name, the
    products are untouched, [get_category_by_id] still serves it (as
    inactive), its name stays taken for [create_category] (400), and
    it can be deleted again. *)
Theorem soft_deleted_category env category_id w c :
  ProductWorld.categories w !! category_id = Some c ->
  exists w' c',
    CategoryService.delete_category env category_id w
    = (Return "Category deleted successfully", w')
    /\ ProductWorld.categories w' = <[category_id := c']> (ProductWorld.categories w)
    /\ ProductWorld.products w' = ProductWorld.products w
    /\ Category.is_active c' = false
    /\ Category.name c' = Category.name c
    /\ (exists r,
          CategoryService.get_category_by_id category_id w' = (Return r, w')
          /\ CategoryResponse.id r = category_id
          /\ CategoryResponse.name r = Category.name c
          /\ CategoryResponse.is_active r = false)
    /\ (forall env' category_data,
          CategoryCreate.name category_data = Category.name c ->
          CategoryService.create_category env' category_data w'
          = (Raise (HTTPException HTTP_400_BAD_REQUEST
                      "Category with this name already exists"), w'))
    /\ (exists w'',
          CategoryService.delete_category env category_id w'
          = (Return "Category deleted successfully", w'')).
Proof.
  intros Hget.
  unfold CategoryService.delete_category, CategoryService.get_category_by_id,
    CategoryRepository.get_category_by_id, CategoryRepository.delete_category,
    get_document, CategoryRepository.save.
  unfold_p. repeat (rewrite Hget; simpl).
  eexists _, _. split; [reflexivity|]. simpl.
  split; [reflexivity|]. split; [reflexivity|]. split; [reflexivity|].
  split; [reflexivity|]. rewrite !lookup_insert_eq. simpl.
  split; [|split].
  - eexists. split; [reflexivity|]. simpl. repeat split.
  - intros env' category_data Hn.
    eapply (create_category_duplicate_name env' category_data _ category_id);
      [simpl; apply lookup_insert_eq | simpl; now rewrite Hn].
  - repeat (rewrite lookup_insert_eq; simpl). eexists. reflexivity.
Qed.

(** X28.  [create_product] copies the category's name onto the product.
    For validated data with a free SKU and a category identifier, an
    unknown category raises 400 and stores nothing; a stored category,
    active or not, gives a product that is stored active with the
    category's current name, and with the stock and the availability
    flag exactly as submitted (the flag is not derived from the stock
    here). *)
Theorem create_product_in_category env product_data w category_id :
  ProductCreate.validb product_data = true ->
  ProductCreate.sku product_data = None ->
  ProductCreate.category_id product_data = Some category_id ->
  category_id <> "" ->
  (ProductWorld.categories w !! category_id = None ->
   ProductService.create_product env product_data w
   = (Raise (HTTPException HTTP_400_BAD_REQUEST "Category not found"), w))
  /\ (forall c,
        ProductWorld.categories w !! category_id = Some c ->
        exists resp w' p,
          ProductService.create_product env product_data w = (Return resp, w')
          /\ ProductWorld.products w'
             = <[ProductResponse.id resp := p]> (ProductWorld.products w)
          /\ ProductWorld.categories w' = ProductWorld.categories w
          /\ Product.category_id p = Some category_id
          /\ Product.category_name p = Some (Category.name c)
          /\ Product.is_active p = true
          /\ Product.stock_quantity p = ProductCreate.stock_quantity product_data
          /\ Product.is_available p = ProductCreate.is_available product_data
          /\ ProductResponse.category_name resp = Some (Category.name c)).
Proof.
  intros Hvalid Hsku Hcat Hne.
  assert (Ht : str_truthy category_id = true).
  { unfold str_truthy. apply negb_true_iff, String.eqb_neq. exact Hne. }
  unfold ProductService.create_product, ProductService.resolve_category,
    CategoryRepository.get_category_by_id, ProductRepository.create_product,
    get_document.
  rewrite Hsku, Hcat, Ht. unfold_p.
  split.
  - intros ->. reflexivity.
  - intros c ->. simpl.
    match goal with
    | |- context [Product.validb ?p] =>
        assert (Hv : Product.validb p = true)
          by (unfold ProductCreate.validb in Hvalid; rewrite Hsku in Hvalid; exact Hvalid)
    end.
    rewrite Hv. simpl.
    eexists _, _, _. split; [reflexivity|]. simpl. repeat split.
Qed.

(** X29.  [update_user_profile] keeps email addresses unique.  An
    email that differs from the user's own and belongs to another
    stored user is refused with 400 and nothing changes; and whatever
    the outcome of an update that does not set an empty email, no two
    stored users share an address afterwards. *)
Theorem update_user_profile_keeps_emails_unique env user_id update_data w :
  unique_emails w ->
  UserUpdate.email update_data <> Some "" ->
  unique_emails (snd (UserService.update_user_profile env user_id update_data w))
  /\ (forall user k other email,
        UserWorld.users w !! user_id = Some user -> User.is_active user = true ->
        UserWorld.users w !! k = Some other -> k <> user_id ->
        UserUpdate.email update_data = Some email -> User.email other = email ->
        UserService.update_user_profile env user_id update_data w
        = (Raise (HTTPException HTTP_400_BAD_REQUEST "Email already exists"), w)).
Proof.
  intros Hu Hne. destruct update_data as [nm em]. simpl in Hne.
  unfold UserService.update_user_profile, UserRepository.get_user_by_id,
    UserRepository.user_exists, UserRepository.update_user, UserRepository.save,
    get_document.
  simpl UserUpdate.name. simpl UserUpdate.email.
  split.
  - unfold_u.
    destruct (UserWorld.users w !! user_id) as [user|] eqn:Hget; simpl; [|exact Hu].
    destruct (User.is_active user); simpl; [|exact Hu].
    destruct em as [e|]; simpl.
    + assert (Ht : str_truthy e = true).
      { unfold str_truthy. apply negb_true_iff, String.eqb_neq. congruence. }
      rewrite Ht. simpl.
      destruct (bool_decide (Some e = Some (User.email user))) eqn:Hsame; simpl.
      * apply bool_decide_eq_true_1 in Hsame. injection Hsame as ->.
        rewrite Hget. simpl. destruct nm; simpl;
          (eapply unique_emails_update; [exact Hu | exact Hget | reflexivity|]);
          reflexivity.
      * apply bool_decide_eq_false_1 in Hsame.
        destruct (find_one User.set_id (fun u => String.eqb (User.email u) e)
                    (UserWorld.users w)) as [x|] eqn:Hf; simpl; [exact Hu|].
        rewrite Hget. simpl.
        assert (Hnew : forall k u0, UserWorld.users w !! k = Some u0 -> User.email u0 <> e).
        { intros k u0 Hk. pose proof (find_one_None _ _ _ Hf k u0 Hk) as Hn.
          simpl in Hn. now apply String.eqb_neq in Hn. }
        destruct nm; simpl; intros k1 k2 u1 u2; simpl; rewrite !lookup_insert;
          destruct (decide (user_id = k1)) as [<-|N1],
                   (decide (user_id = k2)) as [<-|N2];
          try reflexivity; try apply Hu.
        all: try (intros [= <-] H2 E; exfalso; apply (Hnew k2 u2 H2); now rewrite <- E).
        all: intros H1 [= <-] E; exfalso; apply (Hnew k1 u1 H1); now rewrite E.
    + rewrite Hget. simpl. destruct nm; simpl;
        (eapply unique_emails_update; [exact Hu | exact Hget | reflexivity|]);
        reflexivity.
  - intros user k other email Hget Hact Hk Hkne He Hoe. subst em.
    unfold_u. rewrite Hget. simpl. rewrite Hact. simpl.
    assert (Ht : str_truthy email = true).
    { unfold str_truthy. apply negb_true_iff, String.eqb_neq. congruence. }
    rewrite Ht. simpl.
    assert (Hd : bool_decide (Some email = Some (User.email user)) = false).
    { apply bool_decide_eq_false_2. intros [= E]. apply Hkne.
      eapply Hu; [exact Hk | exact Hget | congruence]. }
    rewrite Hd. simpl.
    destruct (find_one_found User.set_id (fun u => String.eqb (User.email u) email)
                (UserWorld.users w) k other Hk) as [x ->].
    { simpl. now apply String.eqb_eq. }
    reflexivity.
Qed.

(** ** Further statements at concrete inputs, continued *)

Lemma notification_store_answers : store_ok NotificationFixture.env.
Proof. intros n. reflexivity. Qed.

Lemma create_notification_rejects_witness :
  exists w',
    NotificationService.create_notification NotificationFixture.env
      (NotificationFixture.text_message (VStr "fax")) NotificationFixture.world
    = (Raise (Error "ValueError" "Invalid notification type: fax"), w')
    /\ NotificationWorld.notifications w' = ∅.
Proof.
  destruct (proj1 (create_notification_rejects NotificationFixture.env
                     (NotificationFixture.text_message (VStr "fax"))
                     NotificationFixture.world) eq_refl)
    as (w' & E & N & _).
  exists w'. split; [exact E | exact N].
Defined.

Lemma create_notification_sends_witness :
  exists n stored w' w'',
    NotificationService.create_notification NotificationFixture.env
      (NotificationFixture.text_message (VStr "sms")) NotificationFixture.world
    = (Return n, w')
    /\ Notification.status n = NotificationStatus.PENDING
    /\ NotificationService.get_notification_by_id NotificationFixture.env "nid0003" w'
       = (Return (Some stored), w'')
    /\ Notification.status stored = NotificationStatus.SENT
    /\ Notification.recipient stored = "+20100000000".
Proof.
  destruct (create_notification_sends NotificationFixture.env
              (NotificationFixture.text_message (VStr "sms")) NotificationFixture.world
              NotificationType.SMS "+20100000000" "order-service"
              notification_store_answers eq_refl eq_refl eq_refl)
    as (n & i & stored & w' & w'' & E & Hid & St & G & Ss & _ & _ & _ & Re & _).
  assert (Hi : i = "nid0003").
  { vm_compute in E. injection E as <- _. now injection Hid as <-. }
  subst i.
  exists n, stored, w', w''. split; [exact E|]. split; [exact St|].
  split; [exact G|]. split; [exact Ss | exact Re].
Defined.

Lemma retry_failed_notifications_effect_witness :
  exists w' n1,
    NotificationService.retry_failed_notifications NotificationFixture.env 3
      NotificationFixture.world_with_failures = (Return 1%nat, w')
    /\ NotificationWorld.notifications w' !! "n1" = Some n1
    /\ Notification.status n1 = NotificationStatus.SENT
    /\ Notification.retry_count n1 = 1%Z
    /\ NotificationWorld.notifications w' !! "n2"
       = Some (NotificationFixture.failed_sms 3).
Proof.
  destruct (retry_failed_notifications_effect NotificationFixture.env 3
              NotificationFixture.world_with_failures notification_store_answers)
    as (failed & w1 & w' & E1 & E2 & _ & _ & Hall & _ & Hpost).
  assert (Hf : length (List.filter (fun n => (Notification.retry_count n <? 3)%Z) failed)
               = 1%nat).
  { vm_compute in E1. injection E1 as <- _. reflexivity. }
  rewrite Hf in E2.
  destruct (Hpost "n1" (NotificationFixture.failed_sms 1) eq_refl)
    as (n1 & G1 & C1 & S1 & _).
  destruct (Hpost "n2" (NotificationFixture.failed_sms 3) eq_refl)
    as (n2 & G2 & _ & _ & U2).
  exists w', n1. split; [exact E2|]. split; [exact G1|].
  split.
  { apply S1; [|simpl; lia]. apply Hall; [reflexivity | reflexivity|].
    vm_compute. lia. }
  split.
  { destruct C1 as (_&_&_&_&_&_&_&_&_&Rc&_). exact Rc. }
  rewrite G2. f_equal. apply U2. right. simpl. lia.
Defined.

Lemma process_message_never_raises_witness :
  exists w',
    KafkaConsumer._process_message NotificationFixture.env NotificationFixture.user_login
      NotificationFixture.world = (Return tt, w')
    /\ NotificationWorld.notifications w' = ∅.
Proof.
  destruct (process_message_never_raises NotificationFixture.env
              NotificationFixture.user_login NotificationFixture.world)
    as (w' & E & H).
  exists w'. split; [exact E|].
  apply H.
  - intros (_ & v & Hv & Hev). injection Hv as <-. discriminate Hev.
  - intros (Ht & _). discriminate Ht.
Defined.

Lemma user_registered_is_welcomed_witness :
  exists i n w',
    KafkaConsumer._process_message NotificationFixture.env
      NotificationFixture.user_registered NotificationFixture.world = (Return tt, w')
    /\ NotificationWorld.notifications w' = {[i := n]}
    /\ Notification.recipient n = "alice@example.com"
    /\ Notification.message n
       = "Hello Alice, welcome to our platform! We're excited to have you on board."
    /\ Notification.status n = NotificationStatus.DELIVERED
    /\ Notification.source_service n = "user-service".
Proof.
  destruct (proj1 (user_registered_is_welcomed NotificationFixture.env
                     NotificationFixture.user_registered NotificationFixture.world
                     _ _ notification_store_answers eq_refl eq_refl eq_refl eq_refl)
              "alice@example.com" "user-service" eq_refl eq_refl)
    as (i & n & w' & E & W & _ & Re & _ & Me & St & _ & _ & _ & _ & So & _).
  { discriminate. }
  exists i, n, w'. split; [exact E|]. split; [exact W|]. split; [exact Re|].
  split; [exact Me|]. split; [exact St | exact So].
Defined.

Lemma low_stock_alert_witness :
  (exists i n w',
     KafkaConsumer._process_message NotificationFixture.env
       (NotificationFixture.stock_updated 3) NotificationFixture.world = (Return tt, w')
     /\ NotificationWorld.notifications w' = {[i := n]}
     /\ Notification.recipient n = "admin@ecommerce.com"
     /\ Notification.message n = "Product p1 has low stock: 3 units remaining."
     /\ Notification.priority n = 4%Z)
  /\ exists w',
       KafkaConsumer._process_message NotificationFixture.env
         (NotificationFixture.stock_updated 10) NotificationFixture.world = (Return tt, w')
       /\ NotificationWorld.notifications w' = ∅.
Proof.
  split.
  - destruct (proj1 (low_stock_alert NotificationFixture.env
                       (NotificationFixture.stock_updated 3) NotificationFixture.world
                       _ _ notification_store_answers eq_refl eq_refl eq_refl eq_refl)
                3%Z "product-service" eq_refl eq_refl)
      as (i & n & w' & E & W & _ & Re & _ & Me & _ & _ & _ & _ & Pr).
    { lia. }
    exists i, n, w'. split; [exact E|]. split; [exact W|]. split; [exact Re|].
    split; [exact Me | exact Pr].
  - apply (proj1 (proj2 (low_stock_alert NotificationFixture.env
                           (NotificationFixture.stock_updated 10)
                           NotificationFixture.world
                           _ _ notification_store_answers eq_refl eq_refl eq_refl
                           eq_refl)) 10%Z eq_refl).
    lia.
Defined.

Lemma delete_notification_removes_witness :
  exists w' w'',
    NotificationRepository.delete_notification NotificationFixture.env "n1"
      NotificationFixture.world_with_failures = (Return true, w')
    /\ NotificationService.get_notification_by_id NotificationFixture.env "n1" w'
       = (Return None, w'')
    /\ NotificationWorld.notifications w' !! "n2"
       = Some (NotificationFixture.failed_sms 3).
Proof.
  destruct (proj1 (proj2 (delete_notification_removes NotificationFixture.env "n1"
                            NotificationFixture.world_with_failures))
              notification_store_answers (NotificationFixture.failed_sms 1) eq_refl)
    as (w' & w'' & E & W & G).
  exists w', w''. split; [exact E|]. split; [exact G|].
  rewrite W. reflexivity.
Defined.

Lemma update_notification_status_effect_witness :
  exists n' w',
    NotificationService.update_notification_status NotificationFixture.env "n2"
      NotificationStatus.PENDING None NotificationFixture.world_with_failures
    = (Return (Some n'), w')
    /\ Notification.status n' = NotificationStatus.PENDING
    /\ Notification.retry_count n' = 3%Z
    /\ Notification.sent_at n' = None.
Proof.
  destruct (proj2 (proj2 (update_notification_status_effect NotificationFixture.env "n2"
                            NotificationStatus.PENDING None
                            NotificationFixture.world_with_failures))
              notification_store_answers (NotificationFixture.failed_sms 3) eq_refl)
    as (n' & w' & E & _ & S & C & _ & _ & T).
  exists n', w'. split; [exact E|]. split; [exact S|].
  split.
  { destruct C as (_&_&_&_&_&_&_&_&_&Rc&_). exact Rc. }
  apply T; discriminate.
Defined.

Lemma get_notifications_page_witness :
  exists page w1,
    NotificationRepository.get_notifications NotificationFixture.env (Some "")
      (Some NotificationStatus.FAILED) 1 0 NotificationFixture.world_with_failures
    = (Return page, w1)
    /\ NotificationRepository.count_notifications NotificationFixture.env (Some "")
         (Some NotificationStatus.FAILED) NotificationFixture.world_with_failures
       = (Return 2%nat, w1)
    /\ length page = 1%nat.
Proof.
  destruct (get_notifications_page NotificationFixture.env (Some "")
              (Some NotificationStatus.FAILED) 1 0 NotificationFixture.world_with_failures
              notification_store_answers)
    as (page & total & w1 & w2 & E1 & E2 & _ & _ & _ & L).
  assert (Ht : total = 2%nat /\ w2 = w1).
  { vm_compute in E1, E2. injection E1 as _ <-. injection E2 as <- <-. split; reflexivity. }
  destruct Ht as (-> & ->).
  exists page, w1. split; [exact E1|]. split; [exact E2|]. exact L.
Defined.

Lemma soft_deleted_category_witness :
  exists w' r,
    CategoryService.delete_category Fixture.product_env "c1" Fixture.product_world
    = (Return "Category deleted successfully", w')
    /\ CategoryService.get_category_by_id "c1" w' = (Return r, w')
    /\ CategoryResponse.name r = "Tools"
    /\ CategoryResponse.is_active r = false.
Proof.
  destruct (soft_deleted_category Fixture.product_env "c1" Fixture.product_world
              Fixture.stored_category eq_refl)
    as (w' & c' & E & _ & _ & _ & _ & (r & G & _ & Hn & Ha) & _).
  exists w', r. split; [exact E|]. split; [exact G|]. split; [exact Hn | exact Ha].
Defined.

Lemma create_product_in_category_witness :
  exists resp w' p,
    ProductService.create_product Fixture.product_env MoreFixture.hammer
      Fixture.product_world = (Return resp, w')
    /\ ProductWorld.products w' !! ProductResponse.id resp = Some p
    /\ Product.category_name p = Some "Tools"
    /\ Product.stock_quantity p = 0%Z
    /\ Product.is_available p = true.
Proof.
  destruct (proj2 (create_product_in_category Fixture.product_env MoreFixture.hammer
                     Fixture.product_world "c1" eq_refl eq_refl eq_refl
                     ltac:(discriminate)) Fixture.stored_category eq_refl)
    as (resp & w' & p & E & W & _ & _ & Hn & _ & Hs & Ha & _).
  exists resp, w', p. split; [exact E|].
  split; [rewrite W; apply lookup_insert_eq|].
  split; [exact Hn|]. split; [exact Hs | exact Ha].
Defined.

Lemma update_user_profile_keeps_emails_unique_witness :
  unique_emails MoreFixture.two_users
  /\ UserService.update_user_profile Fixture.user_env "u2"
       {| UserUpdate.name := None; UserUpdate.email := Some "alice@example.com" |}
       MoreFixture.two_users
     = (Raise (HTTPException HTTP_400_BAD_REQUEST "Email already exists"),
        MoreFixture.two_users).
Proof.
  assert (H : unique_emails MoreFixture.two_users).
  { intros k1 k2 u1 u2 H1 H2 E. simpl in H1, H2.
    apply lookup_insert_Some in H1 as [[<- <-] | [N1 H1]];
      apply lookup_insert_Some in H2 as [[<- <-] | [N2 H2]]; try reflexivity.
    - apply lookup_singleton_Some in H2 as [<- <-]. discriminate E.
    - apply lookup_singleton_Some in H1 as [<- <-]. discriminate E.
    - apply lookup_singleton_Some in H1 as [<- _].
      apply lookup_singleton_Some in H2 as [<- _]. reflexivity. }
  split; [exact H|].
  apply (proj2 (update_user_profile_keeps_emails_unique Fixture.user_env "u2"
                  {| UserUpdate.name := None;
                     UserUpdate.email := Some "alice@example.com" |}
                  MoreFixture.two_users H ltac:(discriminate))
           MoreFixture.stored_bob "u1" Fixture.stored_alice "alice@example.com");
    try reflexivity.
  discriminate.
Defined.
